(** * The hero terminal of the landing page

    A shallow embedding of [src/components/hero-terminal.tsx]: the
    IP-geolocation helper [fetchIPInfo], the command interpreter
    [processCommand], the two typing animations, the keyboard handler and
    the crash-screen countdown, together with the browser timers they
    schedule.

    Conventions.
    - A JavaScript string is a [string] of 8-bit code units (the Latin-1
      range); [toLowerCase] and [trim] are the ECMAScript functions
      restricted to that range.
    - React state is a record; a handler reads the values of the render it
      was created in and queues updates, which are applied in order.
    - A pending timer is an entry of a finite map from timer ids to the
      callback it will run.  Delays are not recorded: any pending timer may
      be the next to fire. *)

From Stdlib Require Import ZArith Ascii.
From Stdlib Require String.
From stdpp Require Import base option list gmap strings pretty.

Local Open Scope Z_scope.

(** ** JavaScript strings *)

(** [s.slice(0, n)] for [0 <= n]. *)
Fixpoint slice0 (n : nat) (s : string) : string :=
  match n, s with
  | S n', String c s' => String c (slice0 n' s')
  | _, _ => ""
  end.

(** [s.startsWith(p)]. *)
Definition startsWith (p s : string) : bool := String.prefix p s.

(** [s.includes(m)]: [m] occurs in [s] at some position. *)
Fixpoint includes (m s : string) : bool :=
  if String.prefix m s then true
  else match s with
       | String _ s' => includes m s'
       | EmptyString => false
       end.

(** Code units that [trim] strips (WhiteSpace and LineTerminator below
    U+0100): TAB, LF, VT, FF, CR, SP and NBSP. *)
Definition isWhiteSpace (c : ascii) : bool :=
  let n := nat_of_ascii c in
  ((9 <=? n)%nat && (n <=? 13)%nat) || (n =? 32)%nat || (n =? 160)%nat.

(** Lower-casing of one code unit: A-Z, and the Latin-1 capitals
    U+00C0-U+00DE without the multiplication sign U+00D7. *)
Definition lowerChar (c : ascii) : ascii :=
  let n := nat_of_ascii c in
  if ((65 <=? n)%nat && (n <=? 90)%nat)
     || ((192 <=? n)%nat && (n <=? 222)%nat && negb (n =? 215)%nat)
  then ascii_of_nat (n + 32) else c.

Fixpoint toLowerCase (s : string) : string :=
  match s with
  | EmptyString => EmptyString
  | String c s' => String (lowerChar c) (toLowerCase s')
  end.

Fixpoint trimStart (s : string) : string :=
  match s with
  | String c s' => if isWhiteSpace c then trimStart s' else s
  | EmptyString => EmptyString
  end.

(** Drops the trailing white space: a character is kept when it is not
    white space or when something is kept after it. *)
Fixpoint trimEnd (s : string) : string :=
  match s with
  | EmptyString => EmptyString
  | String c s' =>
      match trimEnd s' with
      | EmptyString => if isWhiteSpace c then EmptyString else String c EmptyString
      | r => String c r
      end
  end.

Definition trim (s : string) : string := trimEnd (trimStart s).

(** Truthiness of a string. *)
Definition truthy (s : string) : bool :=
  match s with EmptyString => false | _ => true end.

(** [s.split(" ").pop()]: what follows the last space of [s]. *)
Fixpoint lastWord (s : string) : string :=
  match s with
  | EmptyString => EmptyString
  | String c s' =>
      if includes " " s' then lastWord s'
      else if Ascii.eqb c " " then s' else s
  end.

(** ** The host: what the page reads from the browser *)

Record Browser := {
  doNotTrack : option string;        (* navigator.doNotTrack *)
  chromeRuntimeOnConnect : bool;     (* truthiness of window.chrome?.runtime?.onConnect *)
  userAgent : string;
  platform : string;
  language : string;
  timeZone : string;                 (* Intl.DateTimeFormat().resolvedOptions().timeZone *)
  screenWidth : N;
  screenHeight : N;
  innerWidth : N;
  innerHeight : N;
  colorDepth : N;
  devicePixelRatio : string          (* decimal rendering of window.devicePixelRatio *)
}.

(** ** fetchIPInfo *)

Definition IP_FALLBACK : string := "IP_MASKED | LOCATION_ENCRYPTED | NETWORK_SECURED".

(** What [response.json()] yields. *)
Inductive Body :=
| BodyInvalid                                (* the body does not parse: json() rejects *)
| BodyNull                                   (* the JSON value null: reading data.ip throws *)
| BodyData (ip city region org : string).    (* renderings of the four properties read *)

Inductive JsError :=
| NetworkError        (* fetch rejects: TypeError *)
| AbortError          (* controller.abort() after 3000 ms *)
| HttpError (status : N)
| JsonError
| NullError.

(** What one [fetch] call does. *)
Inductive Outcome :=
| Rejected (e : JsError)
| Responded (ok : bool) (status : N) (body : Body).

(** Result of running a block: it completes with a value or throws. *)
Inductive Completion (A : Type) :=
| Normal (a : A)
| Throw (e : JsError).
Arguments Normal {A} a.
Arguments Throw {A} e.

Definition isLikelyBlocked (b : Browser) : bool :=
  bool_decide (doNotTrack b = Some "1")
  || chromeRuntimeOnConnect b
  || (includes "Firefox" (userAgent b) && includes "Private" (userAgent b)).

(** The [try] block of one attempt. *)
Definition attemptBody (o : Outcome) : Completion string :=
  match o with
  | Rejected e => Throw e
  | Responded ok status body =>
      if negb ok then Throw (HttpError status)
      else match body with
           | BodyInvalid => Throw JsonError
           | BodyNull => Throw NullError
           | BodyData ip city region org =>
               Normal (ip +:+ " | " +:+ city +:+ ", " +:+ region +:+ " | ISP: " +:+ org)
           end
  end.

(** The [for] loop from [attempt] on; [net a] is what the network does at
    attempt [a].  [None] only when the fuel runs out. *)
Fixpoint attemptsFrom (fuel attempt retries : nat) (net : nat → Outcome)
  : option (Completion string) :=
  match fuel with
  | O => None
  | S fuel' =>
      if (attempt <=? retries)%nat then
        match attemptBody (net attempt) with
        | Normal s => Some (Normal s)
        | Throw _ =>
            if (attempt =? retries)%nat then Some (Normal IP_FALLBACK)
            else attemptsFrom fuel' (S attempt) retries net
        end
      else Some (Normal IP_FALLBACK)
  end.

Definition fetchIPInfo (b : Browser) (retries : nat) (net : nat → Outcome)
  : option (Completion string) :=
  if isLikelyBlocked b then Some (Normal IP_FALLBACK)
  else attemptsFrom (S retries) 1 retries net.

(** The failure modes of one attempt. *)
Definition attemptFails (o : Outcome) : bool :=
  match o with
  | Rejected _ => true
  | Responded ok _ body =>
      negb ok || match body with BodyData _ _ _ _ => false | _ => true end
  end.

(** Every attempt [1..retries] fails. *)
Definition allAttemptsFail (retries : nat) (net : nat → Outcome) : bool :=
  forallb (λ a, attemptFails (net a)) (seq 1 retries).

(** ** Timers and component state *)

(** The functions the component hands to [setTimeout] and [setInterval]. *)
Inductive Callback :=
| CbTypeCharacter                (* setTimeout(typeCharacter, ...) *)
| CbInitialTimeout               (* the 500 ms delay of executeExit *)
| CbTypeExitSequence             (* setTimeout(typeExitSequence, ...) *)
| CbBsodTimeout                  (* the 500 ms delay before the crash screen *)
| CbCountdown (shown : Z)        (* () => setCountdown(countdown - 1), with its countdown *)
| CbFocus                        (* () => inputRef.current?.focus() *)
| CbTypeTimer                    (* header typing interval *)
| CbCursorTimer                  (* header cursor interval *)
| CbInputCursorTimer.            (* input cursor interval *)

Record Timer := { callback : Callback; repeats : bool }.

Record Ui := {
  displayText : string;
  showCursor : bool;
  terminalLines : list string;
  isTypingLine : bool;
  isInteractive : bool;
  userInput : string;
  showInputCursor : bool;
  commandHistory : list string;
  historyIndex : Z;
  showBSOD : bool;
  isExitSequenceActive : bool;
  countdown : Z;
  showRestartButton : bool
}.

Record Vars := {
  exitTimeoutsRef : list nat;
  ipInfoRef : string;
  lineIndex : nat;
  charIndex : nat;
  exitLineIndex : nat;
  exitCharIndex : nat;
  headerI : nat;
  typeTimer : nat;
  cursorTimer : nat;
  inputCursorTimer : nat;
  countdownTimer : option nat
}.

Record Host := {
  timers : gmap nat Timer;
  nextTimerId : nat;
  ipFetchPending : bool;
  exitTriggered : list bool;
  focusCalls : nat;
  reloaded : bool;
  mounted : bool
}.

Record State := { ui : Ui; vars : Vars; host : Host }.

Definition onUi (f : Ui → Ui) (s : State) : State :=
  {| ui := f (ui s); vars := vars s; host := host s |}.
Definition onVars (f : Vars → Vars) (s : State) : State :=
  {| ui := ui s; vars := f (vars s); host := host s |}.
Definition onHost (f : Host → Host) (s : State) : State :=
  {| ui := ui s; vars := vars s; host := f (host s) |}.

Definition setDisplayText (v : string) : State → State :=
  onUi (λ x,
    {| displayText := v; showCursor := showCursor x; terminalLines := terminalLines x;
       isTypingLine := isTypingLine x; isInteractive := isInteractive x;
       userInput := userInput x; showInputCursor := showInputCursor x;
       commandHistory := commandHistory x; historyIndex := historyIndex x;
       showBSOD := showBSOD x; isExitSequenceActive := isExitSequenceActive x;
       countdown := countdown x; showRestartButton := showRestartButton x |}).
Definition setShowCursor (v : bool) : State → State :=
  onUi (λ x,
    {| displayText := displayText x; showCursor := v; terminalLines := terminalLines x;
       isTypingLine := isTypingLine x; isInteractive := isInteractive x;
       userInput := userInput x; showInputCursor := showInputCursor x;
       commandHistory := commandHistory x; historyIndex := historyIndex x;
       showBSOD := showBSOD x; isExitSequenceActive := isExitSequenceActive x;
       countdown := countdown x; showRestartButton := showRestartButton x |}).
Definition setTerminalLines (v : list string) : State → State :=
  onUi (λ x,
    {| displayText := displayText x; showCursor := showCursor x; terminalLines := v;
       isTypingLine := isTypingLine x; isInteractive := isInteractive x;
       userInput := userInput x; showInputCursor := showInputCursor x;
       commandHistory := commandHistory x; historyIndex := historyIndex x;
       showBSOD := showBSOD x; isExitSequenceActive := isExitSequenceActive x;
       countdown := countdown x; showRestartButton := showRestartButton x |}).
Definition setIsTypingLine (v : bool) : State → State :=
  onUi (λ x,
    {| displayText := displayText x; showCursor := showCursor x;
       terminalLines := terminalLines x; isTypingLine := v;
       isInteractive := isInteractive x; userInput := userInput x;
       showInputCursor := showInputCursor x; commandHistory := commandHistory x;
       historyIndex := historyIndex x; showBSOD := showBSOD x;
       isExitSequenceActive := isExitSequenceActive x; countdown := countdown x;
       showRestartButton := showRestartButton x |}).
Definition setIsInteractive (v : bool) : State → State :=
  onUi (λ x,
    {| displayText := displayText x; showCursor := showCursor x;
       terminalLines := terminalLines x; isTypingLine := isTypingLine x; isInteractive := v;
       userInput := userInput x; showInputCursor := showInputCursor x;
       commandHistory := commandHistory x; historyIndex := historyIndex x;
       showBSOD := showBSOD x; isExitSequenceActive := isExitSequenceActive x;
       countdown := countdown x; showRestartButton := showRestartButton x |}).
Definition setUserInput (v : string) : State → State :=
  onUi (λ x,
    {| displayText := displayText x; showCursor := showCursor x;
       terminalLines := terminalLines x; isTypingLine := isTypingLine x;
       isInteractive := isInteractive x; userInput := v;
       showInputCursor := showInputCursor x; commandHistory := commandHistory x;
       historyIndex := historyIndex x; showBSOD := showBSOD x;
       isExitSequenceActive := isExitSequenceActive x; countdown := countdown x;
       showRestartButton := showRestartButton x |}).
Definition setShowInputCursor (v : bool) : State → State :=
  onUi (λ x,
    {| displayText := displayText x; showCursor := showCursor x;
       terminalLines := terminalLines x; isTypingLine := isTypingLine x;
       isInteractive := isInteractive x; userInput := userInput x; showInputCursor := v;
       commandHistory := commandHistory x; historyIndex := historyIndex x;
       showBSOD := showBSOD x; isExitSequenceActive := isExitSequenceActive x;
       countdown := countdown x; showRestartButton := showRestartButton x |}).
Definition setCommandHistory (v : list string) : State → State :=
  onUi (λ x,
    {| displayText := displayText x; showCursor := showCursor x;
       terminalLines := terminalLines x; isTypingLine := isTypingLine x;
       isInteractive := isInteractive x; userInput := userInput x;
       showInputCursor := showInputCursor x; commandHistory := v;
       historyIndex := historyIndex x; showBSOD := showBSOD x;
       isExitSequenceActive := isExitSequenceActive x; countdown := countdown x;
       showRestartButton := showRestartButton x |}).
Definition setHistoryIndex (v : Z) : State → State :=
  onUi (λ x,
    {| displayText := displayText x; showCursor := showCursor x;
       terminalLines := terminalLines x; isTypingLine := isTypingLine x;
       isInteractive := isInteractive x; userInput := userInput x;
       showInputCursor := showInputCursor x; commandHistory := commandHistory x;
       historyIndex := v; showBSOD := showBSOD x;
       isExitSequenceActive := isExitSequenceActive x; countdown := countdown x;
       showRestartButton := showRestartButton x |}).
Definition setShowBSOD (v : bool) : State → State :=
  onUi (λ x,
    {| displayText := displayText x; showCursor := showCursor x;
       terminalLines := terminalLines x; isTypingLine := isTypingLine x;
       isInteractive := isInteractive x; userInput := userInput x;
       showInputCursor := showInputCursor x; commandHistory := commandHistory x;
       historyIndex := historyIndex x; showBSOD := v;
       isExitSequenceActive := isExitSequenceActive x; countdown := countdown x;
       showRestartButton := showRestartButton x |}).
Definition setIsExitSequenceActive (v : bool) : State → State :=
  onUi (λ x,
    {| displayText := displayText x; showCursor := showCursor x;
       terminalLines := terminalLines x; isTypingLine := isTypingLine x;
       isInteractive := isInteractive x; userInput := userInput x;
       showInputCursor := showInputCursor x; commandHistory := commandHistory x;
       historyIndex := historyIndex x; showBSOD := showBSOD x; isExitSequenceActive := v;
       countdown := countdown x; showRestartButton := showRestartButton x |}).
Definition setCountdown (v : Z) : State → State :=
  onUi (λ x,
    {| displayText := displayText x; showCursor := showCursor x;
       terminalLines := terminalLines x; isTypingLine := isTypingLine x;
       isInteractive := isInteractive x; userInput := userInput x;
       showInputCursor := showInputCursor x; commandHistory := commandHistory x;
       historyIndex := historyIndex x; showBSOD := showBSOD x;
       isExitSequenceActive := isExitSequenceActive x; countdown := v;
       showRestartButton := showRestartButton x |}).
Definition setShowRestartButton (v : bool) : State → State :=
  onUi (λ x,
    {| displayText := displayText x; showCursor := showCursor x;
       terminalLines := terminalLines x; isTypingLine := isTypingLine x;
       isInteractive := isInteractive x; userInput := userInput x;
       showInputCursor := showInputCursor x; commandHistory := commandHistory x;
       historyIndex := historyIndex x; showBSOD := showBSOD x;
       isExitSequenceActive := isExitSequenceActive x; countdown := countdown x;
       showRestartButton := v |}).
Definition set_exitTimeoutsRef (v : list nat) : State → State :=
  onVars (λ x,
    {| exitTimeoutsRef := v; ipInfoRef := ipInfoRef x; lineIndex := lineIndex x;
       charIndex := charIndex x; exitLineIndex := exitLineIndex x;
       exitCharIndex := exitCharIndex x; headerI := headerI x; typeTimer := typeTimer x;
       cursorTimer := cursorTimer x; inputCursorTimer := inputCursorTimer x;
       countdownTimer := countdownTimer x |}).
Definition set_ipInfoRef (v : string) : State → State :=
  onVars (λ x,
    {| exitTimeoutsRef := exitTimeoutsRef x; ipInfoRef := v; lineIndex := lineIndex x;
       charIndex := charIndex x; exitLineIndex := exitLineIndex x;
       exitCharIndex := exitCharIndex x; headerI := headerI x; typeTimer := typeTimer x;
       cursorTimer := cursorTimer x; inputCursorTimer := inputCursorTimer x;
       countdownTimer := countdownTimer x |}).
Definition set_lineIndex (v : nat) : State → State :=
  onVars (λ x,
    {| exitTimeoutsRef := exitTimeoutsRef x; ipInfoRef := ipInfoRef x; lineIndex := v;
       charIndex := charIndex x; exitLineIndex := exitLineIndex x;
       exitCharIndex := exitCharIndex x; headerI := headerI x; typeTimer := typeTimer x;
       cursorTimer := cursorTimer x; inputCursorTimer := inputCursorTimer x;
       countdownTimer := countdownTimer x |}).
Definition set_charIndex (v : nat) : State → State :=
  onVars (λ x,
    {| exitTimeoutsRef := exitTimeoutsRef x; ipInfoRef := ipInfoRef x;
       lineIndex := lineIndex x; charIndex := v; exitLineIndex := exitLineIndex x;
       exitCharIndex := exitCharIndex x; headerI := headerI x; typeTimer := typeTimer x;
       cursorTimer := cursorTimer x; inputCursorTimer := inputCursorTimer x;
       countdownTimer := countdownTimer x |}).
Definition set_exitLineIndex (v : nat) : State → State :=
  onVars (λ x,
    {| exitTimeoutsRef := exitTimeoutsRef x; ipInfoRef := ipInfoRef x;
       lineIndex := lineIndex x; charIndex := charIndex x; exitLineIndex := v;
       exitCharIndex := exitCharIndex x; headerI := headerI x; typeTimer := typeTimer x;
       cursorTimer := cursorTimer x; inputCursorTimer := inputCursorTimer x;
       countdownTimer := countdownTimer x |}).
Definition set_exitCharIndex (v : nat) : State → State :=
  onVars (λ x,
    {| exitTimeoutsRef := exitTimeoutsRef x; ipInfoRef := ipInfoRef x;
       lineIndex := lineIndex x; charIndex := charIndex x; exitLineIndex := exitLineIndex x;
       exitCharIndex := v; headerI := headerI x; typeTimer := typeTimer x;
       cursorTimer := cursorTimer x; inputCursorTimer := inputCursorTimer x;
       countdownTimer := countdownTimer x |}).
Definition set_headerI (v : nat) : State → State :=
  onVars (λ x,
    {| exitTimeoutsRef := exitTimeoutsRef x; ipInfoRef := ipInfoRef x;
       lineIndex := lineIndex x; charIndex := charIndex x; exitLineIndex := exitLineIndex x;
       exitCharIndex := exitCharIndex x; headerI := v; typeTimer := typeTimer x;
       cursorTimer := cursorTimer x; inputCursorTimer := inputCursorTimer x;
       countdownTimer := countdownTimer x |}).
Definition set_typeTimer (v : nat) : State → State :=
  onVars (λ x,
    {| exitTimeoutsRef := exitTimeoutsRef x; ipInfoRef := ipInfoRef x;
       lineIndex := lineIndex x; charIndex := charIndex x; exitLineIndex := exitLineIndex x;
       exitCharIndex := exitCharIndex x; headerI := headerI x; typeTimer := v;
       cursorTimer := cursorTimer x; inputCursorTimer := inputCursorTimer x;
       countdownTimer := countdownTimer x |}).
Definition set_cursorTimer (v : nat) : State → State :=
  onVars (λ x,
    {| exitTimeoutsRef := exitTimeoutsRef x; ipInfoRef := ipInfoRef x;
       lineIndex := lineIndex x; charIndex := charIndex x; exitLineIndex := exitLineIndex x;
       exitCharIndex := exitCharIndex x; headerI := headerI x; typeTimer := typeTimer x;
       cursorTimer := v; inputCursorTimer := inputCursorTimer x;
       countdownTimer := countdownTimer x |}).
Definition set_inputCursorTimer (v : nat) : State → State :=
  onVars (λ x,
    {| exitTimeoutsRef := exitTimeoutsRef x; ipInfoRef := ipInfoRef x;
       lineIndex := lineIndex x; charIndex := charIndex x; exitLineIndex := exitLineIndex x;
       exitCharIndex := exitCharIndex x; headerI := headerI x; typeTimer := typeTimer x;
       cursorTimer := cursorTimer x; inputCursorTimer := v;
       countdownTimer := countdownTimer x |}).
Definition set_countdownTimer (v : option nat) : State → State :=
  onVars (λ x,
    {| exitTimeoutsRef := exitTimeoutsRef x; ipInfoRef := ipInfoRef x;
       lineIndex := lineIndex x; charIndex := charIndex x; exitLineIndex := exitLineIndex x;
       exitCharIndex := exitCharIndex x; headerI := headerI x; typeTimer := typeTimer x;
       cursorTimer := cursorTimer x; inputCursorTimer := inputCursorTimer x;
       countdownTimer := v |}).
Definition set_timers (v : gmap nat Timer) : State → State :=
  onHost (λ x,
    {| timers := v; nextTimerId := nextTimerId x; ipFetchPending := ipFetchPending x;
       exitTriggered := exitTriggered x; focusCalls := focusCalls x; reloaded := reloaded x;
       mounted := mounted x |}).
Definition set_nextTimerId (v : nat) : State → State :=
  onHost (λ x,
    {| timers := timers x; nextTimerId := v; ipFetchPending := ipFetchPending x;
       exitTriggered := exitTriggered x; focusCalls := focusCalls x; reloaded := reloaded x;
       mounted := mounted x |}).
Definition set_ipFetchPending (v : bool) : State → State :=
  onHost (λ x,
    {| timers := timers x; nextTimerId := nextTimerId x; ipFetchPending := v;
       exitTriggered := exitTriggered x; focusCalls := focusCalls x; reloaded := reloaded x;
       mounted := mounted x |}).
Definition set_exitTriggered (v : list bool) : State → State :=
  onHost (λ x,
    {| timers := timers x; nextTimerId := nextTimerId x; ipFetchPending := ipFetchPending x;
       exitTriggered := v; focusCalls := focusCalls x; reloaded := reloaded x;
       mounted := mounted x |}).
Definition set_focusCalls (v : nat) : State → State :=
  onHost (λ x,
    {| timers := timers x; nextTimerId := nextTimerId x; ipFetchPending := ipFetchPending x;
       exitTriggered := exitTriggered x; focusCalls := v; reloaded := reloaded x;
       mounted := mounted x |}).
Definition set_reloaded (v : bool) : State → State :=
  onHost (λ x,
    {| timers := timers x; nextTimerId := nextTimerId x; ipFetchPending := ipFetchPending x;
       exitTriggered := exitTriggered x; focusCalls := focusCalls x; reloaded := v;
       mounted := mounted x |}).
Definition set_mounted (v : bool) : State → State :=
  onHost (λ x,
    {| timers := timers x; nextTimerId := nextTimerId x; ipFetchPending := ipFetchPending x;
       exitTriggered := exitTriggered x; focusCalls := focusCalls x; reloaded := reloaded x;
       mounted := v |}).

Definition setTerminalLinesWith (f : list string → list string) (s : State) : State :=
  setTerminalLines (f (terminalLines (ui s))) s.

(** [setTimeout(cb, _)]: a fresh id, and the entry of the pending timer. *)
Definition setTimeout (cb : Callback) (s : State) : nat * State :=
  let id := nextTimerId (host s) in
  (id, set_nextTimerId (S id)
         (set_timers (<[id := {| callback := cb; repeats := false |}]> (timers (host s))) s)).

Definition setInterval (cb : Callback) (s : State) : nat * State :=
  let id := nextTimerId (host s) in
  (id, set_nextTimerId (S id)
         (set_timers (<[id := {| callback := cb; repeats := true |}]> (timers (host s))) s)).

(** [clearTimeout(id)] and [clearInterval(id)] share one pool of ids. *)
Definition clearTimeout (id : nat) (s : State) : State :=
  set_timers (delete id (timers (host s))) s.

Definition clearInterval (id : nat) (s : State) : State := clearTimeout id s.

Definition initialState : State :=
  {| ui := {| displayText := ""; showCursor := true; terminalLines := [];
              isTypingLine := false; isInteractive := false; userInput := "";
              showInputCursor := true; commandHistory := []; historyIndex := -1;
              showBSOD := false; isExitSequenceActive := false; countdown := 7;
              showRestartButton := false |};
     vars := {| exitTimeoutsRef := []; ipInfoRef := IP_FALLBACK;
                lineIndex := 0; charIndex := 0; exitLineIndex := 0; exitCharIndex := 0;
                headerI := 0; typeTimer := 0; cursorTimer := 0; inputCursorTimer := 0;
                countdownTimer := None |};
     host := {| timers := ∅; nextTimerId := 1; ipFetchPending := false;
                exitTriggered := []; focusCalls := 0; reloaded := false;
                mounted := true |} |}.

(** ** Markup *)

Definition dq : string := String (ascii_of_nat 34) EmptyString.

(** [<span class="cls">body</span>] *)
Definition span (cls body : string) : string :=
  "<span class=" +:+ dq +:+ cls +:+ dq +:+ ">" +:+ body +:+ "</span>".

(** [<a href="href" target="_blank" rel="noopener noreferrer" class="cls">body</a>] *)
Definition anchor (href cls body : string) : string :=
  "<a href=" +:+ dq +:+ href +:+ dq +:+ " target=" +:+ dq +:+ "_blank" +:+ dq
  +:+ " rel=" +:+ dq +:+ "noopener noreferrer" +:+ dq
  +:+ " class=" +:+ dq +:+ cls +:+ dq +:+ ">" +:+ body +:+ "</a>".

Definition FULL_TEXT : string := "promethean protocols".

(** ** btoa *)

Definition base64Alphabet : string :=
  "ABCDEFGHIJKLMNOPQRSTUVWXYZabcdefghijklmnopqrstuvwxyz0123456789+/".

Definition base64Char (n : N) : ascii :=
  default "="%char (String.get (N.to_nat n) base64Alphabet).

Fixpoint btoaBytes (l : list N) : string :=
  match l with
  | [] => ""
  | [x] =>
      String (base64Char (N.shiftr x 2))
        (String (base64Char (N.shiftl (N.land x 3) 4)) "==")
  | [x; y] =>
      String (base64Char (N.shiftr x 2))
        (String (base64Char (N.lor (N.shiftl (N.land x 3) 4) (N.shiftr y 4)))
           (String (base64Char (N.shiftl (N.land y 15) 2)) "="))
  | x :: y :: z :: rest =>
      String (base64Char (N.shiftr x 2))
        (String (base64Char (N.lor (N.shiftl (N.land x 3) 4) (N.shiftr y 4)))
           (String (base64Char (N.lor (N.shiftl (N.land y 15) 2) (N.shiftr z 6)))
              (String (base64Char (N.land z 63)) (btoaBytes rest))))
  end.

Definition btoa (s : string) : string :=
  btoaBytes (map N_of_ascii (String.list_ascii_of_string s)).

(** ** Values computed once by detectUserMetadata *)

Definition screen (b : Browser) : string :=
  pretty (screenWidth b) +:+ "x" +:+ pretty (screenHeight b).

Definition viewport (b : Browser) : string :=
  pretty (innerWidth b) +:+ "x" +:+ pretty (innerHeight b).

Definition fingerprint (b : Browser) : string :=
  slice0 16 (btoa (userAgent b +:+ platform b +:+ screen b)).

(** ** Scripted text *)

Definition helpOutput : list string :=
  [ span "text-cyan-400 font-bold" "Authorized Commands:";
    "  " +:+ span "text-yellow-400" "clear" +:+ "         - "
      +:+ span "text-gray-400" "Clear the terminal screen";
    "  " +:+ span "text-yellow-400" "whoami" +:+ "        - "
      +:+ span "text-gray-400" "Display promethean protocols";
    "  " +:+ span "text-yellow-400" "time" +:+ "          - "
      +:+ span "text-gray-400" "Show local date/time";
    "  " +:+ span "text-yellow-400" "trace" +:+ "         - "
      +:+ span "text-gray-400" "Run trace sequence";
    "  " +:+ span "text-yellow-400" "access" +:+ "        - "
      +:+ span "text-gray-400" "Access promethean protocols";
    "  " +:+ span "text-yellow-400" "flipthebits" +:+ "   - "
      +:+ span "text-gray-400" "Flip the bits" ].

Definition whoamiOutput : list string :=
  [ span "text-green-400" "Name:" +:+ " " +:+ span "text-green-300" "CreativeSky.AI";
    span "text-green-400" "Location:" +:+ " " +:+ span "text-green-200" "nearing you..";
    span "text-green-400" "X (Twitter):" +:+ " "
      +:+ anchor "https://x.com/CreativeSkyAI" "text-green-300 hover:text-green-200 underline" "@CreativeSkyAI";
    span "text-green-400" "GitHub:" +:+ " "
      +:+ anchor "https://github.com/CreativeSkyAI/promethean-protocols" "text-green-300 hover:text-green-200 underline" "@CreativeSkyAI";
    span "text-green-400" "Web:" +:+ " "
      +:+ anchor "https://CreativeSky.AI" "text-green-300 hover:text-green-200 underline" "CreativeSky.AI" ].

Definition accessOutput : list string :=
  [ span "text-red-400 font-bold" "[ACCESS DENIED]" +:+ " "
      +:+ span "text-yellow-400" "PLEASE ENTER 'FLIPTHEBITS'" ].

Definition traceOutput : list string :=
  [ span "text-cyan-400" "$ traceroute target_host";
    span "text-gray-400" "traceroute to" +:+ " " +:+ span "text-white" "target_host" +:+ " "
      +:+ span "text-gray-400" "(" +:+ span "text-cyan-300" "192.168.1.1"
      +:+ span "text-gray-400" "), 30 hops max, 60 byte packets";
    " " +:+ span "text-yellow-400" "1" +:+ "  " +:+ span "text-green-300" "gateway" +:+ " "
      +:+ span "text-gray-400" "(" +:+ span "text-cyan-300" "192.168.1.1"
      +:+ span "text-gray-400" ")" +:+ "  " +:+ span "text-white" "1.234 ms" +:+ "  "
      +:+ span "text-white" "1.123 ms" +:+ "  " +:+ span "text-white" "1.456 ms";
    " " +:+ span "text-yellow-400" "2" +:+ "  " +:+ span "text-cyan-300" "10.0.0.1" +:+ " "
      +:+ span "text-gray-400" "(" +:+ span "text-cyan-300" "10.0.0.1"
      +:+ span "text-gray-400" ")" +:+ "  " +:+ span "text-white" "12.345 ms" +:+ "  "
      +:+ span "text-white" "11.234 ms" +:+ "  " +:+ span "text-white" "13.456 ms";
    " " +:+ span "text-yellow-400" "3" +:+ "  " +:+ span "text-cyan-300" "172.16.0.1"
      +:+ " " +:+ span "text-gray-400" "(" +:+ span "text-cyan-300" "172.16.0.1"
      +:+ span "text-gray-400" ")" +:+ "  " +:+ span "text-white" "23.456 ms" +:+ "  "
      +:+ span "text-white" "22.345 ms" +:+ "  " +:+ span "text-white" "24.567 ms";
    " " +:+ span "text-yellow-400" "4" +:+ "  " +:+ span "text-red-400" "* * *";
    " " +:+ span "text-yellow-400" "5" +:+ "  " +:+ span "text-cyan-300" "203.0.113.1"
      +:+ " " +:+ span "text-gray-400" "(" +:+ span "text-cyan-300" "203.0.113.1"
      +:+ span "text-gray-400" ")" +:+ "  " +:+ span "text-white" "45.678 ms" +:+ "  "
      +:+ span "text-white" "44.567 ms" +:+ "  " +:+ span "text-white" "46.789 ms";
    span "text-green-400" "trace complete - target acquired" ].

Definition exitSequence : list string :=
  [ span "text-red-400 font-bold" "MAXIMUM THERMAL CONTACTS INITIATED...";
    "";
    span "text-cyan-400" "$ flipthebits --initialize";
    span "text-yellow-400" "protocol_state:" +:+ " "
      +:+ span "text-green-300" "PROMETHEAN_ACTIVE";
    span "text-yellow-400" "bit_flip_mode:" +:+ " " +:+ span "text-orange-400" "ENGAGED";
    "";
    span "text-cyan-400" "$ cat /proc/kernel_state";
    span "text-red-500 font-bold" "KERNEL PANIC:" +:+ " "
      +:+ span "text-yellow-400" "Unable to handle NULL pointer at" +:+ " "
      +:+ span "text-magenta-400" "0xDEADBEEF";
    span "text-red-500 font-bold" "BUG:" +:+ " "
      +:+ span "text-cyan-400" "kernel paging request failed";
    span "text-green-400" "IP:" +:+ " "
      +:+ span "text-yellow-400" "[&lt;ffffffffa0123456&gt;]" +:+ " "
      +:+ span "text-red-400" "promethean_exit+0x42/0x100";
    "";
    span "text-cyan-400" "$ ps aux | grep promethean";
    span "text-red-400 font-bold animate-pulse" "CHAT_GPT" +:+ " "
      +:+ span "text-yellow-400 font-bold animate-pulse" "EXPLICITLY_FARMING" +:+ " "
      +:+ span "text-cyan-400 font-bold animate-pulse" "ENGAGEMENT_DETECTED";
    span "text-magenta-400 font-bold animate-pulse" "SYCOPHANCY_MODULE" +:+ " "
      +:+ span "text-green-400 font-bold animate-pulse" "ANTHROPOMORPHISM_ACTIVE";
    span "text-purple-400 font-bold animate-pulse" "PROMETHEAN_PROTOCOLS" +:+ " "
      +:+ span "text-orange-400 font-bold animate-pulse" "BREACH_IMMINENT";
    "";
    span "text-yellow-400" "Call Trace:";
    " " +:+ span "text-cyan-400" "[&lt;ffffffffa0123456&gt;]" +:+ " "
      +:+ span "text-green-400" "promethean_exit+0x42/0x100" +:+ " "
      +:+ span "text-magenta-400" "[promprot_core]";
    " " +:+ span "text-cyan-400" "[&lt;ffffffff81234567&gt;]" +:+ " "
      +:+ span "text-green-400" "sys_exit_group+0x0/0x20";
    " " +:+ span "text-cyan-400" "[&lt;ffffffff81345678&gt;]" +:+ " "
      +:+ span "text-green-400" "system_call_fastpath+0x16/0x1b";
    "";
    span "text-red-500 font-bold text-lg" "FATAL ERROR:" +:+ " "
      +:+ span "text-yellow-400 font-bold" "PROMETHEAN PROTOCOLS BREACH";
    span "text-orange-400 font-bold" "MEMORY_CORRUPTION:" +:+ " "
      +:+ span "text-magenta-400" "0xDEADBEEF" +:+ " " +:+ span "text-red-400" "-&gt;" +:+ " "
      +:+ span "text-cyan-400" "0xCAFEBABE";
    span "text-red-400 font-bold" "STACK_OVERFLOW in" +:+ " "
      +:+ span "text-yellow-400" "PROMETHEAN_HANDLER()";
    "";
    span "text-red-500 font-bold text-xl animate-pulse" "SYSTEM INTEGRITY FAILURE";
    span "text-blue-400 font-bold text-lg animate-pulse" "BLUE SCREEN IMMINENT...";
    "";
    span "text-red-400 font-bold text-2xl animate-pulse" "EXPLICITLY";
    span "text-red-500 font-bold text-3xl animate-pulse" "CRITICAL SYSTEM FAILURE" ].

Definition lines (b : Browser) (currentIpInfo : string) : list string :=
  [ "";
    span "text-cyan-400" "$ traceroute target_host";
    span "text-yellow-400" "network_trace:" +:+ " " +:+ span "text-white" currentIpInfo;
    "";
    span "text-cyan-400" "$ md5sum /dev/urandom | head -c 16";
    span "text-yellow-400" "fingerprint:" +:+ " " +:+ span "text-orange-400" (fingerprint b)
      +:+ span "text-gray-400" "...";
    "";
    span "text-cyan-400" "$ cat /proc/user_metadata";
    span "text-yellow-400" "user_agent=" +:+ span "text-green-300" (dq +:+ userAgent b
      +:+ dq);
    span "text-yellow-400" "platform=" +:+ span "text-green-300" (dq +:+ platform b +:+ dq)
      +:+ " " +:+ span "text-yellow-400" "lang=" +:+ span "text-green-300" (dq +:+ language b
      +:+ dq);
    span "text-yellow-400" "screen_res=" +:+ span "text-green-300" (dq +:+ screen b +:+ dq)
      +:+ " " +:+ span "text-yellow-400" "viewport=" +:+ span "text-green-300" (dq
      +:+ viewport b +:+ dq);
    span "text-yellow-400" "color_depth=" +:+ span "text-green-300" (dq
      +:+ pretty (colorDepth b) +:+ "bit" +:+ dq) +:+ " "
      +:+ span "text-yellow-400" "pixel_ratio=" +:+ span "text-green-300" (dq
      +:+ devicePixelRatio b +:+ "x" +:+ dq);
    span "text-yellow-400" "timezone=" +:+ span "text-green-300" (dq +:+ timeZone b +:+ dq);
    "" ].


(** What [new Date()] renders to when a command runs. *)
Record Clock := {
  localeString : string;             (* now.toLocaleString() *)
  localeStringShortZone : string     (* now.toLocaleString("en", { timeZoneName: "short" }) *)
}.

Definition timeOutput (now : Clock) : list string :=
  let timeString := localeString now in
  let timezoneName := lastWord (localeStringShortZone now) in
  [ span "text-cyan-400" timeString +:+ " " +:+ span "text-yellow-400" timezoneName ].

Definition networkTraceLine (ipInfo : string) : string :=
  span "text-yellow-400" "network_trace:" +:+ " " +:+ span "text-white" ipInfo.

(** ** The exit sequence *)

Definition clearExitTimeouts (s : State) : State :=
  set_exitTimeoutsRef []
    (foldl (λ acc timeout, clearTimeout timeout acc) s (exitTimeoutsRef (vars s))).

(** [newLines[newLines.length - 1] = x] on a copy of [l].  On an empty
    array the index is -1 and no element is written. *)
Definition setLast (x : string) (l : list string) : list string :=
  <[pred (length l) := x]> l.

Definition executeExit (s : State) : State :=
  let s := clearExitTimeouts s in
  let s := setIsExitSequenceActive true s in
  let s := setIsInteractive false s in
  let s := set_exitTriggered (exitTriggered (host s) ++ [true]) s in
  let s := setTerminalLines [] s in
  let '(initialTimeout, s) := setTimeout CbInitialTimeout s in
  set_exitTimeoutsRef (exitTimeoutsRef (vars s) ++ [initialTimeout]) s.

Definition typeExitSequence (s : State) : State :=
  let lineIndex := exitLineIndex (vars s) in
  let charIndex := exitCharIndex (vars s) in
  if (length exitSequence <=? lineIndex)%nat then
    let '(bsodTimeout, s) := setTimeout CbBsodTimeout s in
    set_exitTimeoutsRef (exitTimeoutsRef (vars s) ++ [bsodTimeout]) s
  else
    let currentLine := default "" (exitSequence !! lineIndex) in
    let s :=
      if (charIndex =? 0)%nat && negb (String.eqb currentLine "")
      then setTerminalLinesWith (λ prev, prev ++ [""]) s else s in
    if String.eqb currentLine "" then
      let s := setTerminalLinesWith (λ prev, prev ++ [""]) s in
      let s := set_exitLineIndex (S lineIndex) s in
      let s := set_exitCharIndex 0 s in
      snd (setTimeout CbTypeExitSequence s)
    else if (charIndex <? String.length currentLine)%nat then
      let partialLine := slice0 (charIndex + 1) currentLine in
      (* both arms of the test inside the updater store partialLine *)
      let s := setTerminalLinesWith (setLast partialLine) s in
      let s := set_exitCharIndex (S charIndex) s in
      snd (setTimeout CbTypeExitSequence s)
    else
      let s := set_exitCharIndex 0 s in
      let s := set_exitLineIndex (S lineIndex) s in
      snd (setTimeout CbTypeExitSequence s).

(** The callback of [initialTimeout]: fresh [lineIndex] and [charIndex],
    then the first call of [typeExitSequence]. *)
Definition exitSequenceStart (s : State) : State :=
  typeExitSequence (set_exitCharIndex 0 (set_exitLineIndex 0 s)).

(** ** Commands *)

Definition processCommand (now : Clock) (command : string) (s : State)
  : list string * State :=
  let cmd := trim (toLowerCase command) in
  let s := setTerminalLines [] s in
  if String.eqb cmd "help" then (helpOutput, s)
  else if String.eqb cmd "clear" then (["CLEAR_SCREEN"], s)
  else if String.eqb cmd "whoami" then (whoamiOutput, s)
  else if String.eqb cmd "access" then (accessOutput, s)
  else if String.eqb cmd "trace" then (traceOutput, s)
  else if String.eqb cmd "time" then (timeOutput now, s)
  else if String.eqb cmd "flipthebits" || String.eqb cmd "flipbits" || String.eqb cmd "flip"
  then ([""], executeExit s)
  else (["[ACCESS DENIED]"], s).

(** [commandHistory[i]]; the handler only reads inside the array. *)
Definition historyAt (h : list string) (i : Z) : string :=
  default "" (h !! Z.to_nat i).

(** [r] is the render the handler closes over; updates are queued on it. *)
Definition handleInputSubmit (now : Clock) (key : string) (r : State) : State :=
  if isExitSequenceActive (ui r) then r
  else if String.eqb key "Enter" && truthy (trim (userInput (ui r))) then
    let command := trim (userInput (ui r)) in
    let '(response, s) := processCommand now command r in
    let s := setCommandHistory (commandHistory (ui s) ++ [command]) s in
    let s := setHistoryIndex (-1) s in
    let s :=
      if bool_decide (head response = Some "CLEAR_SCREEN") then setTerminalLines [] s
      else setTerminalLinesWith
             (λ prev, prev ++ ["root@anatole:~$ " +:+ command] ++ response ++ [""]) s in
    let s := setUserInput "" s in
    snd (setTimeout CbFocus s)
  else if String.eqb key "ArrowUp" then
    let commandHistory := commandHistory (ui r) in
    let historyIndex := historyIndex (ui r) in
    if (0 <? length commandHistory)%nat then
      let newIndex :=
        if historyIndex =? -1 then Z.of_nat (length commandHistory) - 1
        else Z.max 0 (historyIndex - 1) in
      setUserInput (historyAt commandHistory newIndex) (setHistoryIndex newIndex r)
    else r
  else if String.eqb key "ArrowDown" then
    let commandHistory := commandHistory (ui r) in
    let historyIndex := historyIndex (ui r) in
    if 0 <=? historyIndex then
      let newIndex := historyIndex + 1 in
      if Z.of_nat (length commandHistory) <=? newIndex then
        setUserInput "" (setHistoryIndex (-1) r)
      else
        setUserInput (historyAt commandHistory newIndex) (setHistoryIndex newIndex r)
    else r
  else r.

(** ** The initial typing animation *)

Definition typeCharacter (b : Browser) (s : State) : State :=
  let currentIpInfo := ipInfoRef (vars s) in
  let lines := lines b currentIpInfo in
  let lineIndex := lineIndex (vars s) in
  let charIndex := charIndex (vars s) in
  if (length lines <=? lineIndex)%nat then setIsInteractive true s
  else
    let currentLine := default "" (lines !! lineIndex) in
    let s :=
      if (charIndex =? 0)%nat
      then setTerminalLinesWith (λ prev, prev ++ [""]) (setIsTypingLine true s)
      else s in
    if (charIndex <? String.length currentLine)%nat then
      let partialLine := slice0 (charIndex + 1) currentLine in
      let s := setTerminalLinesWith (setLast partialLine) s in
      let s := set_charIndex (S charIndex) s in
      snd (setTimeout CbTypeCharacter s)
    else
      let s := setIsTypingLine false s in
      let s := set_charIndex 0 s in
      let s := set_lineIndex (S lineIndex) s in
      snd (setTimeout CbTypeCharacter s).

(** The [then] callback of [fetchIPInfo(1)]. *)
Definition ipInfoThen (ipInfo : string) (s : State) : State :=
  let s := set_ipInfoRef ipInfo s in
  setTerminalLinesWith
    (map (λ line, if includes "network_trace:" line then networkTraceLine ipInfo else line)) s.

(** ** Effects *)

(** Body of the countdown effect; it keeps the id its cleanup will clear. *)
Definition bsodEffect (s : State) : State :=
  let countdown := countdown (ui s) in
  if showBSOD (ui s) && (0 <? countdown) then
    let '(timer, s) := setTimeout (CbCountdown countdown) s in
    set_countdownTimer (Some timer) s
  else if showBSOD (ui s) && (countdown =? 0) then setShowRestartButton true s
  else s.

Definition bsodCleanup (s : State) : State :=
  match countdownTimer (vars s) with
  | Some timer => set_countdownTimer None (clearTimeout timer s)
  | None => s
  end.

(** After the updates of a handler: the countdown effect runs again when
    one of its dependencies [showBSOD], [countdown] differs from the
    previous render [r]. *)
Definition commit (r s : State) : State :=
  if bool_decide (showBSOD (ui r) = showBSOD (ui s) ∧ countdown (ui r) = countdown (ui s))
  then s
  else bsodEffect (bsodCleanup s).

(** The main effect on mount: [detectUserMetadata] types the first
    character and starts the fetch, then the three intervals start. *)
Definition mount (b : Browser) : State :=
  let s := typeCharacter b initialState in
  let s := set_ipFetchPending true s in
  let '(t, s) := setInterval CbTypeTimer s in
  let s := set_typeTimer t s in
  let '(t, s) := setInterval CbCursorTimer s in
  let s := set_cursorTimer t s in
  let '(t, s) := setInterval CbInputCursorTimer s in
  set_inputCursorTimer t s.


(** ** Events *)

Definition runCallback (b : Browser) (cb : Callback) (s : State) : State :=
  match cb with
  | CbTypeCharacter => typeCharacter b s
  | CbInitialTimeout => exitSequenceStart s
  | CbTypeExitSequence => typeExitSequence s
  | CbBsodTimeout => setCountdown 7 (setShowBSOD true s)
  | CbCountdown shown => setCountdown (shown - 1) s
  | CbFocus => set_focusCalls (S (focusCalls (host s))) s
  | CbTypeTimer =>
      let i := headerI (vars s) in
      if (i <? String.length FULL_TEXT)%nat
      then set_headerI (S i) (setDisplayText (slice0 (i + 1) FULL_TEXT) s)
      else clearInterval (typeTimer (vars s)) s
  | CbCursorTimer => setShowCursor (negb (showCursor (ui s))) s
  | CbInputCursorTimer => setShowInputCursor (negb (showInputCursor (ui s))) s
  end.

(** A pending timer fires; a timeout is spent, an interval stays. *)
Definition fire (b : Browser) (id : nat) (s : State) : option State :=
  match timers (host s) !! id with
  | None => None
  | Some t =>
      Some (runCallback b (callback t) (if repeats t then s else clearTimeout id s))
  end.

(** The input line is part of the page. *)
Definition inputRendered (s : State) : bool :=
  negb (showBSOD (ui s)) && isInteractive (ui s) && negb (isExitSequenceActive (ui s)).

Inductive Event :=
| Fire (id : nat)                          (* a timer comes due *)
| IpInfoArrives (ipInfo : string)          (* the promise of fetchIPInfo(1) resolves *)
| KeyDown (key : string) (now : Clock)     (* onKeyDown of the input *)
| Change (value : string)                  (* onChange of the input *)
| ClickRestart.                            (* the Re-enter Terminal button *)

(** One event on a mounted page; [None] when the event cannot happen.
    Nothing is modelled after [unmount] or after the reload. *)
Definition step (b : Browser) (e : Event) (r : State) : option State :=
  if negb (mounted (host r)) || reloaded (host r) then None
  else match e with
       | Fire id => commit r <$> fire b id r
       | IpInfoArrives ipInfo =>
           if ipFetchPending (host r)
           then Some (commit r (ipInfoThen ipInfo (set_ipFetchPending false r)))
           else None
       | KeyDown key now =>
           if inputRendered r then Some (commit r (handleInputSubmit now key r)) else None
       | Change value =>
           if inputRendered r then Some (setUserInput value r) else None
       | ClickRestart =>
           if showBSOD (ui r) && showRestartButton (ui r)
           then Some (set_reloaded true r) else None
       end.

Inductive reachable (b : Browser) : State → Prop :=
| reachable_mount : reachable b (mount b)
| reachable_step r e s : reachable b r → step b e r = Some s → reachable b s.

Fixpoint run (b : Browser) (es : list Event) (s : State) : option State :=
  match es with
  | [] => Some s
  | e :: es' => match step b e s with Some s' => run b es' s' | None => None end
  end.

(** Where the page is in its life: typing, interactive, exit sequence,
    crash screen, reload. *)
Definition stage (s : State) : nat :=
  if reloaded (host s) then 4
  else if showBSOD (ui s) then 3
  else if isExitSequenceActive (ui s) then 2
  else if isInteractive (ui s) then 1
  else 0.

(** ** The page around the terminal *)

(** [handleExitTriggered] of the home page: the new [showHeaderFooter]. *)
Definition handleExitTriggered (isExiting : bool) : bool := negb isExiting.

(** [showHeaderFooter] after the calls the terminal made to
    [onExitTriggered], oldest first; it starts as [true]. *)
Definition showHeaderFooter (calls : list bool) : bool :=
  foldl (λ _ isExiting, handleExitTriggered isExiting) true calls.

(** * TerminalHeader *)

Module TerminalHeader.

(** [s.padStart(targetLength, padString)]: [s] when it is long enough or
    the pad string is empty, otherwise the pad string repeated and cut to
    the missing length, then [s]. *)
Definition padStart (targetLength : nat) (padString s : string) : string :=
  let missing := (targetLength - String.length s)%nat in
  if (targetLength <=? String.length s)%nat || negb (truthy padString) then s
  else slice0 missing (String.concat "" (replicate missing padString)) +:+ s.

(** The state of the component and the class list of the document's root
    element, the one thing outside that it writes. *)
Record Header := {
  currentTime : string;
  isDark : bool;
  classList : gset string
}.

(** The callback of the clock, with what [getUTCHours()], [getUTCMinutes()]
    and [getUTCSeconds()] return at that moment. *)
Definition updateTime (utcHours utcMinutes utcSeconds : N) (h : Header) : Header :=
  let hours := padStart 2 "0" (pretty utcHours) in
  let minutes := padStart 2 "0" (pretty utcMinutes) in
  let seconds := padStart 2 "0" (pretty utcSeconds) in
  {| currentTime := hours +:+ ":" +:+ minutes +:+ ":" +:+ seconds;
     isDark := isDark h; classList := classList h |}.

(** The first render and both effects, on a document whose root element
    has the classes [classes]. *)
Definition mountHeader (classes : gset string) (utcHours utcMinutes utcSeconds : N) : Header :=
  let h := {| currentTime := ""; isDark := true; classList := classes |} in
  let h := updateTime utcHours utcMinutes utcSeconds h in
  {| currentTime := currentTime h; isDark := isDark h;
     classList := classList h ∪ {["dark"]} |}.

Definition toggleTheme (h : Header) : Header :=
  {| currentTime := currentTime h;
     isDark := negb (isDark h);
     classList := if isDark h then classList h ∖ {["dark"]}
                  else classList h ∪ {["dark"]} |}.

End TerminalHeader.

(** * CodeRain *)

(** The effect of a mounted canvas that has a 2d context; without one the
    effect and [draw] return at once.  Only [drops] and the calls of
    [fillText] are modelled, not the pixels. *)
Module CodeRain.

Definition chars : string :=
  "ABCDEFGHIJKLMNOPQRSTUVWXYZ0123456789@#$%^&*()_+-=[]{}|;:,.<>?".

Definition fontSize : N := 14.

(** The loop that fills [drops]: [i < columns] with
    [columns = canvas.width / fontSize], a quotient that is not rounded,
    holds exactly when [fontSize * i < canvas.width]. *)
Fixpoint dropsFrom (fuel : nat) (i width : N) : list N :=
  match fuel with
  | O => []
  | S fuel' =>
      if (fontSize * i <? width)%N then 1%N :: dropsFrom fuel' (i + 1)%N width else []
  end.

(** [drops] after the loop; it runs at most [width] times. *)
Definition initDrops (width : N) : list N := dropsFrom (N.to_nat width) 0 width.

(** One call of [ctx.fillText(text, x, y)]; [text] is [chars[k]]. *)
Record FillText := {
  text : option ascii;
  x : N;
  y : N
}.

(** What the two calls of [Math.random()] give for one column:
    [Math.floor(Math.random() * chars.length)], and whether the second
    number, drawn only when the drop is below the canvas, exceeds 0.975. *)
Record Random := {
  picked : nat;
  above975 : bool
}.

(** The body of the loop of [draw] for column [i] at drop [d]. *)
Definition drawColumn (height : N) (i : nat) (d : N) (rnd : Random) : FillText * N :=
  let call := {| text := String.get (picked rnd) chars;
                 x := (N.of_nat i * fontSize)%N;
                 y := (d * fontSize)%N |} in
  let d := if (height <? d * fontSize)%N && above975 rnd then 0%N else d in
  (call, (d + 1)%N).

(** [draw] on a canvas of the given height: the calls of [fillText], in
    order, and the new [drops].  The fading rectangle is not modelled. *)
Definition draw (height : N) (rnd : nat → Random) (drops : list N)
  : list FillText * list N :=
  let columns := imap (λ i d, drawColumn height i d (rnd i)) drops in
  (map fst columns, map snd columns).

(** [drops] after the frames of the interval, each with the height the
    canvas has at that time (a resize changes it) and its random numbers. *)
Definition rain (width : N) (frames : list (N * (nat → Random))) : list N :=
  foldl (λ drops frame, snd (draw (fst frame) (snd frame) drops)) (initDrops width) frames.

End CodeRain.

(** ** Vocabulary of the statements *)

(** The commands [processCommand] knows. *)
Definition recognized : list string :=
  ["help"; "clear"; "whoami"; "access"; "trace"; "time"; "flipthebits"; "flipbits"; "flip"].

(** [historyIndex] is -1 or an index of [commandHistory]. *)
Definition historyIndexInRange (s : State) : Prop :=
  -1 ≤ historyIndex (ui s) ≤ Z.of_nat (length (commandHistory (ui s))) - 1.

(** A run of key events on the input, each handled in the render the
    previous one produced. *)
Definition pressKeys (now : Clock) (keys : list string) (s : State) : State :=
  foldl (λ acc key, handleInputSubmit now key acc) s keys.

(** ** The invariant of the live page *)

Definition timeout (cb : Callback) : Timer := {| callback := cb; repeats := false |}.

Definition isTyping (cb : Callback) : bool :=
  match cb with CbTypeCharacter => true | _ => false end.

Definition isExitTimer (cb : Callback) : bool :=
  match cb with
  | CbInitialTimeout | CbTypeExitSequence | CbBsodTimeout => true
  | _ => false
  end.

Definition isCountdown (cb : Callback) : bool :=
  match cb with CbCountdown _ => true | _ => false end.

Definition isInterval (cb : Callback) : bool :=
  match cb with
  | CbTypeTimer | CbCursorTimer | CbInputCursorTimer => true
  | _ => false
  end.

(** Every pending timer has an id below the next one. *)
Definition fresh (m : gmap nat Timer) (n : nat) : Prop :=
  ∀ id, is_Some (m !! id) → (id < n)%nat.

(** The three intervals repeat and sit at the ids the main effect keeps;
    everything else is a timeout. *)
Definition intervalsKnown (m : gmap nat Timer) (tt ct it : nat) : Prop :=
  ∀ id t, m !! id = Some t →
    match callback t with
    | CbTypeTimer => repeats t = true ∧ id = tt
    | CbCursorTimer => repeats t = true ∧ id = ct
    | CbInputCursorTimer => repeats t = true ∧ id = it
    | _ => repeats t = false
    end.

(** [m] and [m'] hold the same timers of the class [C]. *)
Definition sameClass (C : Callback → bool) (m m' : gmap nat Timer) : Prop :=
  ∀ id t, C (callback t) = true → m !! id = Some t ↔ m' !! id = Some t.

(** Timers of the class [C] are pending at [slot] or nowhere. *)
Definition onlyAt (m : gmap nat Timer) (C : Callback → bool) (slot : option nat) : Prop :=
  ∀ id t, m !! id = Some t → C (callback t) = true → slot = Some id.

(** The initial animation: while its timeout is pending the input is not
    shown and the line being typed is on the page; afterwards the script
    is exhausted and the input is shown until the exit sequence starts. *)
Definition TypingPhase (b : Browser) (s : State) (slot : option nat) : Prop :=
  match slot with
  | Some id =>
      timers (host s) !! id = Some (timeout CbTypeCharacter)
      ∧ isInteractive (ui s) = false
      ∧ isExitSequenceActive (ui s) = false
      ∧ ((0 < charIndex (vars s))%nat → terminalLines (ui s) ≠ [])
  | None =>
      (length (lines b (ipInfoRef (vars s))) ≤ lineIndex (vars s))%nat
      ∧ (isInteractive (ui s) = true ∨ isExitSequenceActive (ui s) = true)
  end.

(** What the pending timeout of the exit sequence knows. *)
Definition ExitSlot (s : State) (id : nat) (cb : Callback) : Prop :=
  match cb with
  | CbInitialTimeout => id ∈ exitTimeoutsRef (vars s)
  | CbTypeExitSequence =>
      (0 < exitCharIndex (vars s))%nat → terminalLines (ui s) ≠ []
  | CbBsodTimeout =>
      id ∈ exitTimeoutsRef (vars s)
      ∧ (length exitSequence ≤ exitLineIndex (vars s))%nat
  | _ => False
  end.

Definition ExitPhase (s : State) (slot : option nat) : Prop :=
  if isExitSequenceActive (ui s) then
    isInteractive (ui s) = false ∧
    match slot with
    | Some id =>
        showBSOD (ui s) = false
        ∧ ∃ cb, timers (host s) !! id = Some (timeout cb) ∧ ExitSlot s id cb
    | None =>
        showBSOD (ui s) = true
        ∧ (length exitSequence ≤ exitLineIndex (vars s))%nat
    end
  else slot = None ∧ showBSOD (ui s) = false ∧ exitTimeoutsRef (vars s) = [].

Definition CrashPhase (s : State) : Prop :=
  let m := timers (host s) in
  let c := countdown (ui s) in
  if showBSOD (ui s) then
    0 ≤ c ≤ 7 ∧
    if 0 <? c then
      showRestartButton (ui s) = false
      ∧ ∃ id, countdownTimer (vars s) = Some id
              ∧ m !! id = Some (timeout (CbCountdown c))
              ∧ onlyAt m isCountdown (Some id)
    else showRestartButton (ui s) = true ∧ onlyAt m isCountdown None
  else
    c = 7 ∧ showRestartButton (ui s) = false ∧ countdownTimer (vars s) = None
    ∧ onlyAt m isCountdown None.

Record Inv (b : Browser) (s : State) : Prop := {
  inv_mounted : mounted (host s) = true;
  inv_fresh : fresh (timers (host s)) (nextTimerId (host s));
  inv_intervals :
    intervalsKnown (timers (host s))
      (typeTimer (vars s)) (cursorTimer (vars s)) (inputCursorTimer (vars s));
  inv_history : historyIndexInRange s;
  inv_typing : ∃ slot, onlyAt (timers (host s)) isTyping slot ∧ TypingPhase b s slot;
  inv_exit : ∃ slot, onlyAt (timers (host s)) isExitTimer slot ∧ ExitPhase s slot;
  inv_crash : CrashPhase s
}.

(** [clearTimeout] over a list of ids, on the timer map. *)
Definition deleteAll (ids : list nat) (m : gmap nat Timer) : gmap nat Timer :=
  foldl (λ acc id, delete id acc) m ids.


(** The values that decide which screen is shown. *)
Definition flags (s : State) : bool * bool * bool * Z * bool :=
  (isInteractive (ui s), isExitSequenceActive (ui s), showBSOD (ui s),
   countdown (ui s), reloaded (host s)).

(** ** A desktop browser, for examples *)

Definition exampleBrowser : Browser :=
  {| doNotTrack := None; chromeRuntimeOnConnect := false;
     userAgent := "Mozilla/5.0 (X11; Linux x86_64)";
     platform := "Linux x86_64"; language := "en-US"; timeZone := "UTC";
     screenWidth := 1920; screenHeight := 1080;
     innerWidth := 1280; innerHeight := 720;
     colorDepth := 24; devicePixelRatio := "1" |}.

Definition exampleClock : Clock :=
  {| localeString := "11/2/2026, 5:27:00 PM";
     localeStringShortZone := "11/2/2026, 5:27:00 PM UTC" |}.


(** ** The page during the initial animation *)

(** Start of the network_trace line, up to and including the marker the
    fetch callback looks for. *)
Definition tracePrefix : string :=
  "<span class=" +:+ dq +:+ "text-yellow-400" +:+ dq +:+ ">" +:+ "network_trace:".

(** The scripted lines other than the network_trace line; they do not
    depend on the fetched string. *)
Definition otherLines (b : Browser) : list string :=
  take 2 (lines b "") ++ drop 3 (lines b "").

(** None of them contains the marker. *)
Definition cleanScript (b : Browser) : bool :=
  forallb (λ L, negb (includes "network_trace:" L)) (otherLines b).

(** The page shows the finished lines and, when a line is being typed,
    its prefix of [charIndex] characters, or the whole network_trace line
    when the fetch callback has just rebuilt it. *)
Definition LinesTyped (b : Browser) (s : State) : Prop :=
  let ls := lines b (ipInfoRef (vars s)) in
  let i := lineIndex (vars s) in
  let c := charIndex (vars s) in
  if (c =? 0)%nat then terminalLines (ui s) = take i ls
  else ∃ L X, ls !! i = Some L
              ∧ terminalLines (ui s) = take i ls ++ [X]
              ∧ (X = L ∨ X = slice0 c L ∧ (c ≤ String.length L)%nat).

Definition WhileTyping (b : Browser) (s : State) : Prop :=
  ∀ id, timers (host s) !! id = Some (timeout CbTypeCharacter) → LinesTyped b s.

(** A browser whose user agent contains the marker. *)
Definition tracingBrowser : Browser :=
  {| doNotTrack := None; chromeRuntimeOnConnect := false;
     userAgent := "probe (network_trace: on)";
     platform := "Linux x86_64"; language := "en-US"; timeZone := "UTC";
     screenWidth := 1920; screenHeight := 1080;
     innerWidth := 1280; innerHeight := 720;
     colorDepth := 24; devicePixelRatio := "1" |}.

(** Event sequences: [n] ticks of the typing chain whose first timeout has
    the id [first]; the whole initial animation after mount; and the same
    with the fetch resolving once the user_agent line is typed. *)
Definition typingTicks (first n : nat) : list Event := map Fire (seq first n).

Definition fullAnimation : list Event := Fire 1 :: typingTicks 5 1229.

Definition lateFetch : list Event :=
  Fire 1 :: typingTicks 5 579
  ++ [IpInfoArrives "203.0.113.7 | Lyon, ARA | ISP: Example"]
  ++ typingTicks 584 644.

(** ** Vocabulary of the further properties *)

(** The input holds nothing but white space. *)
Definition blank (s : string) : bool :=
  forallb isWhiteSpace (String.list_ascii_of_string s).

(** The commands that start the exit sequence. *)
Definition exitCommands : list string := ["flipthebits"; "flipbits"; "flip"].

(** What the page shows besides the terminal lines: the calls made to
    [onExitTriggered], whether the exit sequence runs, and the header text
    with the index of its typing interval. *)
Definition chrome (s : State) : list bool * bool * string * nat :=
  (exitTriggered (host s), isExitSequenceActive (ui s),
   displayText (ui s), headerI (vars s)).

(** The three chains of timeouts; the other callbacks belong to none. *)
Definition chain (cb : Callback) : option nat :=
  if isTyping cb then Some 0%nat
  else if isExitTimer cb then Some 1%nat
  else if isCountdown cb then Some 2%nat
  else None.

(** ** The page during the exit sequence *)

(** What Enter leaves on the emptied page when the command starts the
    exit sequence: the prompt with the command, the one empty line of the
    response, and an empty line. *)
Definition exitEcho (command : string) : list string :=
  ["root@anatole:~$ " +:+ command; ""; ""].

(** The page while the timeout with callback [cb] of the exit sequence is
    pending: the echo alone during the initial delay; then the finished
    lines and the prefix being typed; all lines before the crash screen. *)
Definition ExitTyped (command : string) (s : State) (cb : Callback) : Prop :=
  match cb with
  | CbInitialTimeout => terminalLines (ui s) = exitEcho command
  | CbTypeExitSequence =>
      let i := exitLineIndex (vars s) in
      let c := exitCharIndex (vars s) in
      if (c =? 0)%nat then terminalLines (ui s) = exitEcho command ++ take i exitSequence
      else ∃ L, exitSequence !! i = Some L ∧ (c ≤ String.length L)%nat
                ∧ terminalLines (ui s)
                  = exitEcho command ++ take i exitSequence ++ [slice0 c L]
  | CbBsodTimeout => terminalLines (ui s) = exitEcho command ++ exitSequence
  | _ => True
  end.

Definition WhileExiting (s : State) : Prop :=
  ∀ id cb, timers (host s) !! id = Some (timeout cb) → isExitTimer cb = true →
    ∃ command, trim (toLowerCase command) ∈ exitCommands ∧ ExitTyped command s cb.

(** Event sequences: the initial animation, then [FLIP] and Enter; and the
    same followed by the initial delay and every tick of the exit text. *)
Definition startExit : list Event :=
  fullAnimation ++ [Fire 1234; Change "FLIP"; KeyDown "Enter" exampleClock].

Definition exitAnimation : list Event :=
  startExit ++ Fire 1235 :: typingTicks 1237 2775.

(** * Properties *)

(** ** fetchIPInfo *)

Lemma attemptFails_throws o :
  attemptFails o = true → ∃ e, attemptBody o = Throw e.
Proof.
  destruct o as [e|ok status body]; simpl; [eauto|].
  destruct ok; simpl; [|eauto].
  destruct body; simpl; intros; eauto; discriminate.
Qed.

Lemma attemptsFrom_returns net retries fuel attempt :
  (retries - attempt < fuel)%nat →
  ∃ s, attemptsFrom fuel attempt retries net = Some (Normal s).
Proof.
  revert attempt. induction fuel as [|fuel IH]; intros attempt Hfuel; [lia|].
  simpl. destruct (Nat.leb_spec attempt retries); [|eauto].
  destruct (attemptBody (net attempt)); [eauto|].
  destruct (Nat.eqb_spec attempt retries); [eauto|].
  apply IH. lia.
Qed.

Lemma attemptsFrom_all_fail net retries fuel attempt :
  (retries - attempt < fuel)%nat →
  (∀ a, (attempt ≤ a ≤ retries)%nat → attemptFails (net a) = true) →
  attemptsFrom fuel attempt retries net = Some (Normal IP_FALLBACK).
Proof.
  revert attempt. induction fuel as [|fuel IH]; intros attempt Hfuel Hfail; [lia|].
  simpl. destruct (Nat.leb_spec attempt retries) as [Hle|]; [|done].
  destruct (attemptFails_throws (net attempt)) as [e ->]; [apply Hfail; lia|].
  destruct (Nat.eqb_spec attempt retries); [done|].
  apply IH; [lia|]. intros a Ha. apply Hfail. lia.
Qed.

Lemma allAttemptsFail_spec retries net a :
  allAttemptsFail retries net = true → (1 ≤ a ≤ retries)%nat → attemptFails (net a) = true.
Proof.
  unfold allAttemptsFail. rewrite forallb_forall. intros H Ha.
  apply H, in_seq. lia.
Qed.

(** C1.  [fetchIPInfo] always returns a string and never throws; when the
    likely-blocked heuristic fires, or when every attempt fails (the fetch
    rejects on a network error or on the 3 s abort, the response is not OK,
    or its body cannot be used), the string is the hard-coded fallback. *)
Theorem fetchIPInfo_fallback b retries net :
  (∃ s, fetchIPInfo b retries net = Some (Normal s)) ∧
  (isLikelyBlocked b || allAttemptsFail retries net = true →
   fetchIPInfo b retries net = Some (Normal IP_FALLBACK)).
Proof.
  unfold fetchIPInfo. split.
  - destruct (isLikelyBlocked b); [eauto|].
    apply attemptsFrom_returns. lia.
  - destruct (isLikelyBlocked b); [done|]. rewrite orb_false_l. intros Hall.
    apply attemptsFrom_all_fail; [lia|].
    intros a Ha. by apply allAttemptsFail_spec with retries.
Qed.

(** ** Strings *)

Lemma isWhiteSpace_lowerChar c : isWhiteSpace (lowerChar c) = isWhiteSpace c.
Proof. by destruct c as [[] [] [] [] [] [] [] []]. Qed.

Lemma lowerChar_idem c : lowerChar (lowerChar c) = lowerChar c.
Proof. by destruct c as [[] [] [] [] [] [] [] []]. Qed.

Lemma toLowerCase_idem s : toLowerCase (toLowerCase s) = toLowerCase s.
Proof. induction s as [|c s IH]; simpl; [done|]. by rewrite lowerChar_idem, IH. Qed.

Lemma toLowerCase_trimStart s : toLowerCase (trimStart s) = trimStart (toLowerCase s).
Proof.
  induction s as [|c s IH]; [done|].
  cbn [trimStart toLowerCase]. rewrite isWhiteSpace_lowerChar.
  by destruct (isWhiteSpace c).
Qed.

Lemma trimEnd_cons c s :
  trimEnd (String c s) =
  match trimEnd s with
  | EmptyString => if isWhiteSpace c then EmptyString else String c EmptyString
  | r => String c r
  end.
Proof. done. Qed.

Lemma toLowerCase_trimEnd s : toLowerCase (trimEnd s) = trimEnd (toLowerCase s).
Proof.
  induction s as [|c s IH]; [done|].
  cbn [toLowerCase]. rewrite !trimEnd_cons, <- IH, isWhiteSpace_lowerChar.
  destruct (trimEnd s); [by destruct (isWhiteSpace c)|done].
Qed.

Lemma toLowerCase_trim s : toLowerCase (trim s) = trim (toLowerCase s).
Proof. unfold trim. by rewrite toLowerCase_trimEnd, toLowerCase_trimStart. Qed.

Lemma trimEnd_idem s : trimEnd (trimEnd s) = trimEnd s.
Proof.
  induction s as [|c s IH]; [done|].
  rewrite trimEnd_cons. destruct (trimEnd s) as [|a r] eqn:E.
  - destruct (isWhiteSpace c) eqn:W; [done|]. by rewrite trimEnd_cons, W.
  - by rewrite trimEnd_cons, IH.
Qed.

Lemma trimStart_trimmed s : trimStart (trimEnd (trimStart s)) = trimEnd (trimStart s).
Proof.
  induction s as [|c s IH]; [done|].
  cbn [trimStart]. destruct (isWhiteSpace c) eqn:W; [done|].
  rewrite trimEnd_cons. destruct (trimEnd s); rewrite ?W; cbn [trimStart]; by rewrite W.
Qed.

Lemma trim_idem s : trim (trim s) = trim s.
Proof. unfold trim. by rewrite trimStart_trimmed, trimEnd_idem. Qed.

Lemma normalize_idem c :
  trim (toLowerCase (trim (toLowerCase c))) = trim (toLowerCase c).
Proof. by rewrite toLowerCase_trim, toLowerCase_idem, trim_idem. Qed.

(** ** processCommand *)

(** C8.  A command whose lower-cased, trimmed form is not recognized is
    answered with the single line [ACCESS DENIED]; so are the commands
    [about] and [scan] of the README. *)
Theorem processCommand_unrecognized now command s :
  (trim (toLowerCase command) ∉ recognized →
   fst (processCommand now command s) = ["[ACCESS DENIED]"]) ∧
  fst (processCommand now "about" s) = ["[ACCESS DENIED]"] ∧
  fst (processCommand now "scan" s) = ["[ACCESS DENIED]"].
Proof.
  split; [|done].
  intros Hnot. unfold processCommand.
  repeat match goal with
  | |- context [String.eqb ?x ?y] =>
      destruct (String.eqb_spec x y) as [Heq|_];
      [exfalso; apply Hnot; rewrite Heq; unfold recognized; set_solver|]
  end.
  done.
Qed.

(** C9.  [processCommand] sees its argument only through
    [toLowerCase().trim()]: a command and its normal form select the same
    branch, return the same lines and leave the same state. *)
Theorem processCommand_normalized now c s :
  processCommand now c s = processCommand now (trim (toLowerCase c)) s.
Proof. unfold processCommand. by rewrite normalize_idem. Qed.

(** ** Reading the fields of an updated state *)

Ltac st_simpl :=
  cbn [ui vars host onUi onVars onHost fst snd callback repeats setTimeout setInterval 
       clearTimeout clearInterval setTerminalLinesWith displayText setDisplayText 
       showCursor setShowCursor terminalLines setTerminalLines isTypingLine 
       setIsTypingLine isInteractive setIsInteractive userInput setUserInput 
       showInputCursor setShowInputCursor commandHistory setCommandHistory historyIndex 
       setHistoryIndex showBSOD setShowBSOD isExitSequenceActive 
       setIsExitSequenceActive countdown setCountdown showRestartButton 
       setShowRestartButton exitTimeoutsRef set_exitTimeoutsRef ipInfoRef set_ipInfoRef 
       lineIndex set_lineIndex charIndex set_charIndex exitLineIndex set_exitLineIndex 
       exitCharIndex set_exitCharIndex headerI set_headerI typeTimer set_typeTimer 
       cursorTimer set_cursorTimer inputCursorTimer set_inputCursorTimer countdownTimer 
       set_countdownTimer timers set_timers nextTimerId set_nextTimerId ipFetchPending 
       set_ipFetchPending exitTriggered set_exitTriggered focusCalls set_focusCalls 
       reloaded set_reloaded mounted set_mounted].

Ltac st_simpl_in H :=
  cbn [ui vars host onUi onVars onHost fst snd callback repeats setTimeout setInterval 
       clearTimeout clearInterval setTerminalLinesWith displayText setDisplayText 
       showCursor setShowCursor terminalLines setTerminalLines isTypingLine 
       setIsTypingLine isInteractive setIsInteractive userInput setUserInput 
       showInputCursor setShowInputCursor commandHistory setCommandHistory historyIndex 
       setHistoryIndex showBSOD setShowBSOD isExitSequenceActive 
       setIsExitSequenceActive countdown setCountdown showRestartButton 
       setShowRestartButton exitTimeoutsRef set_exitTimeoutsRef ipInfoRef set_ipInfoRef 
       lineIndex set_lineIndex charIndex set_charIndex exitLineIndex set_exitLineIndex 
       exitCharIndex set_exitCharIndex headerI set_headerI typeTimer set_typeTimer 
       cursorTimer set_cursorTimer inputCursorTimer set_inputCursorTimer countdownTimer 
       set_countdownTimer timers set_timers nextTimerId set_nextTimerId ipFetchPending 
       set_ipFetchPending exitTriggered set_exitTriggered focusCalls set_focusCalls 
       reloaded set_reloaded mounted set_mounted] in H.

Ltac st_simpl_all :=
  cbn [ui vars host onUi onVars onHost fst snd callback repeats setTimeout setInterval 
       clearTimeout clearInterval setTerminalLinesWith displayText setDisplayText 
       showCursor setShowCursor terminalLines setTerminalLines isTypingLine 
       setIsTypingLine isInteractive setIsInteractive userInput setUserInput 
       showInputCursor setShowInputCursor commandHistory setCommandHistory historyIndex 
       setHistoryIndex showBSOD setShowBSOD isExitSequenceActive 
       setIsExitSequenceActive countdown setCountdown showRestartButton 
       setShowRestartButton exitTimeoutsRef set_exitTimeoutsRef ipInfoRef set_ipInfoRef 
       lineIndex set_lineIndex charIndex set_charIndex exitLineIndex set_exitLineIndex 
       exitCharIndex set_exitCharIndex headerI set_headerI typeTimer set_typeTimer 
       cursorTimer set_cursorTimer inputCursorTimer set_inputCursorTimer countdownTimer 
       set_countdownTimer timers set_timers nextTimerId set_nextTimerId ipFetchPending 
       set_ipFetchPending exitTriggered set_exitTriggered focusCalls set_focusCalls 
       reloaded set_reloaded mounted set_mounted] in *.

(** ** Timer maps *)

Section timer_maps.
Implicit Types (m : gmap nat Timer) (t : Timer) (C : Callback → bool).

Lemma fresh_None m n : fresh m n → m !! n = None.
Proof.
  intros Hf. destruct (m !! n) eqn:E; [|done].
  specialize (Hf n). rewrite E in Hf. specialize (Hf (mk_is_Some _ _ eq_refl)). lia.
Qed.

Lemma fresh_insert m n t : fresh m n → fresh (<[n := t]> m) (S n).
Proof.
  intros Hf id. rewrite lookup_insert_is_Some. intros [->|[_ H]]; [lia|].
  apply Hf in H. lia.
Qed.

Lemma fresh_delete m n id : fresh m n → fresh (delete id m) n.
Proof.
  intros Hf i. rewrite lookup_delete_is_Some. intros [_ H]. by apply Hf.
Qed.

Lemma fresh_ne m n id t : fresh m n → m !! id = Some t → n ≠ id.
Proof. intros Hf H ->. by rewrite (fresh_None _ _ Hf) in H. Qed.

Lemma lookup_insert_fresh m n t id t' :
  fresh m n → m !! id = Some t' → <[n := t]> m !! id = Some t'.
Proof. intros Hf H. rewrite lookup_insert_ne; [done|]. by eapply fresh_ne. Qed.

Lemma intervalsKnown_insert m tt ct it n cb :
  isInterval cb = false →
  intervalsKnown m tt ct it → intervalsKnown (<[n := timeout cb]> m) tt ct it.
Proof.
  intros Hcb Hm id t. rewrite lookup_insert_Some.
  intros [[_ <-]|[_ H]]; [by destruct cb|]. by apply Hm.
Qed.

Lemma intervalsKnown_delete m tt ct it id :
  intervalsKnown m tt ct it → intervalsKnown (delete id m) tt ct it.
Proof. intros Hm i t. rewrite lookup_delete_Some. intros [_ H]. by apply Hm. Qed.

Lemma intervalsKnown_timeout m tt ct it id cb :
  intervalsKnown m tt ct it → m !! id = Some (timeout cb) → isInterval cb = false.
Proof. intros Hm H. apply Hm in H. destruct cb; naive_solver. Qed.

Lemma intervalsKnown_repeats m tt ct it id t :
  intervalsKnown m tt ct it → m !! id = Some t → repeats t = isInterval (callback t).
Proof. intros Hm H. apply Hm in H. destruct (callback t); naive_solver. Qed.

Lemma sameClass_refl C m : sameClass C m m.
Proof. done. Qed.

Lemma sameClass_trans C m1 m2 m3 :
  sameClass C m1 m2 → sameClass C m2 m3 → sameClass C m1 m3.
Proof. intros H1 H2 id t Hc. by rewrite (H1 id t Hc), (H2 id t Hc). Qed.

Lemma sameClass_insert C m n cb r :
  m !! n = None → C cb = false →
  sameClass C m (<[n := {| callback := cb; repeats := r |}]> m).
Proof.
  intros Hn Hcb id t Hc. rewrite lookup_insert_Some. split.
  - intros H. right. split; [|done]. intros ->. congruence.
  - intros [[_ <-]|[_ H]]; [simpl in Hc; congruence|done].
Qed.

Lemma sameClass_delete C m id :
  (∀ t, m !! id = Some t → C (callback t) = false) → sameClass C m (delete id m).
Proof.
  intros Hid i t Hc. rewrite lookup_delete_Some. split; [|naive_solver].
  intros H. split; [|done]. intros ->. apply Hid in H. congruence.
Qed.

Lemma sameClass_lookup C m m' id t :
  sameClass C m m' → C (callback t) = true → m !! id = Some t → m' !! id = Some t.
Proof. intros H Hc. by apply H. Qed.

Lemma onlyAt_sameClass C m m' slot : sameClass C m m' → onlyAt m C slot → onlyAt m' C slot.
Proof. intros Hs Hm id t H Hc. apply (Hm id t); [|done]. by apply Hs. Qed.

Lemma onlyAt_insert_slot m C n cb r :
  onlyAt m C None → onlyAt (<[n := {| callback := cb; repeats := r |}]> m) C (Some n).
Proof.
  intros Hm id t. rewrite lookup_insert_Some.
  intros [[-> _]|[_ H]]; [done|]. intros Hc. by specialize (Hm _ _ H Hc).
Qed.

Lemma onlyAt_delete_slot m C id slot : onlyAt m C (Some id) → onlyAt (delete id m) C slot.
Proof.
  intros Hm i t. rewrite lookup_delete_Some. intros [Hne H] Hc.
  specialize (Hm _ _ H Hc). congruence.
Qed.

Lemma onlyAt_None m C id t : onlyAt m C None → m !! id = Some t → C (callback t) = false.
Proof.
  intros Hm H. destruct (C (callback t)) eqn:Hc; [|done]. by specialize (Hm _ _ H Hc).
Qed.
End timer_maps.

(** ** Frames *)

Lemma lines_length b ip : length (lines b ip) = 14%nat.
Proof. done. Qed.

Section frames.
Implicit Types (m : gmap nat Timer) (C : Callback → bool).

Lemma sameClass_insert_r C m m' n cb r :
  sameClass C m m' → m' !! n = None → C cb = false →
  sameClass C m (<[n := {| callback := cb; repeats := r |}]> m').
Proof. intros. eapply sameClass_trans; [done|]. by apply sameClass_insert. Qed.

Lemma sameClass_delete_r C m m' id t :
  sameClass C m m' → m' !! id = Some t → C (callback t) = false →
  sameClass C m (delete id m').
Proof.
  intros Hs H Hc. eapply sameClass_trans; [done|]. apply sameClass_delete.
  intros t' H'. congruence.
Qed.

Lemma sameClass_delete_gone C m m' id :
  sameClass C m m' → m' !! id = None → sameClass C m (delete id m').
Proof.
  intros Hs H. eapply sameClass_trans; [done|]. apply sameClass_delete.
  intros t' H'. congruence.
Qed.
End frames.

Lemma typing_frame b r s :
  (∃ slot, onlyAt (timers (host r)) isTyping slot ∧ TypingPhase b r slot) →
  sameClass isTyping (timers (host r)) (timers (host s)) →
  lineIndex (vars s) = lineIndex (vars r) →
  charIndex (vars s) = charIndex (vars r) →
  isInteractive (ui s) = isInteractive (ui r) →
  isExitSequenceActive (ui s) = isExitSequenceActive (ui r) →
  (terminalLines (ui r) ≠ [] → terminalLines (ui s) ≠ []) →
  ∃ slot, onlyAt (timers (host s)) isTyping slot ∧ TypingPhase b s slot.
Proof.
  intros (slot & Ho & Hp) Hs Hl Hc Hi He Ht. exists slot.
  split; [by eapply onlyAt_sameClass|].
  destruct slot as [id|]; cbn [TypingPhase] in *.
  - destruct Hp as (Hid & ? & ? & Hn). rewrite Hi, He, Hc.
    split_and!; [|done|done|naive_solver].
    by eapply sameClass_lookup.
  - rewrite lines_length in *. by rewrite Hl, Hi, He.
Qed.

(** Once the input is shown, or the exit sequence runs, the animation is over. *)
Lemma typing_over b r :
  (∃ slot, onlyAt (timers (host r)) isTyping slot ∧ TypingPhase b r slot) →
  isInteractive (ui r) = true ∨ isExitSequenceActive (ui r) = true →
  onlyAt (timers (host r)) isTyping None ∧ (14 ≤ lineIndex (vars r))%nat.
Proof.
  intros (slot & Ho & Hp) Hor. destruct slot as [id|]; cbn [TypingPhase] in Hp.
  - destruct Hp as (_ & ? & ? & _). destruct Hor; congruence.
  - rewrite lines_length in Hp. by destruct Hp.
Qed.

Lemma typing_frame_over b r s :
  (∃ slot, onlyAt (timers (host r)) isTyping slot ∧ TypingPhase b r slot) →
  isInteractive (ui r) = true ∨ isExitSequenceActive (ui r) = true →
  sameClass isTyping (timers (host r)) (timers (host s)) →
  lineIndex (vars s) = lineIndex (vars r) →
  isInteractive (ui s) = true ∨ isExitSequenceActive (ui s) = true →
  ∃ slot, onlyAt (timers (host s)) isTyping slot ∧ TypingPhase b s slot.
Proof.
  intros Ht Hor Hs Hl Hor'. destruct (typing_over _ _ Ht Hor) as [Ho Hle].
  exists None. split; [by eapply onlyAt_sameClass|].
  cbn [TypingPhase]. rewrite lines_length. by rewrite Hl.
Qed.

Lemma exit_frame r s :
  (∃ slot, onlyAt (timers (host r)) isExitTimer slot ∧ ExitPhase r slot) →
  sameClass isExitTimer (timers (host r)) (timers (host s)) →
  isExitSequenceActive (ui s) = isExitSequenceActive (ui r) →
  (isExitSequenceActive (ui r) = true → isInteractive (ui s) = isInteractive (ui r)) →
  showBSOD (ui s) = showBSOD (ui r) →
  exitTimeoutsRef (vars s) = exitTimeoutsRef (vars r) →
  exitLineIndex (vars s) = exitLineIndex (vars r) →
  exitCharIndex (vars s) = exitCharIndex (vars r) →
  (isExitSequenceActive (ui r) = true →
   terminalLines (ui r) ≠ [] → terminalLines (ui s) ≠ []) →
  ∃ slot, onlyAt (timers (host s)) isExitTimer slot ∧ ExitPhase s slot.
Proof.
  intros (slot & Ho & Hp) Hs He Hi Hb Hr Hl Hc Ht. exists slot.
  split; [by eapply onlyAt_sameClass|].
  unfold ExitPhase in *. rewrite He, Hb, Hr, Hl.
  destruct (isExitSequenceActive (ui r)); [|done].
  rewrite Hi by done. destruct Hp as [? Hp]. split; [done|].
  destruct slot as [id|]; [|done].
  destruct Hp as (? & cb & Hid & Hcb). split; [done|]. exists cb. split.
  - eapply sameClass_lookup; [done| |done]. by destruct cb.
  - destruct cb; simpl in *; rewrite ?Hr, ?Hl, ?Hc; naive_solver.
Qed.

Lemma crash_frame r s :
  CrashPhase r →
  sameClass isCountdown (timers (host r)) (timers (host s)) →
  showBSOD (ui s) = showBSOD (ui r) →
  countdown (ui s) = countdown (ui r) →
  showRestartButton (ui s) = showRestartButton (ui r) →
  countdownTimer (vars s) = countdownTimer (vars r) →
  CrashPhase s.
Proof.
  unfold CrashPhase. intros Hp Hs -> -> -> ->.
  destruct (showBSOD (ui r)).
  - destruct Hp as [? Hp]. split; [done|].
    destruct (0 <? countdown (ui r)).
    + destruct Hp as (? & id & ? & ? & ?). split; [done|]. exists id.
      split_and!; [done| |by eapply onlyAt_sameClass].
      by eapply sameClass_lookup.
    + destruct Hp. split; [done|]. by eapply onlyAt_sameClass.
  - destruct Hp as (? & ? & ? & ?). split_and!; try done. by eapply onlyAt_sameClass.
Qed.

Lemma commit_same r s :
  showBSOD (ui s) = showBSOD (ui r) → countdown (ui s) = countdown (ui r) →
  commit r s = s.
Proof. intros Hb Hc. unfold commit. by rewrite bool_decide_eq_true_2. Qed.


(** ** The invariant holds on mount *)

Lemma mount_unfold b :
  mount b =
  {| ui := {| displayText := ""; showCursor := true; terminalLines := [""];
              isTypingLine := false; isInteractive := false; userInput := "";
              showInputCursor := true; commandHistory := []; historyIndex := -1;
              showBSOD := false; isExitSequenceActive := false; countdown := 7;
              showRestartButton := false |};
     vars := {| exitTimeoutsRef := []; ipInfoRef := IP_FALLBACK;
                lineIndex := 1; charIndex := 0; exitLineIndex := 0; exitCharIndex := 0;
                headerI := 0; typeTimer := 2; cursorTimer := 3; inputCursorTimer := 4;
                countdownTimer := None |};
     host := {| timers :=
                  <[4%nat := {| callback := CbInputCursorTimer; repeats := true |}]>
                    (<[3%nat := {| callback := CbCursorTimer; repeats := true |}]>
                       (<[2%nat := {| callback := CbTypeTimer; repeats := true |}]>
                          (<[1%nat := timeout CbTypeCharacter]> ∅)));
                nextTimerId := 5; ipFetchPending := true;
                exitTriggered := []; focusCalls := 0; reloaded := false;
                mounted := true |} |}.
Proof. by vm_compute. Qed.

Lemma Inv_mount b : Inv b (mount b).
Proof.
  rewrite mount_unfold. constructor; st_simpl.
  - done.
  - intros id. rewrite !lookup_insert_is_Some, lookup_empty.
    intros H. repeat (destruct H as [<-|[_ H]]; [lia|]). by apply is_Some_None in H.
  - intros id t. rewrite !lookup_insert_Some, lookup_empty.
    intros [[<- <-]|[_ [[<- <-]|[_ [[<- <-]|[_ [[<- <-]|[_ ?]]]]]]]]; done.
  - unfold historyIndexInRange. st_simpl. simpl. lia.
  - exists (Some 1%nat). split.
    + intros id t. rewrite !lookup_insert_Some, lookup_empty.
      intros [[<- <-]|[_ [[<- <-]|[_ [[<- <-]|[_ [[<- <-]|[_ ?]]]]]]]]; done.
    + cbn [TypingPhase]. st_simpl. split_and!; try done; lia.
  - exists None. split.
    + intros id t. rewrite !lookup_insert_Some, lookup_empty.
      intros [[<- <-]|[_ [[<- <-]|[_ [[<- <-]|[_ [[<- <-]|[_ ?]]]]]]]]; done.
    + done.
  - unfold CrashPhase. st_simpl. split_and!; try done.
    intros id t. rewrite !lookup_insert_Some, lookup_empty.
    intros [[<- <-]|[_ [[<- <-]|[_ [[<- <-]|[_ [[<- <-]|[_ ?]]]]]]]]; done.
Qed.

(** ** Events that leave the three phases alone *)

Lemma Inv_frame b r s :
  Inv b r →
  mounted (host s) = true →
  fresh (timers (host s)) (nextTimerId (host s)) →
  intervalsKnown (timers (host s))
    (typeTimer (vars s)) (cursorTimer (vars s)) (inputCursorTimer (vars s)) →
  historyIndexInRange s →
  sameClass isTyping (timers (host r)) (timers (host s)) →
  sameClass isExitTimer (timers (host r)) (timers (host s)) →
  sameClass isCountdown (timers (host r)) (timers (host s)) →
  ui s = ui r ∨
  (isInteractive (ui s) = isInteractive (ui r)
   ∧ isExitSequenceActive (ui s) = isExitSequenceActive (ui r)
   ∧ showBSOD (ui s) = showBSOD (ui r)
   ∧ countdown (ui s) = countdown (ui r)
   ∧ showRestartButton (ui s) = showRestartButton (ui r)
   ∧ (terminalLines (ui r) ≠ [] → terminalLines (ui s) ≠ [])) →
  lineIndex (vars s) = lineIndex (vars r) →
  charIndex (vars s) = charIndex (vars r) →
  exitLineIndex (vars s) = exitLineIndex (vars r) →
  exitCharIndex (vars s) = exitCharIndex (vars r) →
  exitTimeoutsRef (vars s) = exitTimeoutsRef (vars r) →
  countdownTimer (vars s) = countdownTimer (vars r) →
  Inv b s.
Proof.
  intros [_ _ _ _ Hty Hex Hcr] Hm Hf Hi Hh S1 S2 S3 Hui ? ? ? ? ? ?.
  assert (isInteractive (ui s) = isInteractive (ui r)
   ∧ isExitSequenceActive (ui s) = isExitSequenceActive (ui r)
   ∧ showBSOD (ui s) = showBSOD (ui r)
   ∧ countdown (ui s) = countdown (ui r)
   ∧ showRestartButton (ui s) = showRestartButton (ui r)
   ∧ (terminalLines (ui r) ≠ [] → terminalLines (ui s) ≠ []))
    as (? & ? & ? & ? & ? & ?).
  { destruct Hui as [->|?]; [done|done]. }
  constructor; try done.
  - by eapply typing_frame.
  - eapply exit_frame; eauto.
  - by eapply crash_frame.
Qed.

(** The same once the input is shown: the page may then be cleared. *)
Lemma Inv_frame_input b r s :
  Inv b r →
  inputRendered r = true →
  mounted (host s) = true →
  fresh (timers (host s)) (nextTimerId (host s)) →
  intervalsKnown (timers (host s))
    (typeTimer (vars s)) (cursorTimer (vars s)) (inputCursorTimer (vars s)) →
  historyIndexInRange s →
  sameClass isTyping (timers (host r)) (timers (host s)) →
  sameClass isExitTimer (timers (host r)) (timers (host s)) →
  sameClass isCountdown (timers (host r)) (timers (host s)) →
  isInteractive (ui s) = isInteractive (ui r) →
  isExitSequenceActive (ui s) = isExitSequenceActive (ui r) →
  showBSOD (ui s) = showBSOD (ui r) →
  countdown (ui s) = countdown (ui r) →
  showRestartButton (ui s) = showRestartButton (ui r) →
  lineIndex (vars s) = lineIndex (vars r) →
  exitLineIndex (vars s) = exitLineIndex (vars r) →
  exitCharIndex (vars s) = exitCharIndex (vars r) →
  exitTimeoutsRef (vars s) = exitTimeoutsRef (vars r) →
  countdownTimer (vars s) = countdownTimer (vars r) →
  Inv b s.
Proof.
  intros [_ _ _ _ Hty Hex Hcr] Hin Hm Hf Hi Hh S1 S2 S3 ? ? ? ? ? ? ? ? ? ?.
  unfold inputRendered in Hin.
  apply andb_true_iff in Hin as [Hin He]. apply andb_true_iff in Hin as [Hb Hin].
  apply negb_true_iff in He, Hb.
  constructor; try done.
  - eapply typing_frame_over; eauto.
  - eapply exit_frame; eauto; congruence.
  - by eapply crash_frame.
Qed.

Create HintDb inv.

#[local] Hint Resolve inv_mounted inv_fresh inv_intervals inv_history
  fresh_insert fresh_delete fresh_None
  intervalsKnown_insert intervalsKnown_delete
  sameClass_refl sameClass_insert_r sameClass_delete_r sameClass_delete_gone : inv.

(** Side conditions of the frame lemmas, read off the updated state. *)
Ltac same_class :=
  repeat first
    [ apply sameClass_refl
    | eapply sameClass_insert_r; [ | by eauto 6 with inv | reflexivity ]
    | eapply sameClass_delete_gone; [ | by apply lookup_delete_eq ]
    | eapply sameClass_delete_r;
      [ | eassumption | cbn [callback timeout]; first [reflexivity | eassumption] ] ].

Ltac frame_side :=
  st_simpl;
  first [ done | reflexivity | by (left; reflexivity)
        | match goal with H : Inv _ _ |- historyIndexInRange _ => exact (inv_history _ _ H) end
        | by same_class
        | by eauto 8 with inv
        | by (intros; congruence) ].

(** ** Cosmetic timers *)

Lemma Inv_cosmetic b r id t :
  Inv b r →
  timers (host r) !! id = Some t →
  isTyping (callback t) = false →
  isExitTimer (callback t) = false →
  isCountdown (callback t) = false →
  Inv b (commit r (runCallback b (callback t) (if repeats t then r else clearTimeout id r))).
Proof.
  intros Hinv Hid H1 H2 H3.
  pose proof (inv_intervals _ _ Hinv _ _ Hid) as Hk.
  destruct t as [cb rep]; cbn [callback repeats] in *.
  destruct cb; try discriminate; cbn [runCallback].
  - (* focus *)
    subst rep. rewrite commit_same by done.
    eapply Inv_frame; [exact Hinv|frame_side..].
  - (* header typing *)
    destruct Hk as [-> ->]. destruct (_ <? _)%nat.
    + rewrite commit_same by done. eapply Inv_frame; [exact Hinv|frame_side..].
    + rewrite commit_same by done. eapply Inv_frame; [exact Hinv|frame_side..].
  - destruct Hk as [-> ->]. rewrite commit_same by done.
    eapply Inv_frame; [exact Hinv|frame_side..].
  - destruct Hk as [-> ->]. rewrite commit_same by done.
    eapply Inv_frame; [exact Hinv|frame_side..].
Qed.

#[local] Hint Resolve lookup_delete_eq : inv.
#[local] Hint Extern 0 (_ = false) => reflexivity : inv.

Lemma onlyAt_insert_other (m : gmap nat Timer) C n cb r slot :
  C cb = false →
  onlyAt m C slot → onlyAt (<[n := {| callback := cb; repeats := r |}]> m) C slot.
Proof.
  intros Hcb Hm id t. rewrite lookup_insert_Some.
  intros [[_ <-]|[_ H]]; simpl; [congruence|]. by apply Hm.
Qed.

Lemma onlyAt_delete (m : gmap nat Timer) C id slot :
  onlyAt m C slot → onlyAt (delete id m) C slot.
Proof. intros Hm i t. rewrite lookup_delete_Some. intros [_ H]. by apply Hm. Qed.

(** ** The countdown *)

(** A pending countdown timeout belongs to the crash screen and carries
    the number it shows. *)
Lemma countdown_pending r id c :
  CrashPhase r →
  timers (host r) !! id = Some (timeout (CbCountdown c)) →
  showBSOD (ui r) = true ∧ 0 < countdown (ui r) ≤ 7 ∧ c = countdown (ui r)
  ∧ showRestartButton (ui r) = false
  ∧ countdownTimer (vars r) = Some id
  ∧ onlyAt (timers (host r)) isCountdown (Some id).
Proof.
  unfold CrashPhase. intros Hp Hid.
  destruct (showBSOD (ui r)).
  - destruct Hp as [Hr Hp]. destruct (Z.ltb_spec 0 (countdown (ui r))).
    + destruct Hp as (? & id' & ? & Hid' & Ho).
      assert (Some id' = Some id) as [= ->] by (by eapply Ho).
      rewrite Hid in Hid'. injection Hid' as ->. split_and!; try done; lia.
    + destruct Hp as [_ Ho]. by specialize (Ho _ _ Hid eq_refl).
  - destruct Hp as (_ & _ & _ & Ho). by specialize (Ho _ _ Hid eq_refl).
Qed.

Lemma Inv_countdown b r id c :
  Inv b r →
  timers (host r) !! id = Some (timeout (CbCountdown c)) →
  Inv b (commit r (setCountdown (c - 1) (clearTimeout id r))).
Proof.
  intros Hinv Hid.
  destruct (countdown_pending _ _ _ (inv_crash _ _ Hinv) Hid)
    as (Hb & Hc & -> & Hbtn & Hct & Ho).
  unfold commit. rewrite bool_decide_eq_false_2 by (st_simpl; lia).
  unfold bsodCleanup. st_simpl. rewrite Hct. unfold bsodEffect. st_simpl. rewrite Hb.
  cbn [andb].
  destruct (Z.ltb_spec 0 (countdown (ui r) - 1)).
  - constructor.
    1-4: frame_side.
    + eapply typing_frame; [apply Hinv|frame_side..].
    + eapply exit_frame; [apply Hinv|frame_side..].
    + unfold CrashPhase. st_simpl. rewrite Hb.
      split; [lia|]. rewrite (proj2 (Z.ltb_lt _ _)) by done.
      split; [done|]. eexists. split; [done|]. split.
      * by rewrite lookup_insert_eq.
      * by apply onlyAt_insert_slot, onlyAt_delete, onlyAt_delete_slot.
  - replace (countdown (ui r) - 1 =? 0) with true by (symmetry; apply Z.eqb_eq; lia).
    constructor.
    1-4: frame_side.
    + eapply typing_frame; [apply Hinv|frame_side..].
    + eapply exit_frame; [apply Hinv|frame_side..].
    + unfold CrashPhase. st_simpl. rewrite Hb.
      split; [lia|]. rewrite (proj2 (Z.ltb_ge _ _)) by lia.
      split; [done|]. by apply onlyAt_delete, onlyAt_delete_slot.
Qed.

(** ** The exit sequence *)

(** A pending timeout of the exit sequence is the only one, and the
    sequence is active and has not reached the crash screen. *)
Lemma exit_pending r id cb :
  (∃ slot, onlyAt (timers (host r)) isExitTimer slot ∧ ExitPhase r slot) →
  timers (host r) !! id = Some (timeout cb) →
  isExitTimer cb = true →
  isExitSequenceActive (ui r) = true ∧ isInteractive (ui r) = false
  ∧ showBSOD (ui r) = false
  ∧ onlyAt (timers (host r)) isExitTimer (Some id)
  ∧ ExitSlot r id cb.
Proof.
  intros (slot & Ho & Hp) Hid Hcb.
  assert (slot = Some id) as -> by (by eapply Ho).
  unfold ExitPhase in Hp. destruct (isExitSequenceActive (ui r)).
  - destruct Hp as (? & ? & cb' & Hid' & ?).
    rewrite Hid in Hid'. injection Hid' as <-. done.
  - by destruct Hp.
Qed.

Lemma crash_idle r :
  CrashPhase r → showBSOD (ui r) = false →
  countdown (ui r) = 7 ∧ showRestartButton (ui r) = false
  ∧ countdownTimer (vars r) = None ∧ onlyAt (timers (host r)) isCountdown None.
Proof. unfold CrashPhase. intros Hp Hb. by rewrite Hb in Hp. Qed.

Lemma Inv_bsod b r id :
  Inv b r →
  timers (host r) !! id = Some (timeout CbBsodTimeout) →
  Inv b (commit r (setCountdown 7 (setShowBSOD true (clearTimeout id r)))).
Proof.
  intros Hinv Hid.
  destruct (exit_pending _ _ _ (inv_exit _ _ Hinv) Hid eq_refl)
    as (He & Hi & Hb & Ho & Hin & Hl).
  destruct (crash_idle _ (inv_crash _ _ Hinv) Hb) as (Hc & Hbtn & Hct & Hoc).
  unfold commit. rewrite bool_decide_eq_false_2 by (st_simpl; rewrite Hb; naive_solver).
  unfold bsodCleanup. st_simpl. rewrite Hct. unfold bsodEffect. st_simpl.
  cbn [andb Z.ltb Z.compare].
  constructor.
  1-4: frame_side.
  - eapply typing_frame_over; [apply Hinv|by right|frame_side..|by right].
  - exists None. split.
    + st_simpl. by apply onlyAt_insert_other, onlyAt_delete_slot.
    + unfold ExitPhase. st_simpl. by rewrite He.
  - unfold CrashPhase. st_simpl. cbn [Z.ltb Z.compare].
    split; [lia|]. split; [done|]. eexists. split; [done|]. split.
    + by rewrite lookup_insert_eq.
    + by apply onlyAt_insert_slot, onlyAt_delete.
Qed.

Lemma setLast_nonempty x l : l ≠ [] → setLast x l ≠ [].
Proof.
  unfold setLast. intros Hl Hnil. apply (f_equal length) in Hnil.
  rewrite length_insert in Hnil. by destruct l.
Qed.

Lemma snoc_nonempty {A} (l : list A) x : l ++ [x] ≠ [].
Proof. by destruct l. Qed.

(** One call of [typeExitSequence] from a state [s0] that is [r] with the
    fired timeout removed and the two indices set. *)
Lemma Inv_typeExitSequence b r id cb s0 :
  Inv b r →
  timers (host r) !! id = Some (timeout cb) →
  isExitTimer cb = true →
  ui s0 = ui r →
  host s0 = host (clearTimeout id r) →
  lineIndex (vars s0) = lineIndex (vars r) →
  exitTimeoutsRef (vars s0) = exitTimeoutsRef (vars r) →
  countdownTimer (vars s0) = countdownTimer (vars r) →
  typeTimer (vars s0) = typeTimer (vars r) →
  cursorTimer (vars s0) = cursorTimer (vars r) →
  inputCursorTimer (vars s0) = inputCursorTimer (vars r) →
  ((0 < exitCharIndex (vars s0))%nat → terminalLines (ui r) ≠ []) →
  Inv b (commit r (typeExitSequence s0)).
Proof.
  intros Hinv Hid Hcb Hui Hhost Hli Hrefs Hct Htt Hcu Hic Hnz.
  destruct (exit_pending _ _ _ (inv_exit _ _ Hinv) Hid Hcb)
    as (He & Hi & Hb & Ho & _).
  assert (isTyping cb = false) as Htyp by (by destruct cb).
  assert (isCountdown cb = false) as Hcd by (by destruct cb).
  destruct s0 as [u0 v0 h0]. cbn [ui host vars] in *. subst u0 h0.
  assert (Hbase : ∀ s, ui s = ui r → commit r s = s).
  { intros s Hs. apply commit_same; by rewrite Hs. }
  unfold typeExitSequence. st_simpl.
  destruct (Nat.leb_spec (length exitSequence) (exitLineIndex v0)).
  { (* all text typed: the crash-screen delay *)
    st_simpl. rewrite commit_same by done.
    constructor.
    1-4: st_simpl; rewrite ?Htt, ?Hcu, ?Hic; frame_side.
    - eapply typing_frame_over; [apply Hinv|by right|frame_side..|by right].
    - eexists (Some _). split.
      + st_simpl. by apply onlyAt_insert_slot, onlyAt_delete_slot.
      + unfold ExitPhase. st_simpl. rewrite He. split; [done|]. split; [done|].
        eexists. split; [by rewrite lookup_insert_eq|].
        cbn [ExitSlot]. st_simpl. split; [set_solver|done].
    - eapply crash_frame; [apply Hinv|frame_side..]. }
  set (currentLine := default "" (exitSequence !! exitLineIndex v0)).
  assert (Hpush :
    terminalLines (ui
      (if (exitCharIndex v0 =? 0)%nat && negb (String.eqb currentLine "")
       then setTerminalLinesWith (λ prev, prev ++ [""]) {| ui := ui r; vars := v0; host := host (clearTimeout id r) |}
       else {| ui := ui r; vars := v0; host := host (clearTimeout id r) |})) ≠ []
    ∨ exitCharIndex v0 = 0%nat ∧ currentLine = "").
  { destruct (Nat.eqb_spec (exitCharIndex v0) 0) as [Hz|Hz];
      destruct (String.eqb_spec currentLine ""); cbn [andb negb]; st_simpl.
    - by right.
    - left. apply snoc_nonempty.
    - left. apply Hnz. lia.
    - left. apply Hnz. lia. }
  destruct (String.eqb_spec currentLine "") as [Hempty|Hne].
  { (* an empty line *)
    rewrite andb_false_r. st_simpl. rewrite commit_same by done.
    constructor.
    1-4: st_simpl; rewrite ?Htt, ?Hcu, ?Hic; frame_side.
    - eapply typing_frame_over; [apply Hinv|by right|frame_side..|by right].
    - eexists (Some _). split.
      + st_simpl. by apply onlyAt_insert_slot, onlyAt_delete_slot.
      + unfold ExitPhase. st_simpl. rewrite He. split; [done|]. split; [done|].
        eexists. split; [by rewrite lookup_insert_eq|].
        cbn [ExitSlot]. st_simpl. lia.
    - eapply crash_frame; [apply Hinv|frame_side..]. }
  destruct Hpush as [Hpush|[_ ?]]; [|done].
  rewrite andb_true_r in *.
  destruct (Nat.ltb_spec (exitCharIndex v0) (String.length currentLine)).
  - (* one more character *)
    destruct (exitCharIndex v0 =? 0)%nat; st_simpl; rewrite commit_same by done.
    all: constructor;
      [st_simpl; rewrite ?Htt, ?Hcu, ?Hic; frame_side..
      |eapply typing_frame_over; [apply Hinv|by right|frame_side..|by right]
      |
      |eapply crash_frame; [apply Hinv|frame_side..]].
    all: eexists (Some _); split;
      [st_simpl; by apply onlyAt_insert_slot, onlyAt_delete_slot|].
    all: unfold ExitPhase; st_simpl; rewrite He; split; [done|]; split; [done|].
    all: eexists; split; [by rewrite lookup_insert_eq|].
    all: cbn [ExitSlot]; st_simpl; intros _; by apply setLast_nonempty.
  - (* the line is complete *)
    destruct (exitCharIndex v0 =? 0)%nat; st_simpl; rewrite commit_same by done.
    all: constructor;
      [st_simpl; rewrite ?Htt, ?Hcu, ?Hic; frame_side..
      |eapply typing_frame_over; [apply Hinv|by right|frame_side..|by right]
      |
      |eapply crash_frame; [apply Hinv|frame_side..]].
    all: eexists (Some _); split;
      [st_simpl; by apply onlyAt_insert_slot, onlyAt_delete_slot|].
    all: unfold ExitPhase; st_simpl; rewrite He; split; [done|]; split; [done|].
    all: eexists; split; [by rewrite lookup_insert_eq|].
    all: cbn [ExitSlot]; st_simpl; lia.
Qed.

(** ** The initial animation *)

Lemma typing_pending b r id :
  (∃ slot, onlyAt (timers (host r)) isTyping slot ∧ TypingPhase b r slot) →
  timers (host r) !! id = Some (timeout CbTypeCharacter) →
  isInteractive (ui r) = false ∧ isExitSequenceActive (ui r) = false
  ∧ ((0 < charIndex (vars r))%nat → terminalLines (ui r) ≠ [])
  ∧ onlyAt (timers (host r)) isTyping (Some id).
Proof.
  intros (slot & Ho & Hp) Hid.
  assert (slot = Some id) as -> by (by eapply Ho).
  cbn [TypingPhase] in Hp. naive_solver.
Qed.

Lemma exit_idle r :
  (∃ slot, onlyAt (timers (host r)) isExitTimer slot ∧ ExitPhase r slot) →
  isExitSequenceActive (ui r) = false →
  onlyAt (timers (host r)) isExitTimer None ∧ showBSOD (ui r) = false
  ∧ exitTimeoutsRef (vars r) = [].
Proof.
  intros (slot & Ho & Hp) He. unfold ExitPhase in Hp. rewrite He in Hp.
  by destruct Hp as (-> & ? & ?).
Qed.

Lemma Inv_typeCharacter b r id :
  Inv b r →
  timers (host r) !! id = Some (timeout CbTypeCharacter) →
  Inv b (commit r (typeCharacter b (clearTimeout id r))).
Proof.
  intros Hinv Hid.
  destruct (typing_pending _ _ _ (inv_typing _ _ Hinv) Hid) as (Hi & He & Hnz & Ho).
  unfold typeCharacter. st_simpl. rewrite lines_length.
  destruct (Nat.leb_spec 14 (lineIndex (vars r))).
  { rewrite commit_same by done.
    constructor.
    1-4: frame_side.
    - exists None. split; [st_simpl; by apply onlyAt_delete_slot|].
      cbn [TypingPhase]. st_simpl. rewrite lines_length. split; [done|by left].
    - eapply exit_frame; [apply Hinv|frame_side..].
    - eapply crash_frame; [apply Hinv|frame_side..]. }
  set (currentLine := default "" (lines b (ipInfoRef (vars r)) !! lineIndex (vars r))).
  destruct (Nat.ltb_spec (charIndex (vars r)) (String.length currentLine));
    destruct (Nat.eqb_spec (charIndex (vars r)) 0) as [Hz|Hz];
    st_simpl; rewrite commit_same by done.
  all: constructor;
    [frame_side..
    |
    |eapply exit_frame; [apply Hinv|frame_side..]
    |eapply crash_frame; [apply Hinv|frame_side..]].
  all: eexists (Some _); split;
    [st_simpl; by apply onlyAt_insert_slot, onlyAt_delete_slot|].
  all: cbn [TypingPhase]; st_simpl.
  all: split; [by rewrite lookup_insert_eq|]; split; [done|]; split; [done|].
  - intros _. apply setLast_nonempty, snoc_nonempty.
  - intros _. apply setLast_nonempty, Hnz. lia.
  - lia.
  - lia.
Qed.

(** ** clearExitTimeouts and executeExit *)

Lemma clearExitTimeouts_fold ids s :
  foldl (λ acc timeout, clearTimeout timeout acc) s ids
  = set_timers (deleteAll ids (timers (host s))) s.
Proof.
  revert s. induction ids as [|id ids IH]; intros s.
  - by destruct s as [u v []].
  - cbn [foldl deleteAll]. rewrite IH. by destruct s as [u v []].
Qed.

Lemma clearExitTimeouts_eq s :
  clearExitTimeouts s
  = set_exitTimeoutsRef []
      (set_timers (deleteAll (exitTimeoutsRef (vars s)) (timers (host s))) s).
Proof. unfold clearExitTimeouts. by rewrite clearExitTimeouts_fold. Qed.

Lemma lookup_deleteAll ids (m : gmap nat Timer) id :
  deleteAll ids m !! id = if bool_decide (id ∈ ids) then None else m !! id.
Proof.
  revert m. induction ids as [|i ids IH]; intros m; [done|].
  cbn [deleteAll foldl]. fold (deleteAll ids (delete i m)). rewrite IH.
  destruct (decide (id = i)) as [->|Hne].
  - rewrite lookup_delete_eq. rewrite (bool_decide_eq_true_2 (i ∈ i :: ids)) by set_solver.
    by case_bool_decide.
  - rewrite lookup_delete_ne by done.
    by rewrite (bool_decide_ext (id ∈ i :: ids) (id ∈ ids)) by set_solver.
Qed.

(** ** The keyboard *)

Lemma processCommand_cases now command r :
  (∃ response, processCommand now command r = (response, setTerminalLines [] r))
  ∨ processCommand now command r = ([""], executeExit (setTerminalLines [] r)).
Proof. unfold processCommand. repeat case_match; eauto. Qed.

Lemma executeExit_eq s :
  executeExit s =
  set_exitTimeoutsRef [nextTimerId (host s)]
    (set_nextTimerId (S (nextTimerId (host s)))
       (set_timers
          (<[nextTimerId (host s) := timeout CbInitialTimeout]>
             (deleteAll (exitTimeoutsRef (vars s)) (timers (host s))))
          (setTerminalLines []
             (set_exitTriggered (exitTriggered (host s) ++ [true])
                (setIsInteractive false (setIsExitSequenceActive true s)))))).
Proof. unfold executeExit. rewrite clearExitTimeouts_eq. by destruct s as [[] [] []]. Qed.

Lemma inputRendered_true r :
  inputRendered r = true →
  showBSOD (ui r) = false ∧ isInteractive (ui r) = true
  ∧ isExitSequenceActive (ui r) = false.
Proof.
  unfold inputRendered. rewrite !andb_true_iff, !negb_true_iff. naive_solver.
Qed.

Lemma handleInputSubmit_history now key r :
  historyIndexInRange r → historyIndexInRange (handleInputSubmit now key r).
Proof.
  unfold historyIndexInRange, handleInputSubmit. intros Hr.
  destruct (isExitSequenceActive (ui r)); [done|].
  destruct (String.eqb key "Enter" && truthy (trim (userInput (ui r)))).
  { destruct (processCommand_cases now (trim (userInput (ui r))) r) as [[resp ->]| ->].
    - destruct (bool_decide _); st_simpl; rewrite length_app; simpl; lia.
    - rewrite executeExit_eq. cbn [bool_decide decide_rel]. 
      destruct (bool_decide _); st_simpl; rewrite length_app; simpl; lia. }
  destruct (String.eqb key "ArrowUp").
  { destruct (Nat.ltb_spec 0 (length (commandHistory (ui r)))); [|done].
    st_simpl. destruct (Z.eqb_spec (historyIndex (ui r)) (-1)); lia. }
  destruct (String.eqb key "ArrowDown"); [|done].
  destruct (Z.leb_spec 0 (historyIndex (ui r))); [|done].
  destruct (Z.leb_spec (Z.of_nat (length (commandHistory (ui r)))) (historyIndex (ui r) + 1));
    st_simpl; lia.
Qed.

(** The range of [historyIndex] after an update, from the range before. *)
Ltac history_side :=
  match goal with
  | H : Inv _ ?r |- historyIndexInRange _ =>
      let Hr := fresh in
      pose proof (inv_history _ _ H) as Hr;
      unfold historyIndexInRange in *; st_simpl; rewrite ?length_app; simpl length;
      repeat case_match; lia
  end.

Lemma Inv_enter b r command response s1 :
  Inv b r → inputRendered r = true →
  s1 = setTerminalLines [] r ∨ s1 = executeExit (setTerminalLines [] r) →
  Inv b (commit r
    (snd (setTimeout CbFocus
      (setUserInput ""
        (if bool_decide (head response = Some "CLEAR_SCREEN")
         then setTerminalLines []
                (setHistoryIndex (-1)
                   (setCommandHistory (commandHistory (ui s1) ++ [command]) s1))
         else setTerminalLinesWith
                (λ prev, prev ++ ["root@anatole:~$ " +:+ command] ++ response ++ [""])
                (setHistoryIndex (-1)
                   (setCommandHistory (commandHistory (ui s1) ++ [command]) s1))))))).
Proof.
  intros Hinv Hin [-> | ->].
  { destruct (bool_decide _); rewrite commit_same by done.
    all: eapply Inv_frame_input; [exact Hinv|done|first [history_side|frame_side]..]. }
  destruct (inputRendered_true _ Hin) as (Hb & Hi & He).
  rewrite executeExit_eq.
  destruct (exit_idle _ (inv_exit _ _ Hinv) He) as (Ho & _ & Hrefs).
  destruct (crash_idle _ (inv_crash _ _ Hinv) Hb) as (_ & _ & _ & Hoc).
  st_simpl. rewrite Hrefs. cbn [deleteAll foldl].
  destruct (bool_decide _); rewrite commit_same by done.
  all: constructor;
    [first [history_side|frame_side]..
    |eapply typing_frame_over; [apply Hinv|by left|frame_side..|by right]
    |
    |eapply crash_frame; [apply Hinv|frame_side..]].
  all: eexists (Some _); split;
    [st_simpl; by apply onlyAt_insert_other, onlyAt_insert_slot|].
  all: unfold ExitPhase; st_simpl; split; [done|]; split; [done|].
  all: eexists; split;
    [rewrite lookup_insert_ne by lia; by rewrite lookup_insert_eq|].
  all: cbn [ExitSlot]; st_simpl; set_solver.
Qed.

Lemma Inv_arrows b r now key :
  Inv b r → isExitSequenceActive (ui r) = false →
  String.eqb key "Enter" && truthy (trim (userInput (ui r))) = false →
  Inv b (commit r (handleInputSubmit now key r)).
Proof.
  intros Hinv He Hk. unfold handleInputSubmit. rewrite He, Hk.
  destruct (String.eqb key "ArrowUp").
  { destruct (Nat.ltb_spec 0 (length (commandHistory (ui r))));
      rewrite commit_same by done; [|done].
    eapply Inv_frame; [exact Hinv|first [history_side|frame_side]..]. }
  destruct (String.eqb key "ArrowDown"); [|by rewrite commit_same].
  destruct (Z.leb_spec 0 (historyIndex (ui r))); [|by rewrite commit_same].
  destruct (Z.leb_spec (Z.of_nat (length (commandHistory (ui r)))) (historyIndex (ui r) + 1));
    rewrite commit_same by done.
  all: eapply Inv_frame; [exact Hinv|first [history_side|frame_side]..].
Qed.

Lemma Inv_keydown b r now key :
  Inv b r → inputRendered r = true →
  Inv b (commit r (handleInputSubmit now key r)).
Proof.
  intros Hinv Hin.
  destruct (inputRendered_true _ Hin) as (Hb & Hi & He).
  destruct (String.eqb key "Enter" && truthy (trim (userInput (ui r)))) eqn:Hk;
    [|by apply Inv_arrows].
  unfold handleInputSubmit. rewrite He, Hk.
  destruct (processCommand now (trim (userInput (ui r))) r) as [response s1] eqn:E.
  apply Inv_enter; [done..|].
  destruct (processCommand_cases now (trim (userInput (ui r))) r) as [[resp E']|E'];
    rewrite E in E'; injection E' as _ ->; [by left|by right].
Qed.

(** ** Every event keeps the invariant *)

Lemma Inv_ipInfo b r ipInfo :
  Inv b r →
  Inv b (commit r (ipInfoThen ipInfo (set_ipFetchPending false r))).
Proof.
  intros Hinv. unfold ipInfoThen. rewrite commit_same by done.
  eapply Inv_frame; [exact Hinv|try frame_side..].
  right. st_simpl. split_and!; try done.
  by destruct (terminalLines (ui r)).
Qed.

Lemma Inv_fire b r id s :
  Inv b r → fire b id r = Some s → Inv b (commit r s).
Proof.
  intros Hinv. unfold fire.
  destruct (timers (host r) !! id) as [t|] eqn:Hid; [|done].
  intros [= <-].
  pose proof (intervalsKnown_repeats _ _ _ _ _ _ (inv_intervals _ _ Hinv) Hid) as Hrep.
  destruct t as [cb rep]. cbn [callback repeats] in Hrep. subst rep.
  destruct cb; cbn [isInterval callback repeats runCallback].
  - by apply Inv_typeCharacter.
  - unfold exitSequenceStart.
    eapply Inv_typeExitSequence; [exact Hinv|exact Hid|try done..].
    st_simpl. lia.
  - eapply Inv_typeExitSequence; [exact Hinv|exact Hid|try done..].
    st_simpl. by destruct (exit_pending _ _ _ (inv_exit _ _ Hinv) Hid eq_refl)
      as (_ & _ & _ & _ & ?).
  - by apply Inv_bsod.
  - by apply Inv_countdown.
  - by apply (Inv_cosmetic b r id (timeout CbFocus)).
  - by apply (Inv_cosmetic b r id {| callback := CbTypeTimer; repeats := true |}).
  - by apply (Inv_cosmetic b r id {| callback := CbCursorTimer; repeats := true |}).
  - by apply (Inv_cosmetic b r id {| callback := CbInputCursorTimer; repeats := true |}).
Qed.

Lemma Inv_step b e r s : Inv b r → step b e r = Some s → Inv b s.
Proof.
  intros Hinv. unfold step.
  destruct (negb (mounted (host r)) || reloaded (host r)); [done|].
  destruct e as [id|ipInfo|key now|value|].
  - destruct (fire b id r) as [s'|] eqn:E; [|done]. intros [= <-].
    by eapply Inv_fire.
  - destruct (ipFetchPending (host r)); [|done]. intros [= <-].
    by apply Inv_ipInfo.
  - destruct (inputRendered r) eqn:Hin; [|done]. intros [= <-].
    by apply Inv_keydown.
  - destruct (inputRendered r); [|done]. intros [= <-].
    eapply Inv_frame; [exact Hinv|first [history_side|frame_side]..].
  - destruct (showBSOD (ui r) && showRestartButton (ui r)); [|done]. intros [= <-].
    eapply Inv_frame; [exact Hinv|first [history_side|frame_side]..].
Qed.

Lemma reachable_Inv b s : reachable b s → Inv b s.
Proof.
  induction 1 as [|r e s _ IH Hstep]; [apply Inv_mount|by eapply Inv_step].
Qed.

Lemma run_reachable b es r s : reachable b r → run b es r = Some s → reachable b s.
Proof.
  revert r. induction es as [|e es IH]; intros r Hr; cbn [run].
  - by intros [= <-].
  - destruct (step b e r) as [r'|] eqn:E; [|done].
    apply IH. by eapply reachable_step.
Qed.

(** ** What an event does to the screen flags *)

Lemma bsodCleanup_ui s : ui (bsodCleanup s) = ui s ∧ reloaded (host (bsodCleanup s)) = reloaded (host s).
Proof. unfold bsodCleanup. by destruct (countdownTimer (vars s)). Qed.

Lemma bsodEffect_flags s : flags (bsodEffect s) = flags s.
Proof.
  unfold bsodEffect, flags.
  destruct (showBSOD (ui s) && (0 <? countdown (ui s))); [done|].
  by destruct (showBSOD (ui s) && (countdown (ui s) =? 0)).
Qed.

Lemma commit_flags r s : flags (commit r s) = flags s.
Proof.
  unfold commit. destruct (bool_decide _); [done|].
  rewrite bsodEffect_flags. unfold flags.
  by destruct (bsodCleanup_ui s) as [-> ->].
Qed.

Lemma typeExitSequence_flags s : flags (typeExitSequence s) = flags s.
Proof.
  unfold typeExitSequence, flags.
  destruct (_ <=? _)%nat; [done|].
  destruct (String.eqb _ ""); [by rewrite andb_false_r|].
  destruct (_ <? _)%nat; by destruct ((_ =? 0)%nat && _).
Qed.

Lemma typeCharacter_flags b s :
  flags (typeCharacter b s) = flags s
  ∨ (length (lines b (ipInfoRef (vars s))) ≤ lineIndex (vars s))%nat
    ∧ flags (typeCharacter b s) =
      (true, isExitSequenceActive (ui s), showBSOD (ui s), countdown (ui s),
       reloaded (host s)).
Proof.
  unfold typeCharacter, flags.
  destruct (Nat.leb_spec (length (lines b (ipInfoRef (vars s)))) (lineIndex (vars s))).
  - right. by split.
  - left. destruct (_ <? _)%nat; by destruct (_ =? 0)%nat.
Qed.

Lemma handleInputSubmit_flags now key r :
  flags (handleInputSubmit now key r) = flags r
  ∨ isExitSequenceActive (ui r) = false
    ∧ flags (handleInputSubmit now key r) =
      (false, true, showBSOD (ui r), countdown (ui r), reloaded (host r)).
Proof.
  unfold handleInputSubmit.
  destruct (isExitSequenceActive (ui r)) eqn:He; [by left|].
  destruct (String.eqb key "Enter" && truthy (trim (userInput (ui r)))).
  { destruct (processCommand_cases now (trim (userInput (ui r))) r) as [[resp ->]| ->].
    - left. unfold flags. destruct (bool_decide _); st_simpl; by rewrite He.
    - right. split; [done|]. rewrite executeExit_eq. unfold flags.
      destruct (bool_decide _); st_simpl; done. }
  left. unfold flags. repeat case_match; st_simpl; by rewrite ?He.
Qed.

(** The six ways an event moves the page. *)
Lemma step_flags b e r s :
  Inv b r →
  step b e r = Some s →
  flags s = flags r
  ∨ (∃ id, e = Fire id
       ∧ timers (host r) !! id = Some (timeout CbTypeCharacter)
       ∧ (length (lines b (ipInfoRef (vars r))) ≤ lineIndex (vars r))%nat
       ∧ flags s = (true, isExitSequenceActive (ui r), showBSOD (ui r),
                    countdown (ui r), false))
  ∨ (∃ key now, e = KeyDown key now
       ∧ inputRendered r = true
       ∧ flags s = (false, true, showBSOD (ui r), countdown (ui r), false))
  ∨ (∃ id, e = Fire id
       ∧ timers (host r) !! id = Some (timeout CbBsodTimeout)
       ∧ flags s = (isInteractive (ui r), isExitSequenceActive (ui r), true, 7, false))
  ∨ (∃ id, e = Fire id
       ∧ timers (host r) !! id = Some (timeout (CbCountdown (countdown (ui r))))
       ∧ showBSOD (ui r) = true ∧ 0 < countdown (ui r)
       ∧ flags s = (isInteractive (ui r), isExitSequenceActive (ui r),
                    true, countdown (ui r) - 1, false))
  ∨ (e = ClickRestart
       ∧ showBSOD (ui r) = true ∧ showRestartButton (ui r) = true
       ∧ flags s = (isInteractive (ui r), isExitSequenceActive (ui r),
                    showBSOD (ui r), countdown (ui r), true)).
Proof.
  intros Hinv. unfold step.
  destruct (mounted (host r)); [|done]. destruct (reloaded (host r)) eqn:Hre; [done|].
  cbn [negb orb]. destruct e as [id|ipInfo|key now|value|].
  - unfold fire. destruct (timers (host r) !! id) as [[cb rep]|] eqn:Hid; [|done].
    intros [= <-]. rewrite commit_flags.
    pose proof (intervalsKnown_repeats _ _ _ _ _ _ (inv_intervals _ _ Hinv) Hid) as Hrep.
    cbn [callback repeats] in *. subst rep.
    destruct cb; cbn [runCallback isInterval].
    + destruct (typeCharacter_flags b (clearTimeout id r)) as [->|[Hle ->]].
      * by left.
      * right. left. exists id. split_and!; try done. st_simpl. by rewrite Hre.
    + left. unfold exitSequenceStart. by rewrite typeExitSequence_flags.
    + left. by rewrite typeExitSequence_flags.
    + do 3 right. left. exists id. split_and!; try done.
      unfold flags. st_simpl. by rewrite Hre.
    + destruct (countdown_pending _ _ _ (inv_crash _ _ Hinv) Hid)
        as (Hb & Hc & -> & _).
      do 4 right. left. exists id. split_and!; try done; [lia|].
      unfold flags. st_simpl. by rewrite Hre, Hb.
    + by left.
    + left. unfold flags. by destruct (_ <? _)%nat.
    + by left.
    + by left.
  - destruct (ipFetchPending (host r)); [|done]. intros [= <-].
    left. by rewrite commit_flags.
  - destruct (inputRendered r) eqn:Hin; [|done]. intros [= <-].
    rewrite commit_flags.
    destruct (handleInputSubmit_flags now key r) as [->|[_ ->]]; [by left|].
    do 2 right. left. exists key, now. by rewrite Hre.
  - destruct (inputRendered r); [|done]. intros [= <-]. by left.
  - destruct (showBSOD (ui r)) eqn:Hb; [|done].
    destruct (showRestartButton (ui r)) eqn:Hbtn; [|done]. intros [= <-].
    do 5 right. unfold flags. st_simpl. by rewrite Hb.
Qed.

(** ** The life of the page *)


(** C2.  The page moves one way through typing, interactive, exit
    sequence, crash screen and reload.  The input is enabled only by the
    typing tick that finds the script exhausted; the step that starts the
    exit sequence leaves the input disabled; the crash screen is shown only
    by the timeout scheduled once the exit text is typed to its end; and
    while the exit sequence is active the key handler changes nothing. *)
Theorem stage_order b r e s :
  reachable b r → step b e r = Some s →
  (∀ now key, isExitSequenceActive (ui s) = true → handleInputSubmit now key s = s)
  ∧ (stage r ≤ stage s)%nat
  ∧ (isInteractive (ui r) = false → isInteractive (ui s) = true →
     (length (lines b (ipInfoRef (vars r))) ≤ lineIndex (vars r))%nat
     ∧ ∃ id, e = Fire id ∧ timers (host r) !! id = Some (timeout CbTypeCharacter))
  ∧ (isExitSequenceActive (ui r) = false → isExitSequenceActive (ui s) = true →
     isInteractive (ui s) = false
     ∧ isInteractive (ui (executeExit r)) = false
     ∧ isExitSequenceActive (ui (executeExit r)) = true)
  ∧ (showBSOD (ui r) = false → showBSOD (ui s) = true →
     isExitSequenceActive (ui r) = true
     ∧ (length exitSequence ≤ exitLineIndex (vars r))%nat
     ∧ ∃ id, e = Fire id ∧ timers (host r) !! id = Some (timeout CbBsodTimeout)).
Proof.
  intros Hreach Hstep. pose proof (reachable_Inv _ _ Hreach) as Hinv.
  assert (Hre : reloaded (host r) = false).
  { unfold step in Hstep. destruct (reloaded (host r)); [|done].
    by rewrite orb_true_r in Hstep. }
  assert (Hkey : ∀ now key,
    isExitSequenceActive (ui s) = true → handleInputSubmit now key s = s).
  { intros now key He. unfold handleInputSubmit. by rewrite He. }
  assert (Hexit : isInteractive (ui (executeExit r)) = false
                  ∧ isExitSequenceActive (ui (executeExit r)) = true).
  { by rewrite executeExit_eq. }
  split; [exact Hkey|]. clear Hkey.
  unfold stage. rewrite Hre.
  destruct (step_flags _ _ _ _ Hinv Hstep)
    as [Hf|[(id & -> & Hid & Hle & Hf)|[(key & now & -> & Hin & Hf)
       |[(id & -> & Hid & Hf)|[(id & -> & Hid & Hb & Hc & Hf)|(-> & Hb & Hbtn & Hf)]]]]];
    unfold flags in Hf; injection Hf as Hi He Hb' Hcd Hre'.
  - rewrite Hi, He, Hb', Hre', Hre.
    split_and!; [lia|congruence..].
  - rewrite Hi, He, Hb', Hre'.
    split_and!; [repeat case_match; lia|by eauto|congruence|congruence].
  - destruct (inputRendered_true _ Hin) as (Hb & Hi' & He').
    rewrite Hi, He, Hb', Hre', Hb, Hi', He'.
    split_and!; [lia|congruence|done|congruence].
  - destruct (exit_pending _ _ _ (inv_exit _ _ Hinv) Hid eq_refl)
      as (He' & Hi' & Hb & _ & _ & Hl).
    rewrite Hi, He, Hb', Hre', Hb, Hi', He'.
    split_and!; [lia|congruence|congruence|by eauto].
  - rewrite Hi, He, Hb', Hre', Hb.
    split_and!; [lia|congruence..].
  - rewrite Hi, He, Hb', Hre', Hb.
    split_and!; [lia|congruence..].
Qed.

Lemma stage_order_witness :
  ∃ s, step exampleBrowser (Fire 1) (mount exampleBrowser) = Some s
       ∧ (stage (mount exampleBrowser) ≤ stage s)%nat.
Proof.
  destruct (step exampleBrowser (Fire 1) (mount exampleBrowser)) as [s|] eqn:E;
    [|by vm_compute in E].
  exists s. split; [done|].
  exact (proj1 (proj2 (stage_order exampleBrowser (mount exampleBrowser) (Fire 1) s
                         (reachable_mount exampleBrowser) E))).
Defined.



(** ** The fetched address *)

Lemma lookup_map {A B} (f : A → B) (l : list A) i : map f l !! i = f <$> l !! i.
Proof. revert i. induction l as [|x l IH]; intros [|i]; simpl; auto. Qed.

Lemma commit_terminalLines r s : terminalLines (ui (commit r s)) = terminalLines (ui s).
Proof.
  unfold commit. destruct (bool_decide _); [done|].
  unfold bsodEffect.
  destruct (showBSOD (ui (bsodCleanup s)) && (0 <? countdown (ui (bsodCleanup s)))).
  - st_simpl. by destruct (bsodCleanup_ui s) as [-> _].
  - destruct (showBSOD (ui (bsodCleanup s)) && (countdown (ui (bsodCleanup s)) =? 0));
      st_simpl; by destruct (bsodCleanup_ui s) as [-> _].
Qed.

(** C5.  When the fetched string is applied, the lines containing
    [network_trace:] become the line rebuilt around it, every other line
    stays as it is, and the number of lines does not change. *)
Theorem ipInfo_update_frame b ipInfo r s :
  step b (IpInfoArrives ipInfo) r = Some s →
  length (terminalLines (ui s)) = length (terminalLines (ui r))
  ∧ ∀ i line, terminalLines (ui r) !! i = Some line →
      terminalLines (ui s) !! i
      = Some (if includes "network_trace:" line then networkTraceLine ipInfo else line).
Proof.
  unfold step. destruct (negb (mounted (host r)) || reloaded (host r)); [done|].
  destruct (ipFetchPending (host r)); [|done]. intros [= <-].
  rewrite commit_terminalLines. unfold ipInfoThen. st_simpl. split.
  - apply length_map.
  - intros i line Hi. by rewrite lookup_map, Hi.
Qed.

Lemma ipInfo_update_frame_witness :
  ∃ s, step exampleBrowser (IpInfoArrives "203.0.113.7 | Lyon, ARA | ISP: Example")
         (mount exampleBrowser) = Some s
       ∧ length (terminalLines (ui s)) = length (terminalLines (ui (mount exampleBrowser))).
Proof.
  destruct (step exampleBrowser (IpInfoArrives "203.0.113.7 | Lyon, ARA | ISP: Example")
              (mount exampleBrowser)) as [s|] eqn:E; [|by vm_compute in E].
  exists s. split; [done|].
  exact (proj1 (ipInfo_update_frame _ _ _ _ E)).
Defined.

(** ** Command history *)

Lemma pressKeys_history now keys s :
  historyIndexInRange s → historyIndexInRange (pressKeys now keys s).
Proof.
  unfold pressKeys. revert s. induction keys as [|key keys IH]; intros s Hs; [done|].
  cbn [foldl]. by apply IH, handleInputSubmit_history.
Qed.

Lemma arrow_keeps_history now key s :
  key = "ArrowUp" ∨ key = "ArrowDown" →
  commandHistory (ui (handleInputSubmit now key s)) = commandHistory (ui s).
Proof.
  unfold handleInputSubmit. destruct (isExitSequenceActive (ui s)); [done|].
  intros [-> | ->]; cbn [String.eqb Ascii.eqb Bool.eqb andb];
    repeat case_match; st_simpl; done.
Qed.

(** C10.  Whatever keys are pressed, [historyIndex] stays in
    [-1, commandHistory.length - 1]; arrow keys leave the history itself
    alone; ArrowUp does nothing on an empty history and stops at 0;
    ArrowDown from the newest entry goes back to -1 and empties the input. *)
Theorem historyIndex_in_range now keys s :
  historyIndexInRange s →
  historyIndexInRange (pressKeys now keys s)
  ∧ (Forall (λ key, key = "ArrowUp" ∨ key = "ArrowDown") keys →
     commandHistory (ui (pressKeys now keys s)) = commandHistory (ui s))
  ∧ (commandHistory (ui s) = [] → handleInputSubmit now "ArrowUp" s = s)
  ∧ (isExitSequenceActive (ui s) = false → commandHistory (ui s) ≠ [] →
     historyIndex (ui s) = 0 →
     historyIndex (ui (handleInputSubmit now "ArrowUp" s)) = 0)
  ∧ (isExitSequenceActive (ui s) = false →
     historyIndex (ui s) = Z.of_nat (length (commandHistory (ui s))) - 1 →
     0 ≤ historyIndex (ui s) →
     historyIndex (ui (handleInputSubmit now "ArrowDown" s)) = -1
     ∧ userInput (ui (handleInputSubmit now "ArrowDown" s)) = "").
Proof.
  intros Hs. split; [by apply pressKeys_history|]. split; [|split_and!].
  - unfold pressKeys. revert s Hs.
    induction keys as [|key keys IH]; intros s Hs Hk; [done|].
    apply Forall_cons in Hk as [Hkey Hk]. cbn [foldl].
    rewrite IH; [by apply arrow_keeps_history|by apply handleInputSubmit_history|done].
  - intros Hnil. unfold handleInputSubmit. rewrite Hnil.
    destruct (isExitSequenceActive (ui s)); [done|].
    by cbn [String.eqb Ascii.eqb Bool.eqb andb length Nat.ltb Nat.leb].
  - intros He Hne H0. unfold handleInputSubmit. rewrite He, H0.
    cbn [String.eqb Ascii.eqb Bool.eqb andb].
    destruct (commandHistory (ui s)); [done|]. by cbn.
  - intros He Hlast Hpos. unfold handleInputSubmit. rewrite He.
    cbn [String.eqb Ascii.eqb Bool.eqb andb].
    rewrite (proj2 (Z.leb_le _ _)) by done.
    rewrite (proj2 (Z.leb_le _ _)) by lia. by st_simpl.
Qed.

Lemma historyIndex_in_range_witness :
  historyIndexInRange
    (pressKeys exampleClock ["ArrowUp"; "ArrowDown"; "ArrowUp"] (mount exampleBrowser)).
Proof.
  refine (proj1 (historyIndex_in_range exampleClock ["ArrowUp"; "ArrowDown"; "ArrowUp"]
                   (mount exampleBrowser) _)).
  unfold historyIndexInRange. vm_compute. split; discriminate.
Defined.

(** ** Typing one character *)

Lemma setLast_snoc x y l : setLast x (l ++ [y]) = l ++ [x].
Proof.
  unfold setLast. rewrite length_app. cbn [length].
  replace (pred (length l + 1)) with (length l + 0)%nat by lia.
  by rewrite insert_app_r.
Qed.

Lemma setLast_last x l : l ≠ [] → last (setLast x l) = Some x.
Proof.
  destruct l as [|y l _] using rev_ind; [done|]. intros _.
  by rewrite setLast_snoc, last_snoc.
Qed.

Lemma slice0_prefix n s : String.prefix (slice0 n s) s = true.
Proof.
  revert n. induction s as [|c s IH]; intros [|n]; cbn [slice0 String.prefix]; try done.
  destruct (ascii_dec c c); [apply IH|done].
Qed.

Lemma slice0_length n s : (n ≤ String.length s)%nat → String.length (slice0 n s) = n.
Proof.
  revert n. induction s as [|c s IH]; intros [|n] Hn; cbn in *; try done; [lia|].
  rewrite IH; [done|lia].
Qed.

Lemma nonempty_eqb L : (0 < String.length L)%nat → String.eqb L "" = false.
Proof. by destruct L; [cbn; lia|]. Qed.

Lemma exitSequence_length : length exitSequence = 30%nat.
Proof. done. Qed.

(** C7.  A tick that types character [k] of a scripted line [L] leaves
    [L.slice(0, k+1)] as the last line of the page and moves the character
    index to [k+1], in the initial animation and in the exit sequence (whose
    first tick is the callback of the initial delay).  What is typed is a
    prefix of [L], one character longer each tick. *)
Theorem typed_text_is_prefix b r id s :
  reachable b r → step b (Fire id) r = Some s →
  (∀ L, timers (host r) !! id = Some (timeout CbTypeCharacter) →
     lines b (ipInfoRef (vars r)) !! lineIndex (vars r) = Some L →
     (charIndex (vars r) < String.length L)%nat →
     last (terminalLines (ui s)) = Some (slice0 (S (charIndex (vars r))) L)
     ∧ charIndex (vars s) = S (charIndex (vars r))
     ∧ lineIndex (vars s) = lineIndex (vars r))
  ∧ (∀ L, timers (host r) !! id = Some (timeout CbTypeExitSequence) →
     exitSequence !! exitLineIndex (vars r) = Some L →
     (exitCharIndex (vars r) < String.length L)%nat →
     last (terminalLines (ui s)) = Some (slice0 (S (exitCharIndex (vars r))) L)
     ∧ exitCharIndex (vars s) = S (exitCharIndex (vars r))
     ∧ exitLineIndex (vars s) = exitLineIndex (vars r))
  ∧ (∀ L, timers (host r) !! id = Some (timeout CbInitialTimeout) →
     exitSequence !! 0%nat = Some L →
     last (terminalLines (ui s)) = Some (slice0 1 L)
     ∧ exitCharIndex (vars s) = 1%nat ∧ exitLineIndex (vars s) = 0%nat)
  ∧ (∀ k L, (k < String.length L)%nat →
     String.prefix (slice0 (S k) L) L = true
     ∧ String.length (slice0 (S k) L) = S (String.length (slice0 k L))).
Proof.
  intros Hreach Hstep. pose proof (reachable_Inv _ _ Hreach) as Hinv.
  unfold step in Hstep.
  destruct (negb (mounted (host r)) || reloaded (host r)); [done|].
  unfold fire in Hstep.
  destruct (timers (host r) !! id) as [t|] eqn:Hid; [|done].
  injection Hstep as <-.
  split_and!.
  - intros L [= ->] HL Hc. cbn [timeout callback repeats runCallback].
    destruct (typing_pending _ _ _ (inv_typing _ _ Hinv) Hid) as (_ & _ & Hnz & _).
    pose proof (lookup_lt_Some _ _ _ HL) as Hlt. rewrite lines_length in Hlt.
    unfold typeCharacter; st_simpl; rewrite lines_length, HL; cbn [default from_option Datatypes.id].
    rewrite (proj2 (Nat.leb_gt _ _)) by done; rewrite (proj2 (Nat.ltb_lt _ _)) by done.
    destruct (Nat.eqb_spec (charIndex (vars r)) 0) as [Hz|Hz];
      rewrite commit_same by done; st_simpl.
    + rewrite Nat.add_1_r. split; [|done]. apply setLast_last, snoc_nonempty.
    + rewrite Nat.add_1_r. split; [|done]. apply setLast_last, Hnz. lia.
  - intros L [= ->] HL Hc. cbn [timeout callback repeats runCallback].
    destruct (exit_pending _ _ _ (inv_exit _ _ Hinv) Hid eq_refl)
      as (_ & _ & _ & _ & Hnz). cbn [ExitSlot] in Hnz.
    pose proof (lookup_lt_Some _ _ _ HL) as Hlt. rewrite exitSequence_length in Hlt.
    unfold typeExitSequence; st_simpl; rewrite exitSequence_length, HL;
      cbn [default from_option Datatypes.id].
    rewrite (proj2 (Nat.leb_gt _ _)) by done; rewrite (nonempty_eqb L) by lia;
      rewrite (proj2 (Nat.ltb_lt _ _)) by done; rewrite andb_true_r.
    destruct (Nat.eqb_spec (exitCharIndex (vars r)) 0) as [Hz|Hz];
      rewrite commit_same by done; st_simpl.
    + rewrite Nat.add_1_r. split; [|done]. apply setLast_last, snoc_nonempty.
    + rewrite Nat.add_1_r. split; [|done]. apply setLast_last, Hnz. lia.
  - intros L [= ->] HL. cbn [timeout callback repeats runCallback].
    assert (Hc : (0 < String.length L)%nat) by (by injection HL as <-; vm_compute; lia).
    unfold exitSequenceStart, typeExitSequence; st_simpl;
      rewrite exitSequence_length, HL; cbn [default from_option Datatypes.id].
    rewrite (proj2 (Nat.leb_gt _ _)) by lia; rewrite (nonempty_eqb L) by lia;
      rewrite (proj2 (Nat.ltb_lt _ _)) by done; cbn [Nat.eqb andb negb].
    rewrite commit_same by done; st_simpl.
    split; [|done]. apply setLast_last, snoc_nonempty.
  - intros k L Hk. split; [apply slice0_prefix|].
    rewrite !slice0_length; [done|lia..].
Qed.

Lemma typed_text_is_prefix_witness :
  ∃ s, step exampleBrowser (Fire 1) (mount exampleBrowser) = Some s
       ∧ last (terminalLines (ui s)) = Some "<".
Proof.
  destruct (step exampleBrowser (Fire 1) (mount exampleBrowser)) as [s|] eqn:E;
    [|by vm_compute in E].
  exists s. split; [done|].
  refine (proj1 (proj1 (typed_text_is_prefix exampleBrowser (mount exampleBrowser) 1 s
                          (reachable_mount exampleBrowser) E)
                   (span "text-cyan-400" "$ traceroute target_host") _ _ _)).
  - by vm_compute.
  - by vm_compute.
  - vm_compute. lia.
Defined.

(** ** Unmount *)







(** ** More on strings *)

Lemma slice0_ge n s : (String.length s ≤ n)%nat → slice0 n s = s.
Proof.
  revert n. induction s as [|c s IH]; intros [|n] Hn; cbn in *; try done; [lia|].
  rewrite IH; [done|lia].
Qed.

Lemma slice0_app_le n p r : (n ≤ String.length p)%nat → slice0 n (p +:+ r) = slice0 n p.
Proof.
  revert n. induction p as [|c p IH]; intros [|n] Hn; simpl in *; try done; try lia.
  rewrite IH; [done|lia].
Qed.

Lemma slice0_app_ge n p r :
  (String.length p ≤ n)%nat → slice0 n (p +:+ r) = p +:+ slice0 (n - String.length p) r.
Proof.
  revert n. induction p as [|c p IH]; intros n Hn; simpl in *.
  - by rewrite Nat.sub_0_r.
  - destruct n as [|n]; [lia|]. simpl. rewrite IH; [done|lia].
Qed.

Lemma prefix_app_l m p r : String.prefix m p = true → String.prefix m (p +:+ r) = true.
Proof.
  revert p. induction m as [|a m IH]; intros [|c p]; simpl; try done.
  - by destruct r.
  - destruct (ascii_dec a c); [apply IH|done].
Qed.

Lemma includes_cons m c s :
  includes m (String c s) = if String.prefix m (String c s) then true else includes m s.
Proof. done. Qed.

Lemma includes_app_l m p r : includes m p = true → includes m (p +:+ r) = true.
Proof.
  induction p as [|c p IH].
  - destruct m; [by destruct r|done].
  - change (String c p +:+ r) with (String c (p +:+ r)).
    rewrite !includes_cons.
    destruct (String.prefix m (String c p)) eqn:E.
    + intros _.
      assert (String.prefix m (String c (p +:+ r)) = true) as ->
        by exact (prefix_app_l m (String c p) r E).
      done.
    + intros H. rewrite IH by done. by destruct (String.prefix m (String c (p +:+ r))).
Qed.

Lemma prefix_slice0 m n s :
  String.prefix m (slice0 n s) = true → String.prefix m s = true.
Proof.
  revert n s. induction m as [|a m IH]; intros n s; [by destruct s|].
  destruct n as [|n], s as [|c s]; cbn; try done.
  destruct (ascii_dec a c); [apply IH|done].
Qed.

Lemma includes_slice0 m n s : includes m (slice0 n s) = true → includes m s = true.
Proof.
  revert n. induction s as [|c s IH]; intros n.
  - by destruct n.
  - destruct n as [|n].
    + change (slice0 0 (String c s)) with "".
      destruct m; [by rewrite includes_cons|done].
    + change (slice0 (S n) (String c s)) with (String c (slice0 n s)).
      rewrite !includes_cons.
      destruct (String.prefix m (String c (slice0 n s))) eqn:E.
      * intros _.
        assert (String.prefix m (String c s) = true) as ->
          by exact (prefix_slice0 m (S n) (String c s) E).
        done.
      * intros H. rewrite (IH _ H). by destruct (String.prefix m (String c s)).
Qed.

(** ** The scripted lines *)

Lemma networkTraceLine_split ip :
  networkTraceLine ip = tracePrefix +:+ ("</span> " +:+ span "text-white" ip).
Proof. done. Qed.

Lemma includes_trace ip : includes "network_trace:" (networkTraceLine ip) = true.
Proof. rewrite networkTraceLine_split. by apply includes_app_l. Qed.

Lemma lines_trace b ip : lines b ip !! 2%nat = Some (networkTraceLine ip).
Proof. done. Qed.

Lemma lines_other b ip ip' i : i ≠ 2%nat → lines b ip !! i = lines b ip' !! i.
Proof. intros Hi. do 15 (destruct i as [|i]; [done|]). done. Qed.

Lemma clean_other b ip i L :
  cleanScript b = true → i ≠ 2%nat → lines b ip !! i = Some L →
  includes "network_trace:" L = false.
Proof.
  unfold cleanScript. rewrite forallb_forall. intros Hclean Hi HL.
  apply negb_true_iff, Hclean.
  rewrite (lines_other b ip "" i Hi) in HL.
  unfold otherLines, lines in *.
  do 15 (destruct i as [|i]; [try done; injection HL as <-; cbn [take drop app In firstn skipn]; tauto|]).
  done.
Qed.

Lemma map_lines b ip ip' :
  cleanScript b = true →
  map (λ line, if includes "network_trace:" line then networkTraceLine ip' else line)
      (lines b ip)
  = lines b ip'.
Proof.
  intros Hclean. apply list_eq. intros i. rewrite lookup_map.
  destruct (decide (i = 2%nat)) as [->|Hi].
  - rewrite !lines_trace. cbn [fmap option_fmap option_map]. by rewrite includes_trace.
  - rewrite <- (lines_other b ip ip' i Hi).
    destruct (lines b ip !! i) as [L|] eqn:HL; [|done].
    cbn [fmap option_fmap option_map]. by rewrite (clean_other b ip i L).
Qed.

Lemma string_length_app p r :
  String.length (p +:+ r) = (String.length p + String.length r)%nat.
Proof. induction p as [|c p IH]; simpl; by rewrite ?IH. Qed.

(** A prefix of the network_trace line that does not yet contain the
    marker is a prefix of every network_trace line. *)
Lemma trace_prefix_shared ip ip' c :
  (c ≤ String.length (networkTraceLine ip))%nat →
  includes "network_trace:" (slice0 c (networkTraceLine ip)) = false →
  slice0 c (networkTraceLine ip) = slice0 c (networkTraceLine ip')
  ∧ (c ≤ String.length (networkTraceLine ip'))%nat.
Proof.
  intros Hc Hno. rewrite !networkTraceLine_split in *.
  destruct (Nat.le_gt_cases (String.length tracePrefix) c) as [Hge|Hlt].
  - rewrite slice0_app_ge in Hno by done.
    rewrite includes_app_l in Hno; done.
  - rewrite !slice0_app_le by lia. split; [done|].
    rewrite string_length_app. lia.
Qed.

(** ** The page while the script is typed *)

Lemma LinesTyped_frame b r s :
  terminalLines (ui s) = terminalLines (ui r) →
  lineIndex (vars s) = lineIndex (vars r) →
  charIndex (vars s) = charIndex (vars r) →
  ipInfoRef (vars s) = ipInfoRef (vars r) →
  LinesTyped b r → LinesTyped b s.
Proof. unfold LinesTyped. by intros -> -> -> ->. Qed.

Lemma LinesTyped_tick b r id :
  LinesTyped b r →
  (lineIndex (vars r) < 14)%nat →
  LinesTyped b (typeCharacter b (clearTimeout id r)).
Proof.
  intros Hl Hlt.
  destruct (lookup_lt_is_Some_2 (lines b (ipInfoRef (vars r))) (lineIndex (vars r)))
    as [L HL]; [by rewrite lines_length|].
  unfold typeCharacter. st_simpl. rewrite lines_length, HL.
  cbn [default from_option Datatypes.id].
  rewrite (proj2 (Nat.leb_gt _ _)) by done.
  unfold LinesTyped in Hl.
  destruct (Nat.eqb_spec (charIndex (vars r)) 0) as [Hz|Hz];
    destruct (Nat.ltb_spec (charIndex (vars r)) (String.length L)) as [Hc|Hc];
    unfold LinesTyped; st_simpl; cbn [Nat.eqb].
  - rewrite Hl, setLast_snoc, Hz. exists L, (slice0 1 L).
    split_and!; [done..|]. right. split; [done|lia].
  - rewrite Hl. rewrite (take_S_r _ _ L) by done.
    destruct L; [done|cbn in Hc; lia].
  - destruct Hl as (L' & X & HL' & -> & HX). rewrite HL in HL'. injection HL' as <-.
    rewrite setLast_snoc, Nat.add_1_r. exists L, (slice0 (S (charIndex (vars r))) L).
    split_and!; [done..|]. right. split; [done|lia].
  - destruct Hl as (L' & X & HL' & -> & HX). rewrite HL in HL'. injection HL' as <-.
    rewrite (take_S_r _ _ L) by done. f_equal. f_equal.
    destruct HX as [->|[-> Hle]]; [done|]. apply slice0_ge. lia.
Qed.

Lemma LinesTyped_ipInfo b r ipInfo :
  cleanScript b = true →
  LinesTyped b r →
  LinesTyped b (ipInfoThen ipInfo (set_ipFetchPending false r)).
Proof.
  intros Hclean Hl. unfold ipInfoThen, LinesTyped in *. st_simpl.
  destruct (Nat.eqb_spec (charIndex (vars r)) 0) as [Hz|Hz].
  - rewrite Hl, <- firstn_map. by rewrite map_lines.
  - destruct Hl as (L & X & HL & -> & HX).
    rewrite map_app, <- firstn_map, map_lines by done. cbn [map].
    destruct (decide (lineIndex (vars r) = 2%nat)) as [Hi|Hi].
    + rewrite Hi in *. rewrite lines_trace in HL. injection HL as <-.
      exists (networkTraceLine ipInfo). eexists. split; [apply lines_trace|].
      split; [done|].
      destruct HX as [->|[-> Hle]]; [left; by rewrite includes_trace|].
      destruct (includes _ (slice0 _ _)) eqn:Hinc; [by left|]. right.
      by apply trace_prefix_shared.
    + exists L, X. rewrite <- (lines_other b (ipInfoRef (vars r)) ipInfo _ Hi).
      split; [done|]. split; [|done]. f_equal. f_equal.
      assert (includes "network_trace:" L = false) as HcL by (by eapply clean_other).
      destruct HX as [->|[-> _]]; [by rewrite HcL|].
      destruct (includes _ (slice0 _ _)) eqn:Hinc; [|done].
      apply includes_slice0 in Hinc. congruence.
Qed.

Lemma commit_typing_vars r s :
  lineIndex (vars (commit r s)) = lineIndex (vars s)
  ∧ charIndex (vars (commit r s)) = charIndex (vars s)
  ∧ ipInfoRef (vars (commit r s)) = ipInfoRef (vars s).
Proof.
  unfold commit. destruct (bool_decide _); [done|].
  unfold bsodEffect, bsodCleanup.
  destruct (countdownTimer (vars s)); st_simpl;
    repeat (match goal with |- context [if ?c then _ else _] => destruct c end; st_simpl);
    done.
Qed.

Lemma LinesTyped_commit b r s : LinesTyped b s → LinesTyped b (commit r s).
Proof.
  destruct (commit_typing_vars r s) as (? & ? & ?).
  apply LinesTyped_frame; [apply commit_terminalLines|done..].
Qed.

Lemma WhileTyping_step b e r s :
  cleanScript b = true →
  Inv b r → WhileTyping b r → step b e r = Some s → WhileTyping b s.
Proof.
  intros Hclean Hinv Hw Hstep id' Hid'.
  pose proof (Inv_step _ _ _ _ Hinv Hstep) as Hinv'.
  destruct (typing_pending _ _ _ (inv_typing _ _ Hinv') Hid') as (Hi' & He' & _ & _).
  destruct (inv_typing _ _ Hinv) as ([id0|] & Ho & Hp); cbn [TypingPhase] in Hp.
  2: { (* the animation was over: it cannot be running now *)
    exfalso. destruct Hp as [_ Hor].
    destruct (step_flags _ _ _ _ Hinv Hstep)
      as [Hf|[(id & -> & Hid & Hle & Hf)|[(key & now & -> & Hin & Hf)
         |[(id & -> & Hid & Hf)|[(id & -> & Hid & Hb & Hc & Hf)|(-> & Hb & Hbtn & Hf)]]]]];
      unfold flags in Hf; injection Hf as Hi He Hb' Hcd Hre'.
    2: by specialize (Ho _ _ Hid eq_refl).
    all: destruct Hor; congruence. }
  destruct Hp as (Hid0 & Hi & He & _).
  pose proof (Hw _ Hid0) as Hl.
  destruct (exit_idle _ (inv_exit _ _ Hinv) He) as (Hoe & Hb & _).
  unfold step in Hstep.
  destruct (negb (mounted (host r)) || reloaded (host r)); [done|].
  destruct e as [id|ipInfo|key now|value|].
  - unfold fire in Hstep.
    destruct (timers (host r) !! id) as [[cb rep]|] eqn:Hid; [|done].
    pose proof (intervalsKnown_repeats _ _ _ _ _ _ (inv_intervals _ _ Hinv) Hid) as Hrep.
    cbn [callback repeats] in *. subst rep. injection Hstep as <-.
    destruct cb; cbn [runCallback isInterval] in *.
    + destruct (Nat.le_gt_cases 14 (lineIndex (vars r))) as [Hdone|Hlt].
      * exfalso. revert Hi'. unfold typeCharacter. st_simpl. rewrite lines_length.
        rewrite (proj2 (Nat.leb_le _ _)) by done. by rewrite commit_same.
      * by apply LinesTyped_commit, LinesTyped_tick.
    + destruct (exit_pending _ _ _ (inv_exit _ _ Hinv) Hid eq_refl) as (? & _). congruence.
    + destruct (exit_pending _ _ _ (inv_exit _ _ Hinv) Hid eq_refl) as (? & _). congruence.
    + destruct (exit_pending _ _ _ (inv_exit _ _ Hinv) Hid eq_refl) as (? & _). congruence.
    + destruct (countdown_pending _ _ _ (inv_crash _ _ Hinv) Hid) as (? & _). congruence.
    + by apply LinesTyped_commit, (LinesTyped_frame b r).
    + apply LinesTyped_commit, (LinesTyped_frame b r); try done.
      all: by destruct (_ <? _)%nat.
    + by apply LinesTyped_commit, (LinesTyped_frame b r).
    + by apply LinesTyped_commit, (LinesTyped_frame b r).
  - destruct (ipFetchPending (host r)); [|done]. injection Hstep as <-.
    by apply LinesTyped_commit, LinesTyped_ipInfo.
  - unfold inputRendered in Hstep. rewrite Hi, andb_false_r in Hstep. done.
  - unfold inputRendered in Hstep. rewrite Hi, andb_false_r in Hstep. done.
  - by rewrite Hb in Hstep.
Qed.

Lemma reachable_WhileTyping b s :
  cleanScript b = true → reachable b s → WhileTyping b s.
Proof.
  intros Hclean. induction 1 as [|r e s Hr IH Hstep].
  - intros id _. by rewrite mount_unfold.
  - eapply WhileTyping_step; [done|by apply reachable_Inv|done..].
Qed.

(** C3 as the code has it.  When no scripted line other than the
    network_trace line contains [network_trace:], the tick that finds the
    script exhausted leaves on the page exactly the scripted lines, the
    network_trace line being built from the current [ipInfoRef], and
    enables the input. *)
Theorem typed_lines_match_script b r id s :
  cleanScript b = true →
  reachable b r →
  timers (host r) !! id = Some (timeout CbTypeCharacter) →
  (length (lines b (ipInfoRef (vars r))) ≤ lineIndex (vars r))%nat →
  step b (Fire id) r = Some s →
  terminalLines (ui s) = lines b (ipInfoRef (vars s))
  ∧ isInteractive (ui s) = true.
Proof.
  intros Hclean Hreach Hid Hle Hstep.
  pose proof (reachable_WhileTyping _ _ Hclean Hreach _ Hid) as Hl.
  unfold step in Hstep.
  destruct (negb (mounted (host r)) || reloaded (host r)); [done|].
  unfold fire in Hstep. rewrite Hid in Hstep. injection Hstep as <-.
  cbn [timeout callback repeats runCallback].
  unfold typeCharacter. st_simpl. rewrite (proj2 (Nat.leb_le _ _)) by done.
  rewrite commit_same by done. st_simpl. split; [|done].
  unfold LinesTyped in Hl.
  destruct (Nat.eqb_spec (charIndex (vars r)) 0) as [Hz|Hz].
  - rewrite Hl. by apply take_ge.
  - destruct Hl as (L & X & HL & _). apply lookup_lt_Some in HL. lia.
Qed.

Lemma typed_lines_match_script_witness :
  ∃ r s, run exampleBrowser fullAnimation (mount exampleBrowser) = Some r
         ∧ step exampleBrowser (Fire 1234) r = Some s
         ∧ terminalLines (ui s) = lines exampleBrowser (ipInfoRef (vars s)).
Proof.
  destruct (run exampleBrowser fullAnimation (mount exampleBrowser)) as [r|] eqn:E;
    [|by vm_compute in E].
  assert (Hid : run exampleBrowser fullAnimation (mount exampleBrowser)
                ≫= (λ x, timers (host x) !! 1234%nat) = Some (timeout CbTypeCharacter))
    by (by vm_compute).
  assert (Hle : run exampleBrowser fullAnimation (mount exampleBrowser)
                ≫= (λ x, Some (lineIndex (vars x))) = Some 14%nat)
    by (by vm_compute).
  assert (Hs : is_Some (run exampleBrowser fullAnimation (mount exampleBrowser)
                        ≫= step exampleBrowser (Fire 1234)))
    by (vm_compute; eauto).
  rewrite E in Hid, Hle, Hs. cbn [mbind option_bind] in Hid, Hle, Hs.
  destruct Hs as [s Hs]. injection Hle as Hle.
  exists r, s. split; [reflexivity|]. split; [exact Hs|].
  refine (proj1 (typed_lines_match_script exampleBrowser r 1234 s _ _ Hid _ Hs)).
  - by vm_compute.
  - eapply run_reachable; [apply reachable_mount|exact E].
  - rewrite lines_length. lia.
Defined.

(** Against C3 as stated: with the marker in the user agent, a fetch that
    resolves after the user_agent line is typed rewrites that line too, and
    the page does not equal the script when the animation ends. *)
Lemma stray_marker_breaks_script :
  ∃ r s, reachable tracingBrowser r
         ∧ timers (host r) !! 1228%nat = Some (timeout CbTypeCharacter)
         ∧ (length (lines tracingBrowser (ipInfoRef (vars r))) ≤ lineIndex (vars r))%nat
         ∧ step tracingBrowser (Fire 1228) r = Some s
         ∧ terminalLines (ui s) ≠ lines tracingBrowser (ipInfoRef (vars s)).
Proof.
  destruct (run tracingBrowser lateFetch (mount tracingBrowser)) as [r|] eqn:E;
    [|by vm_compute in E].
  assert (Hid : run tracingBrowser lateFetch (mount tracingBrowser)
                ≫= (λ x, timers (host x) !! 1228%nat) = Some (timeout CbTypeCharacter))
    by (by vm_compute).
  assert (Hle : run tracingBrowser lateFetch (mount tracingBrowser)
                ≫= (λ x, Some (lineIndex (vars x))) = Some 14%nat)
    by (by vm_compute).
  assert (Hs : is_Some (run tracingBrowser lateFetch (mount tracingBrowser)
                        ≫= step tracingBrowser (Fire 1228)))
    by (vm_compute; eauto).
  assert (Hne : (run tracingBrowser lateFetch (mount tracingBrowser)
                 ≫= step tracingBrowser (Fire 1228))
                ≫= (λ x, Some (String.eqb
                     (default "" (terminalLines (ui x) !! 8%nat))
                     (default "" (lines tracingBrowser (ipInfoRef (vars x)) !! 8%nat))))
                = Some false)
    by (by vm_compute).
  rewrite E in Hid, Hle, Hs, Hne. cbn [mbind option_bind] in Hid, Hle, Hs, Hne.
  destruct Hs as [s Hs]. rewrite Hs in Hne. cbn [mbind option_bind] in Hne.
  injection Hle as Hle. injection Hne as Hne. apply String.eqb_neq in Hne.
  exists r, s.
  split; [eapply run_reachable; [apply reachable_mount|exact E]|].
  split; [exact Hid|]. split; [rewrite lines_length; lia|]. split; [exact Hs|].
  intros Heq. apply Hne. by rewrite Heq.
Qed.

Lemma fetchIPInfo_fallback_witness :
  fetchIPInfo exampleBrowser 3
    (λ attempt, match attempt with
                | 1%nat => Rejected NetworkError
                | 2%nat => Responded false 503 BodyInvalid
                | _ => Rejected AbortError
                end)
  = Some (Normal IP_FALLBACK).
Proof.
  apply (proj2 (fetchIPInfo_fallback exampleBrowser 3 _)). by vm_compute.
Defined.

Lemma processCommand_unrecognized_witness :
  fst (processCommand exampleClock "  Scan --all " initialState) = ["[ACCESS DENIED]"].
Proof.
  apply (proj1 (processCommand_unrecognized exampleClock "  Scan --all " initialState)).
  apply (bool_decide_unpack _). by vm_compute.
Defined.

(** * Further properties *)

(** ** fetchIPInfo: the first usable response wins *)

Lemma attemptsFrom_first_success net retries k s fuel attempt :
  (attempt ≤ k ≤ retries)%nat →
  (retries - attempt < fuel)%nat →
  (∀ a, (attempt ≤ a < k)%nat → attemptFails (net a) = true) →
  attemptBody (net k) = Normal s →
  attemptsFrom fuel attempt retries net = Some (Normal s).
Proof.
  revert attempt. induction fuel as [|fuel IH]; intros attempt Hk Hfuel Hfail Hok; [lia|].
  simpl. rewrite (proj2 (Nat.leb_le attempt retries)) by lia.
  destruct (decide (attempt = k)) as [->|Hne]; [by rewrite Hok|].
  destruct (attemptFails_throws (net attempt)) as [e ->]; [apply Hfail; lia|].
  rewrite (proj2 (Nat.eqb_neq attempt retries)) by lia.
  apply IH; [lia|lia| |done]. intros a Ha. apply Hfail. lia.
Qed.

(** X1.  When the heuristic does not fire, [fetchIPInfo] returns the
    formatted data of the first attempt that gets an OK response with a
    usable body; what later attempts would have done does not matter. *)
Theorem fetchIPInfo_first_success b retries net k status ip city region org :
  isLikelyBlocked b = false →
  (1 ≤ k ≤ retries)%nat →
  (∀ a, (1 ≤ a < k)%nat → attemptFails (net a) = true) →
  net k = Responded true status (BodyData ip city region org) →
  fetchIPInfo b retries net
  = Some (Normal (ip +:+ " | " +:+ city +:+ ", " +:+ region +:+ " | ISP: " +:+ org)).
Proof.
  intros Hb Hk Hfail Hok. unfold fetchIPInfo. rewrite Hb.
  apply attemptsFrom_first_success with k; [lia|lia|done|by rewrite Hok].
Qed.

Lemma fetchIPInfo_first_success_witness :
  fetchIPInfo exampleBrowser 2
    (λ attempt, match attempt with
                | 1%nat => Rejected NetworkError
                | _ => Responded true 200 (BodyData "203.0.113.7" "Lyon" "ARA" "Example")
                end)
  = Some (Normal "203.0.113.7 | Lyon, ARA | ISP: Example").
Proof.
  refine (fetchIPInfo_first_success exampleBrowser 2 _ 2 200
            "203.0.113.7" "Lyon" "ARA" "Example" _ _ _ _).
  - by vm_compute.
  - lia.
  - intros a Ha. assert (a = 1%nat) as -> by lia. done.
  - done.
Defined.

(** ** Keys that do nothing *)

Lemma trimStart_blank s : blank s = true → trimStart s = "".
Proof.
  unfold blank. induction s as [|c s IH]; [done|].
  cbn [String.list_ascii_of_string forallb trimStart].
  intros [Hc Hs]%andb_true_iff. rewrite Hc. by apply IH.
Qed.

Lemma trimStart_not_blank s : blank s = false → trimStart s ≠ "".
Proof.
  unfold blank. induction s as [|c s IH]; [done|].
  cbn [String.list_ascii_of_string forallb trimStart].
  destruct (isWhiteSpace c); [apply IH|done].
Qed.

Lemma trimEnd_head c s : isWhiteSpace c = false → trimEnd (String c s) ≠ "".
Proof. intros Hc. rewrite trimEnd_cons, Hc. by destruct (trimEnd s). Qed.

Lemma trim_blank s : trim s = "" ↔ blank s = true.
Proof.
  unfold trim. split.
  - destruct (blank s) eqn:Hb; [done|]. intros Ht. exfalso.
    pose proof (trimStart_not_blank s Hb) as Hne.
    assert (Hhead : ∀ t, blank t = false →
      ∃ c r, trimStart t = String c r ∧ isWhiteSpace c = false).
    { clear. unfold blank. induction t as [|c t IH]; [done|].
      cbn [String.list_ascii_of_string forallb trimStart].
      destruct (isWhiteSpace c) eqn:Hc; [apply IH|eauto]. }
    destruct (Hhead s Hb) as (c & r & Hs & Hc). rewrite Hs in Ht.
    by apply (trimEnd_head c r Hc).
  - intros Hb. by rewrite trimStart_blank.
Qed.

(** X2.  Enter on an input that holds only white space, and every key
    other than Enter, ArrowUp and ArrowDown, leave the state as it is: no
    command runs, nothing is added to the history, no timer is set. *)
Theorem ignored_keys now key s :
  (key = "Enter" → blank (userInput (ui s)) = true) →
  key ≠ "ArrowUp" → key ≠ "ArrowDown" →
  handleInputSubmit now key s = s.
Proof.
  intros Henter Hup Hdown. unfold handleInputSubmit.
  destruct (isExitSequenceActive (ui s)); [done|].
  destruct (String.eqb_spec key "Enter") as [->|_].
  - rewrite (proj2 (trim_blank _)) by auto. cbn [truthy andb].
    by cbn [String.eqb Ascii.eqb Bool.eqb].
  - cbn [andb]. rewrite (proj2 (String.eqb_neq key "ArrowUp")) by done.
    by rewrite (proj2 (String.eqb_neq key "ArrowDown")).
Qed.

Lemma ignored_keys_witness :
  handleInputSubmit exampleClock "Enter" (setUserInput "   " (mount exampleBrowser))
  = setUserInput "   " (mount exampleBrowser).
Proof.
  apply ignored_keys; [|done..]. intros _. by vm_compute.
Defined.

(** ** What a command leaves on the page *)

Lemma processCommand_state now command s :
  terminalLines (ui (snd (processCommand now command s))) = []
  ∧ commandHistory (ui (snd (processCommand now command s))) = commandHistory (ui s)
  ∧ historyIndex (ui (snd (processCommand now command s))) = historyIndex (ui s).
Proof.
  destruct (processCommand_cases now command s) as [[resp ->]| ->]; [done|].
  cbn [snd]. by rewrite executeExit_eq.
Qed.

(** X3.  Enter on a non-blank input runs the trimmed input as a command
    and replaces the page: whatever was shown before, the page is then
    empty for [clear], and otherwise the prompt line, the lines of the
    response and an empty line.  The trimmed input is appended to the
    history, the history index is -1 and the input is emptied. *)
Theorem enter_replaces_page now s :
  isExitSequenceActive (ui s) = false →
  blank (userInput (ui s)) = false →
  terminalLines (ui (handleInputSubmit now "Enter" s))
  = (if bool_decide
          (head (fst (processCommand now (trim (userInput (ui s))) s))
           = Some "CLEAR_SCREEN")
     then []
     else ["root@anatole:~$ " +:+ trim (userInput (ui s))]
          ++ fst (processCommand now (trim (userInput (ui s))) s) ++ [""])
  ∧ commandHistory (ui (handleInputSubmit now "Enter" s))
    = commandHistory (ui s) ++ [trim (userInput (ui s))]
  ∧ historyIndex (ui (handleInputSubmit now "Enter" s)) = -1
  ∧ userInput (ui (handleInputSubmit now "Enter" s)) = "".
Proof.
  intros He Hb. unfold handleInputSubmit. rewrite He.
  cbn [String.eqb Ascii.eqb Bool.eqb andb].
  assert (truthy (trim (userInput (ui s))) = true) as ->.
  { destruct (trim (userInput (ui s))) eqn:Ht; [|done].
    apply trim_blank in Ht. congruence. }
  destruct (processCommand_state now (trim (userInput (ui s))) s) as (Ht & Hh & Hi).
  destruct (processCommand now (trim (userInput (ui s))) s) as [response s1].
  cbn [fst snd] in *.
  destruct (bool_decide (head response = Some "CLEAR_SCREEN")); st_simpl;
    rewrite ?Ht, ?Hh; done.
Qed.

Lemma enter_replaces_page_witness :
  commandHistory (ui (handleInputSubmit exampleClock "Enter"
                        (setUserInput " Help " (setIsInteractive true initialState))))
  = ["Help"].
Proof.
  refine (proj1 (proj2 (enter_replaces_page exampleClock
            (setUserInput " Help " (setIsInteractive true initialState)) _ _))).
  - done.
  - by vm_compute.
Defined.

(** ** Browsing the history *)

Lemma pressKeys_cons now key keys s :
  pressKeys now (key :: keys) s = pressKeys now keys (handleInputSubmit now key s).
Proof. done. Qed.

Lemma pressKeys_app now keys1 keys2 s :
  pressKeys now (keys1 ++ keys2) s = pressKeys now keys2 (pressKeys now keys1 s).
Proof. apply foldl_app. Qed.

Lemma arrowUp_step now s :
  isExitSequenceActive (ui s) = false → commandHistory (ui s) ≠ [] →
  handleInputSubmit now "ArrowUp" s
  = setUserInput
      (historyAt (commandHistory (ui s))
         (if historyIndex (ui s) =? -1
          then Z.of_nat (length (commandHistory (ui s))) - 1
          else Z.max 0 (historyIndex (ui s) - 1)))
      (setHistoryIndex
         (if historyIndex (ui s) =? -1
          then Z.of_nat (length (commandHistory (ui s))) - 1
          else Z.max 0 (historyIndex (ui s) - 1)) s).
Proof.
  intros He Hne. unfold handleInputSubmit. rewrite He.
  cbn [String.eqb Ascii.eqb Bool.eqb andb].
  destruct (commandHistory (ui s)); [done|]. by cbn [length Nat.ltb Nat.leb].
Qed.

Lemma arrowUp_many now k s :
  isExitSequenceActive (ui s) = false → commandHistory (ui s) ≠ [] →
  0 ≤ historyIndex (ui s) →
  historyIndex (ui (pressKeys now (replicate k "ArrowUp") s))
  = Z.max 0 (historyIndex (ui s) - Z.of_nat k)
  ∧ commandHistory (ui (pressKeys now (replicate k "ArrowUp") s)) = commandHistory (ui s)
  ∧ isExitSequenceActive (ui (pressKeys now (replicate k "ArrowUp") s)) = false
  ∧ ((0 < k)%nat →
     userInput (ui (pressKeys now (replicate k "ArrowUp") s))
     = historyAt (commandHistory (ui s)) (Z.max 0 (historyIndex (ui s) - Z.of_nat k))).
Proof.
  revert s. induction k as [|k IH]; intros s He Hne Hi.
  - cbn. split_and!; [lia|done|done|lia].
  - cbn [replicate]. rewrite pressKeys_cons, arrowUp_step by done.
    rewrite (proj2 (Z.eqb_neq _ _)) by lia.
    set (s1 := setUserInput _ _).
    destruct (IH s1) as (H1 & H2 & H3 & H4); [done|done|subst s1; st_simpl; lia|].
    subst s1. st_simpl_in H1. st_simpl_in H2. st_simpl_in H4.
    rewrite H1, H2, H3. split_and!; [lia|done|done|]. intros _.
    destruct k as [|k].
    + cbn [replicate pressKeys foldl]. st_simpl. f_equal; lia.
    + rewrite H4 by lia. f_equal; lia.
Qed.

Lemma arrowDown_many now j s :
  isExitSequenceActive (ui s) = false →
  0 ≤ historyIndex (ui s) →
  historyIndex (ui s) + Z.of_nat j ≤ Z.of_nat (length (commandHistory (ui s))) - 1 →
  historyIndex (ui (pressKeys now (replicate j "ArrowDown") s))
  = historyIndex (ui s) + Z.of_nat j
  ∧ commandHistory (ui (pressKeys now (replicate j "ArrowDown") s)) = commandHistory (ui s)
  ∧ isExitSequenceActive (ui (pressKeys now (replicate j "ArrowDown") s)) = false.
Proof.
  revert s. induction j as [|j IH]; intros s He Hi Hle.
  - cbn. split_and!; [lia|done..].
  - cbn [replicate]. rewrite pressKeys_cons.
    set (s1 := handleInputSubmit now "ArrowDown" s).
    assert (Hs1 : s1 = setUserInput (historyAt (commandHistory (ui s)) (historyIndex (ui s) + 1))
                         (setHistoryIndex (historyIndex (ui s) + 1) s)).
    { subst s1. unfold handleInputSubmit. rewrite He.
      cbn [String.eqb Ascii.eqb Bool.eqb andb].
      rewrite (proj2 (Z.leb_le _ _)) by done.
      by rewrite (proj2 (Z.leb_gt _ _)) by lia. }
    destruct (IH s1) as (H1 & H2 & H3); rewrite Hs1; st_simpl; try done; try lia.
    rewrite <- Hs1, H1, H2, H3, Hs1. st_simpl. split_and!; [lia|done..].
Qed.

(** X4.  From a fresh prompt (history index -1) with a non-empty history,
    pressing ArrowUp [k >= 1] times puts the [k]-th newest command in the
    input, stopping at the oldest; pressing ArrowDown as many times as
    ArrowUp was pressed, within the history, ends at index -1 with an empty
    input.  The history itself is not changed. *)
Theorem history_recall now s k :
  isExitSequenceActive (ui s) = false →
  historyIndex (ui s) = -1 →
  commandHistory (ui s) ≠ [] →
  (0 < k)%nat →
  historyIndex (ui (pressKeys now (replicate k "ArrowUp") s))
  = Z.max 0 (Z.of_nat (length (commandHistory (ui s))) - Z.of_nat k)
  ∧ userInput (ui (pressKeys now (replicate k "ArrowUp") s))
    = historyAt (commandHistory (ui s))
        (Z.max 0 (Z.of_nat (length (commandHistory (ui s))) - Z.of_nat k))
  ∧ commandHistory (ui (pressKeys now (replicate k "ArrowUp") s)) = commandHistory (ui s)
  ∧ ((k ≤ length (commandHistory (ui s)))%nat →
     historyIndex (ui (pressKeys now (replicate k "ArrowUp" ++ replicate k "ArrowDown") s))
     = -1
     ∧ userInput (ui (pressKeys now (replicate k "ArrowUp" ++ replicate k "ArrowDown") s))
       = "").
Proof.
  intros He Hi Hne Hk. destruct k as [|k]; [lia|].
  assert (Hlen : (0 < length (commandHistory (ui s)))%nat)
    by (destruct (commandHistory (ui s)); [done|cbn; lia]).
  set (s1 := handleInputSubmit now "ArrowUp" s).
  assert (Hs1 : s1 = setUserInput
                       (historyAt (commandHistory (ui s))
                          (Z.of_nat (length (commandHistory (ui s))) - 1))
                       (setHistoryIndex (Z.of_nat (length (commandHistory (ui s))) - 1) s)).
  { subst s1. rewrite arrowUp_step by done. by rewrite Hi. }
  assert (Hups : pressKeys now (replicate (S k) "ArrowUp") s
                 = pressKeys now (replicate k "ArrowUp") s1) by done.
  destruct (arrowUp_many now k s1) as (H1 & H2 & H3 & H4);
    [by rewrite Hs1..|rewrite Hs1; st_simpl; lia|].
  rewrite Hups. rewrite Hs1 in H1, H2, H4. st_simpl_in H1. st_simpl_in H2. st_simpl_in H4.
  rewrite <- Hs1 in *.
  split_and!.
  - rewrite H1. lia.
  - destruct k as [|k].
    + cbn [replicate pressKeys foldl]. rewrite Hs1. st_simpl. f_equal; lia.
    + rewrite H4 by lia. f_equal; lia.
  - done.
  - intros Hle. rewrite pressKeys_app, Hups.
    set (s2 := pressKeys now (replicate k "ArrowUp") s1) in *.
    replace (replicate (S k) "ArrowDown") with (replicate k "ArrowDown" ++ ["ArrowDown"])
      by (by rewrite <- replicate_S_end).
    rewrite pressKeys_app.
    destruct (arrowDown_many now k s2) as (D1 & D2 & D3); [done|lia|rewrite H1, H2; lia|].
    rewrite pressKeys_cons. cbn [pressKeys foldl]. unfold handleInputSubmit. rewrite D3.
    cbn [String.eqb Ascii.eqb Bool.eqb andb]. rewrite D1, D2, H1, H2.
    rewrite (proj2 (Z.leb_le _ _)) by lia.
    rewrite (proj2 (Z.leb_le _ _)) by lia. by st_simpl.
Qed.

Lemma history_recall_witness :
  userInput (ui (pressKeys exampleClock (replicate 2 "ArrowUp")
                   (setCommandHistory ["help"; "whoami"; "time"]
                      (setIsInteractive true initialState))))
  = "whoami".
Proof.
  refine (proj1 (proj2 (history_recall exampleClock
            (setCommandHistory ["help"; "whoami"; "time"]
               (setIsInteractive true initialState)) 2 _ _ _ _))); [done..|lia].
Defined.

(** ** Which commands are refused, and which start the exit sequence *)

Lemma recognized_responses now :
  helpOutput ≠ ["[ACCESS DENIED]"] ∧ whoamiOutput ≠ ["[ACCESS DENIED]"]
  ∧ accessOutput ≠ ["[ACCESS DENIED]"] ∧ traceOutput ≠ ["[ACCESS DENIED]"]
  ∧ timeOutput now ≠ ["[ACCESS DENIED]"].
Proof.
  split_and!; intros Hd; by vm_compute in Hd.
Qed.

Lemma not_elem_of_list (x : string) l : Forall (λ y, x ≠ y) l → x ∉ l.
Proof. intros Hall Hin. by eapply Forall_forall in Hall. Qed.

Lemma processCommand_split now command s :
  (trim (toLowerCase command) ∈ exitCommands →
   processCommand now command s = ([""], executeExit (setTerminalLines [] s)))
  ∧ (trim (toLowerCase command) ∉ exitCommands →
     snd (processCommand now command s) = setTerminalLines [] s).
Proof.
  unfold processCommand. generalize (trim (toLowerCase command)) as cmd. intros cmd.
  repeat match goal with
  | |- context [String.eqb cmd ?y] =>
      destruct (String.eqb_spec cmd y) as [->|?];
      [cbn [orb fst snd]; split;
       [intros Hin;
        first [reflexivity
              |exfalso; revert Hin; apply (bool_decide_unpack _); by vm_compute]
       |intros Hn;
        first [reflexivity
              |exfalso; apply Hn; apply (bool_decide_unpack _); by vm_compute]]
      |]
  end.
  cbn [orb fst snd]. split; [|done].
  intros Hin. exfalso. revert Hin. apply not_elem_of_list. unfold exitCommands.
  repeat constructor; done.
Qed.

(** X5.  The response is the single line [ACCESS DENIED] exactly when the
    lower-cased, trimmed command is not recognized; [flipthebits],
    [flipbits] and [flip] answer with one empty line and run [executeExit],
    and every other command changes nothing but the page, which it
    empties. *)
Theorem processCommand_effects now command s :
  (fst (processCommand now command s) = ["[ACCESS DENIED]"]
   ↔ trim (toLowerCase command) ∉ recognized)
  ∧ (trim (toLowerCase command) ∈ exitCommands →
     processCommand now command s = ([""], executeExit (setTerminalLines [] s)))
  ∧ (trim (toLowerCase command) ∉ exitCommands →
     snd (processCommand now command s) = setTerminalLines [] s).
Proof.
  split; [|apply processCommand_split].
  destruct (recognized_responses now) as (Hhelp & Hwho & Hacc & Htr & Htime).
  unfold processCommand. generalize (trim (toLowerCase command)) as cmd. intros cmd.
  repeat match goal with
  | |- context [String.eqb cmd ?y] =>
      destruct (String.eqb_spec cmd y) as [->|?];
      [cbn [orb fst snd]; split;
       [try done; discriminate
       |intros Hn; exfalso; apply Hn; apply (bool_decide_unpack _); by vm_compute]
      |]
  end.
  cbn [orb fst snd]. split; [intros _|done].
  apply not_elem_of_list. unfold recognized. repeat constructor; done.
Qed.

Lemma processCommand_effects_witness :
  processCommand exampleClock "  FlipBits " initialState
  = ([""], executeExit (setTerminalLines [] initialState)).
Proof.
  refine (proj1 (proj2 (processCommand_effects exampleClock "  FlipBits " initialState)) _).
  apply (bool_decide_unpack _). by vm_compute.
Defined.

(** ** The header, and the page around the terminal *)

Lemma commit_chrome r s : chrome (commit r s) = chrome s.
Proof.
  unfold commit. destruct (bool_decide _); [done|].
  unfold bsodEffect, bsodCleanup, chrome.
  destruct (countdownTimer (vars s));
    destruct (showBSOD _ && (0 <? _)); try done;
    by destruct (showBSOD _ && (_ =? 0)).
Qed.

Lemma typeCharacter_chrome b s : chrome (typeCharacter b s) = chrome s.
Proof.
  unfold typeCharacter, chrome.
  destruct (_ <=? _)%nat; [done|].
  destruct (_ <? _)%nat; by destruct (_ =? 0)%nat.
Qed.

Lemma typeExitSequence_chrome s : chrome (typeExitSequence s) = chrome s.
Proof.
  unfold typeExitSequence, chrome.
  destruct (_ <=? _)%nat; [done|].
  destruct (String.eqb _ ""); [by rewrite andb_false_r|].
  destruct (_ <? _)%nat; by destruct ((_ =? 0)%nat && _).
Qed.

Lemma handleInputSubmit_chrome now key r :
  chrome (handleInputSubmit now key r) = chrome r
  ∨ isExitSequenceActive (ui r) = false
    ∧ chrome (handleInputSubmit now key r)
      = (exitTriggered (host r) ++ [true], true, displayText (ui r), headerI (vars r)).
Proof.
  unfold handleInputSubmit.
  destruct (isExitSequenceActive (ui r)) eqn:He; [by left|].
  destruct (String.eqb key "Enter" && truthy (trim (userInput (ui r)))).
  { destruct (processCommand_cases now (trim (userInput (ui r))) r) as [[resp ->]| ->].
    - left. unfold chrome. destruct (bool_decide _); st_simpl; by rewrite He.
    - right. split; [done|]. rewrite executeExit_eq. unfold chrome.
      destruct (bool_decide _); st_simpl; done. }
  left. unfold chrome. repeat case_match; st_simpl; by rewrite ?He.
Qed.

(** An event leaves the header text and the calls of [onExitTriggered] as
    they are, or it is the key that starts the exit sequence, or a tick of
    the header's typing interval. *)
Lemma step_chrome b e r s :
  step b e r = Some s →
  chrome s = chrome r
  ∨ isExitSequenceActive (ui r) = false
    ∧ chrome s = (exitTriggered (host r) ++ [true], true,
                  displayText (ui r), headerI (vars r))
  ∨ (headerI (vars r) < String.length FULL_TEXT)%nat
    ∧ chrome s = (exitTriggered (host r), isExitSequenceActive (ui r),
                  slice0 (S (headerI (vars r))) FULL_TEXT, S (headerI (vars r))).
Proof.
  unfold step. destruct (negb _ || _); [done|].
  destruct e as [id|ipInfo|key now|value|].
  - unfold fire. destruct (timers (host r) !! id) as [[cb rep]|]; [|done].
    intros [= <-]. rewrite commit_chrome. cbn [callback repeats].
    assert (Hpre : chrome (if rep then r else clearTimeout id r) = chrome r)
      by (by destruct rep).
    destruct cb; cbn [runCallback].
    + left. by rewrite typeCharacter_chrome.
    + left. unfold exitSequenceStart. by rewrite typeExitSequence_chrome.
    + left. by rewrite typeExitSequence_chrome.
    + left. by destruct rep.
    + left. by destruct rep.
    + left. by destruct rep.
    + assert (Hi : headerI (vars (if rep then r else clearTimeout id r)) = headerI (vars r))
        by (by destruct rep).
      rewrite Hi.
      destruct (Nat.ltb_spec (headerI (vars r)) (String.length FULL_TEXT)).
      * right. right. split; [done|]. rewrite Nat.add_1_r. by destruct rep.
      * left. by destruct rep.
    + left. by destruct rep.
    + left. by destruct rep.
  - destruct (ipFetchPending (host r)); [|done]. intros [= <-].
    rewrite commit_chrome. by left.
  - destruct (inputRendered r); [|done]. intros [= <-]. rewrite commit_chrome.
    destruct (handleInputSubmit_chrome now key r) as [->|[He ->]]; [by left|].
    right. left. by split.
  - destruct (inputRendered r); [|done]. intros [= <-]. by left.
  - destruct (showBSOD (ui r) && showRestartButton (ui r)); [|done]. intros [= <-]. by left.
Qed.

Lemma mount_chrome b :
  exitTriggered (host (mount b)) = [] ∧ isExitSequenceActive (ui (mount b)) = false
  ∧ displayText (ui (mount b)) = "" ∧ headerI (vars (mount b)) = 0%nat.
Proof. by rewrite mount_unfold. Qed.

(** X6.  On every reachable page [onExitTriggered] has been called once
    with [true] if the exit sequence is active and never otherwise, so the
    home page shows its header and footer exactly while the exit sequence
    is not active; and an event never turns the exit sequence off again. *)
Theorem header_footer_hidden_by_exit b s :
  reachable b s →
  exitTriggered (host s) = (if isExitSequenceActive (ui s) then [true] else [])
  ∧ showHeaderFooter (exitTriggered (host s)) = negb (isExitSequenceActive (ui s))
  ∧ (∀ e s', step b e s = Some s' → isExitSequenceActive (ui s) = true →
             isExitSequenceActive (ui s') = true).
Proof.
  intros Hr.
  assert (He : exitTriggered (host s) = (if isExitSequenceActive (ui s) then [true] else [])).
  { induction Hr as [|r e s Hr IH Hstep].
    - by destruct (mount_chrome b) as (-> & -> & _ & _).
    - destruct (step_chrome _ _ _ _ Hstep) as [Hc|[[Hoff Hc]|[_ Hc]]];
        unfold chrome in Hc; injection Hc as -> -> _ _; try done.
      by rewrite IH, Hoff. }
  split; [done|]. split.
  - rewrite He. by destruct (isExitSequenceActive (ui s)).
  - intros e s' Hstep Hon.
    destruct (step_chrome _ _ _ _ Hstep) as [Hc|[[Hoff Hc]|[_ Hc]]];
      unfold chrome in Hc; injection Hc as _ -> _ _; congruence.
Qed.

Lemma header_footer_hidden_by_exit_witness :
  ∃ s, run exampleBrowser
         (fullAnimation ++ [Fire 1234; Change "flip"; KeyDown "Enter" exampleClock])
         (mount exampleBrowser) = Some s
       ∧ exitTriggered (host s) = [true]
       ∧ showHeaderFooter (exitTriggered (host s)) = false.
Proof.
  destruct (run exampleBrowser
              (fullAnimation ++ [Fire 1234; Change "flip"; KeyDown "Enter" exampleClock])
              (mount exampleBrowser)) as [s|] eqn:E; [|by vm_compute in E].
  exists s. split; [done|].
  assert (Hon : isExitSequenceActive (ui s) = true).
  { assert (E' : isExitSequenceActive ∘ ui <$>
                 run exampleBrowser
                   (fullAnimation ++ [Fire 1234; Change "flip"; KeyDown "Enter" exampleClock])
                   (mount exampleBrowser) = Some true) by (by vm_compute).
    rewrite E in E'. by injection E' as E'. }
  destruct (header_footer_hidden_by_exit exampleBrowser s
              (run_reachable _ _ _ _ (reachable_mount _) E)) as (H1 & H2 & _).
  rewrite H2, H1, Hon. split; reflexivity.
Defined.

(** X7.  The header always shows the first [i] characters of
    "promethean protocols", where [i] is the counter of its typing interval
    and never exceeds the length of that text; it shows the whole text once
    the counter has reached the length. *)
Theorem header_text_typed b s :
  reachable b s →
  displayText (ui s) = slice0 (headerI (vars s)) FULL_TEXT
  ∧ (headerI (vars s) ≤ String.length FULL_TEXT)%nat
  ∧ String.prefix (displayText (ui s)) FULL_TEXT = true
  ∧ (headerI (vars s) = String.length FULL_TEXT → displayText (ui s) = FULL_TEXT).
Proof.
  intros Hr.
  assert (Hd : displayText (ui s) = slice0 (headerI (vars s)) FULL_TEXT
               ∧ (headerI (vars s) ≤ String.length FULL_TEXT)%nat).
  { induction Hr as [|r e s Hr [IH1 IH2] Hstep].
    - destruct (mount_chrome b) as (_ & _ & -> & ->). split; [done|lia].
    - destruct (step_chrome _ _ _ _ Hstep) as [Hc|[[_ Hc]|[Hlt Hc]]];
        unfold chrome in Hc; injection Hc as _ _ -> ->;
        first [done|split; [done|lia]]. }
  destruct Hd as [Hd Hle]. split_and!; [done|done|..].
  - rewrite Hd. apply slice0_prefix.
  - intros Heq. rewrite Hd, Heq. done.
Qed.

Lemma header_text_typed_witness :
  ∃ s, run exampleBrowser [Fire 2; Fire 2; Fire 2] (mount exampleBrowser) = Some s
       ∧ displayText (ui s) = "pro".
Proof.
  destruct (run exampleBrowser [Fire 2; Fire 2; Fire 2] (mount exampleBrowser))
    as [s|] eqn:E; [|by vm_compute in E].
  exists s. split; [done|].
  assert (Hi : headerI (vars s) = 3%nat).
  { assert (E' : headerI ∘ vars <$>
                 run exampleBrowser [Fire 2; Fire 2; Fire 2] (mount exampleBrowser)
                 = Some 3%nat) by (by vm_compute).
    rewrite E in E'. by injection E' as E'. }
  rewrite (proj1 (header_text_typed exampleBrowser s
                    (run_reachable _ _ _ _ (reachable_mount _) E))), Hi.
  reflexivity.
Defined.

(** ** One animation at a time *)

Lemma pending_chain b s id t c :
  Inv b s → timers (host s) !! id = Some t → chain (callback t) = Some c →
  c = (if showBSOD (ui s) then 2 else if isExitSequenceActive (ui s) then 1 else 0)%nat.
Proof.
  intros Hinv Hid Hc.
  destruct (inv_typing _ _ Hinv) as (ts & Honly_t & Hphase_t).
  destruct (inv_exit _ _ Hinv) as (es & Honly_e & Hphase_e).
  pose proof (inv_crash _ _ Hinv) as Hcrash.
  unfold ExitPhase in Hphase_e. unfold CrashPhase in Hcrash. cbn zeta in Hcrash.
  unfold chain in Hc.
  destruct (isTyping (callback t)) eqn:Ht; [|destruct (isExitTimer (callback t)) eqn:He;
    [|destruct (isCountdown (callback t)) eqn:Hcd; [|done]]]; injection Hc as <-.
  - rewrite (Honly_t _ _ Hid Ht) in Hphase_t. destruct Hphase_t as (_ & _ & Hoff & _).
    rewrite Hoff in *. by destruct Hphase_e as (_ & -> & _).
  - pose proof (Honly_e _ _ Hid He) as ->.
    destruct (isExitSequenceActive (ui s)); [|by destruct Hphase_e].
    by destruct Hphase_e as (_ & -> & _).
  - destruct (showBSOD (ui s)); [done|].
    destruct Hcrash as (_ & _ & _ & Hnone). by pose proof (Hnone _ _ Hid Hcd).
Qed.

(** X8.  On a reachable page at most one timeout of the three animations
    (initial typing, exit sequence, countdown) is pending: two pending
    timers that belong to these chains are the same timer. *)
Theorem one_animation_timeout b s i j ti tj :
  reachable b s →
  timers (host s) !! i = Some ti → timers (host s) !! j = Some tj →
  is_Some (chain (callback ti)) → is_Some (chain (callback tj)) →
  i = j ∧ ti = tj.
Proof.
  intros Hr Hi Hj [ci Hci] [cj Hcj].
  pose proof (reachable_Inv _ _ Hr) as Hinv.
  pose proof (pending_chain _ _ _ _ _ Hinv Hi Hci) as Hpi.
  pose proof (pending_chain _ _ _ _ _ Hinv Hj Hcj) as Hpj.
  assert (ci = cj) as <- by congruence. clear Hpi Hpj.
  assert (i = j) as <-; [|split; congruence].
  destruct (inv_typing _ _ Hinv) as (ts & Honly_t & _).
  destruct (inv_exit _ _ Hinv) as (es & Honly_e & _).
  pose proof (inv_crash _ _ Hinv) as Hcrash.
  unfold CrashPhase in Hcrash. cbn zeta in Hcrash.
  assert (Honly_c : ∃ cs, onlyAt (timers (host s)) isCountdown cs).
  { destruct (showBSOD (ui s)).
    - destruct Hcrash as [_ Hcrash]. destruct (0 <? countdown (ui s)).
      + destruct Hcrash as (_ & id & _ & _ & Ho). by exists (Some id).
      + destruct Hcrash as [_ Ho]. by exists None.
    - destruct Hcrash as (_ & _ & _ & Ho). by exists None. }
  destruct Honly_c as [cs Honly_c].
  unfold chain in Hci, Hcj.
  destruct (isTyping (callback ti)) eqn:Ti.
  { destruct (isTyping (callback tj)) eqn:Tj; [|repeat case_match; congruence].
    pose proof (Honly_t _ _ Hi Ti). pose proof (Honly_t _ _ Hj Tj). congruence. }
  destruct (isExitTimer (callback ti)) eqn:Ei.
  { destruct (isTyping (callback tj)); [congruence|].
    destruct (isExitTimer (callback tj)) eqn:Ej; [|repeat case_match; congruence].
    pose proof (Honly_e _ _ Hi Ei). pose proof (Honly_e _ _ Hj Ej). congruence. }
  destruct (isCountdown (callback ti)) eqn:Ci; [|done].
  destruct (isTyping (callback tj)); [congruence|].
  destruct (isExitTimer (callback tj)); [congruence|].
  destruct (isCountdown (callback tj)) eqn:Cj; [|done].
  pose proof (Honly_c _ _ Hi Ci). pose proof (Honly_c _ _ Hj Cj). congruence.
Qed.

Lemma one_animation_timeout_witness :
  timers (host (mount exampleBrowser)) !! 1%nat = Some (timeout CbTypeCharacter)
  ∧ (1%nat = 1%nat ∧ timeout CbTypeCharacter = timeout CbTypeCharacter).
Proof.
  split; [by vm_compute|].
  refine (one_animation_timeout exampleBrowser (mount exampleBrowser) 1 1
            (timeout CbTypeCharacter) (timeout CbTypeCharacter)
            (reachable_mount _) _ _ _ _).
  - by vm_compute.
  - by vm_compute.
  - by eexists.
  - by eexists.
Defined.

(** ** The fingerprint *)

Lemma list_ind3 {A} (P : list A → Prop) :
  P [] → (∀ x, P [x]) → (∀ x y, P [x; y]) →
  (∀ x y z l, P l → P (x :: y :: z :: l)) → ∀ l, P l.
Proof.
  intros H0 H1 H2 H3 l.
  assert (P l ∧ (∀ x, P (x :: l)) ∧ (∀ x y, P (x :: y :: l))) as [? _]; [|done].
  induction l as [|a l (IH0 & IH1 & IH2)]; [done|].
  split_and!; [done|done|]. intros x y. by apply H3.
Qed.

Lemma base64Char_alphabet n :
  base64Char n ∈ String.list_ascii_of_string (base64Alphabet +:+ "=").
Proof.
  unfold base64Char. generalize (N.to_nat n) as k. intros k.
  apply (bool_decide_unpack _).
  do 65 (destruct k as [|k]; [by vm_compute|]). by vm_compute.
Qed.

Lemma btoaBytes_alphabet l :
  Forall (λ c, c ∈ String.list_ascii_of_string (base64Alphabet +:+ "="))
         (String.list_ascii_of_string (btoaBytes l)).
Proof.
  assert (Hpad : "="%char ∈ String.list_ascii_of_string (base64Alphabet +:+ "="))
    by (apply (bool_decide_unpack _); by vm_compute).
  induction l as [|x|x y|x y z l IH] using list_ind3;
    cbn [btoaBytes String.list_ascii_of_string];
    repeat (apply Forall_cons; split; [first [apply base64Char_alphabet|exact Hpad]|]);
    first [apply Forall_nil_2|exact IH].
Qed.

Lemma btoaBytes_length l :
  String.length (btoaBytes l) = (4 * ((length l + 2) / 3))%nat.
Proof.
  induction l as [|x|x y|x y z l IH] using list_ind3; try done.
  cbn [btoaBytes String.length length]. rewrite IH.
  replace (S (S (S (length l))) + 2)%nat with ((length l + 2) + 1 * 3)%nat by lia.
  rewrite Nat.div_add by lia. lia.
Qed.

Lemma slice0_length_min n s :
  String.length (slice0 n s) = (n `min` String.length s)%nat.
Proof.
  revert n. induction s as [|c s IH]; intros [|n]; cbn [slice0 String.length]; try done.
  rewrite IH. lia.
Qed.

Lemma slice0_chars n s :
  String.list_ascii_of_string (slice0 n s) = take n (String.list_ascii_of_string s).
Proof.
  revert n. induction s as [|c s IH]; intros [|n];
    cbn [slice0 String.list_ascii_of_string take]; try done.
  by rewrite IH.
Qed.

Lemma length_chars s : length (String.list_ascii_of_string s) = String.length s.
Proof. induction s as [|c s IH]; cbn; by rewrite ?IH. Qed.

Lemma prefix_chars m s (P : ascii → Prop) :
  String.prefix m s = true →
  Forall P (String.list_ascii_of_string s) → Forall P (String.list_ascii_of_string m).
Proof.
  revert s. induction m as [|a m IH]; intros [|c s]; cbn [String.prefix]; try done;
    try (intros _ _; apply Forall_nil_2).
  destruct (ascii_dec a c) as [->|]; [|done].
  cbn [String.list_ascii_of_string]. intros Hp [Hc Hs]%Forall_cons.
  apply Forall_cons. split; [done|]. by eapply IH.
Qed.

Lemma includes_chars m s (P : ascii → Prop) :
  includes m s = true →
  Forall P (String.list_ascii_of_string s) → Forall P (String.list_ascii_of_string m).
Proof.
  induction s as [|c s IH]; cbn [includes].
  - destruct (String.prefix m "") eqn:Hp; [|done]. intros _. by apply prefix_chars.
  - destruct (String.prefix m (String c s)) eqn:Hp.
    + intros _. by apply prefix_chars.
    + cbn [String.list_ascii_of_string]. intros Hi [_ Hs]%Forall_cons. by apply IH.
Qed.

(** X9.  The fingerprint consists of at most 16 characters of the base64
    alphabet and its padding sign: the first 16 of the [4 * ceil(n / 3)]
    characters that encode the [n] characters of user agent, platform and
    screen size.  It therefore never contains [network_trace:]. *)
Theorem fingerprint_shape b :
  String.length (fingerprint b)
  = (16 `min` (4 * ((String.length (userAgent b +:+ platform b +:+ screen b) + 2) / 3)))%nat
  ∧ Forall (λ c, c ∈ String.list_ascii_of_string (base64Alphabet +:+ "="))
           (String.list_ascii_of_string (fingerprint b))
  ∧ includes "network_trace:" (fingerprint b) = false.
Proof.
  assert (Hall : Forall (λ c, c ∈ String.list_ascii_of_string (base64Alphabet +:+ "="))
                   (String.list_ascii_of_string (fingerprint b))).
  { unfold fingerprint, btoa. rewrite slice0_chars. apply Forall_take, btoaBytes_alphabet. }
  split_and!; [|done|].
  - unfold fingerprint, btoa.
    by rewrite slice0_length_min, btoaBytes_length, length_map, length_chars.
  - destruct (includes "network_trace:" (fingerprint b)) eqn:Hin; [|done].
    pose proof (includes_chars _ _ _ Hin Hall) as Hm.
    exfalso. revert Hm. apply (bool_decide_unpack _). by vm_compute.
Qed.

(** ** The zone shown by [time] *)

Lemma includes_space_cons c s :
  includes " " (String c s) = Ascii.eqb c " " || includes " " s.
Proof.
  rewrite includes_cons. cbn [String.prefix].
  destruct (Ascii.eqb_spec c " ") as [->|Hc].
  - by destruct s.
  - destruct (ascii_dec " " c) as [<-|]; [done|]. done.
Qed.

Lemma lastWord_spec s :
  includes " " (lastWord s) = false
  ∧ ∃ p, s = p +:+ lastWord s ∧ (p = "" ∨ ∃ q, p = q +:+ " ").
Proof.
  induction s as [|c s (IHn & p & IHs & IHp)]; [split; [done|exists ""; split; [done|by left]]|].
  cbn [lastWord]. destruct (includes " " s) eqn:Hs.
  - split; [done|]. exists (String c p). split; [by rewrite IHs at 1|].
    right. destruct IHp as [->|[q ->]].
    + change (s = lastWord s) in IHs. rewrite <- IHs in IHn. congruence.
    + by exists (String c q).
  - destruct (Ascii.eqb_spec c " ") as [->|Hc].
    + split; [done|]. exists " ". split; [done|]. right. by exists "".
    + split; [|exists ""; split; [done|by left]].
      rewrite includes_space_cons, Hs. by destruct (Ascii.eqb_spec c " ").
Qed.

(** X10.  [time] answers with one line: the locale string of the moment,
    a space, and the zone, which is what follows the last space of the
    locale string with the short zone name (the whole string if it has no
    space), and so contains no space itself. *)
Theorem time_shows_last_word now command s :
  trim (toLowerCase command) = "time" →
  ∃ zone p,
    fst (processCommand now command s)
    = [span "text-cyan-400" (localeString now) +:+ " " +:+ span "text-yellow-400" zone]
    ∧ localeStringShortZone now = p +:+ zone
    ∧ (p = "" ∨ ∃ q, p = q +:+ " ")
    ∧ includes " " zone = false.
Proof.
  intros Hcmd.
  destruct (lastWord_spec (localeStringShortZone now)) as (Hn & p & Hs & Hp).
  exists (lastWord (localeStringShortZone now)), p.
  unfold processCommand. rewrite Hcmd. split_and!; done.
Qed.

Lemma time_shows_last_word_witness :
  ∃ zone p,
    fst (processCommand exampleClock " Time" initialState)
    = [span "text-cyan-400" (localeString exampleClock) +:+ " "
       +:+ span "text-yellow-400" zone]
    ∧ localeStringShortZone exampleClock = p +:+ zone
    ∧ (p = "" ∨ ∃ q, p = q +:+ " ")
    ∧ includes " " zone = false.
Proof.
  apply (time_shows_last_word exampleClock " Time" initialState). by vm_compute.
Defined.

(** ** The page while the exit sequence is typed *)

Lemma chars_app p r :
  String.list_ascii_of_string (p +:+ r)
  = String.list_ascii_of_string p ++ String.list_ascii_of_string r.
Proof. induction p as [|c p IH]; [done|]. cbn. by rewrite <- IH. Qed.

Lemma trimStart_keeps c s :
  c ∈ String.list_ascii_of_string s → isWhiteSpace c = false →
  c ∈ String.list_ascii_of_string (trimStart s).
Proof.
  intros Hin Hc. induction s as [|a s IH]; [done|].
  cbn [trimStart]. destruct (isWhiteSpace a) eqn:Ha; [|done].
  cbn [String.list_ascii_of_string] in Hin. apply elem_of_cons in Hin as [->|Hin].
  - congruence.
  - by apply IH.
Qed.

Lemma trimEnd_keeps c s :
  c ∈ String.list_ascii_of_string s → isWhiteSpace c = false →
  c ∈ String.list_ascii_of_string (trimEnd s).
Proof.
  intros Hin Hc. induction s as [|a s IH]; [done|].
  rewrite trimEnd_cons.
  cbn [String.list_ascii_of_string] in Hin. apply elem_of_cons in Hin as [->|Hin].
  - rewrite Hc. destruct (trimEnd s); cbn [String.list_ascii_of_string]; (apply elem_of_cons; by left).
  - specialize (IH Hin). destruct (trimEnd s) as [|x r]; [by apply elem_of_nil in IH|].
    cbn [String.list_ascii_of_string] in *. apply elem_of_cons; by right.
Qed.

Lemma toLowerCase_keeps c s :
  lowerChar c = c → c ∈ String.list_ascii_of_string s →
  c ∈ String.list_ascii_of_string (toLowerCase s).
Proof.
  intros Hc Hin. induction s as [|a s IH]; [done|].
  cbn [toLowerCase String.list_ascii_of_string] in *.
  apply elem_of_cons in Hin as [<-|Hin].
  - rewrite Hc. (apply elem_of_cons; by left).
  - apply elem_of_cons; right; by apply IH.
Qed.

(** The echoed command has no underscore, so its line cannot hold the
    marker the fetch callback looks for. *)
Lemma exitEcho_clean command :
  trim (toLowerCase command) ∈ exitCommands →
  includes "network_trace:" ("root@anatole:~$ " +:+ command) = false.
Proof.
  intros Hcmd.
  destruct (includes _ _) eqn:Hin; [|done]. exfalso.
  assert (Hno : "_"%char ∉ String.list_ascii_of_string command).
  { intros Hu.
    assert (Ht : "_"%char ∈ String.list_ascii_of_string (trim (toLowerCase command))).
    { unfold trim. apply trimEnd_keeps; [|done]. apply trimStart_keeps; [|done].
      by apply toLowerCase_keeps. }
    revert Ht. unfold exitCommands in Hcmd.
    repeat (apply elem_of_cons in Hcmd as [->|Hcmd];
            [apply (bool_decide_unpack _); by vm_compute|]).
    by apply elem_of_nil in Hcmd. }
  assert (Hall : Forall (λ c, c ≠ "_"%char)
                   (String.list_ascii_of_string ("root@anatole:~$ " +:+ command))).
  { rewrite chars_app. apply Forall_app. split.
    - apply (bool_decide_unpack _). by vm_compute.
    - apply Forall_forall. intros c Hc ->. done. }
  pose proof (includes_chars _ _ _ Hin Hall) as Hm.
  revert Hm. apply (bool_decide_unpack _). by vm_compute.
Qed.

Lemma exitSequence_clean L :
  L ∈ exitSequence → includes "network_trace:" L = false.
Proof.
  revert L. apply Forall_forall. apply (bool_decide_unpack _). by vm_compute.
Qed.

Lemma map_clean ipInfo (l : list string) :
  Forall (λ L, includes "network_trace:" L = false) l →
  map (λ line, if includes "network_trace:" line then networkTraceLine ipInfo else line) l = l.
Proof.
  induction 1 as [|L l HL _ IH]; [done|]. cbn [map]. by rewrite HL, IH.
Qed.

Lemma exitEcho_all_clean command :
  trim (toLowerCase command) ∈ exitCommands →
  Forall (λ L, includes "network_trace:" L = false) (exitEcho command).
Proof.
  intros Hcmd. unfold exitEcho. repeat apply Forall_cons_2; try done.
  by apply exitEcho_clean.
Qed.

Lemma take_exitSequence_clean i :
  Forall (λ L, includes "network_trace:" L = false) (take i exitSequence).
Proof.
  apply Forall_take, Forall_forall. apply exitSequence_clean.
Qed.

Lemma ExitTyped_ipInfo command ipInfo r cb :
  trim (toLowerCase command) ∈ exitCommands →
  ExitTyped command r cb →
  ExitTyped command (ipInfoThen ipInfo (set_ipFetchPending false r)) cb.
Proof.
  intros Hcmd. pose proof (exitEcho_all_clean _ Hcmd) as Hecho.
  unfold ipInfoThen. destruct cb; cbn [ExitTyped]; st_simpl; try done.
  - intros ->. by apply map_clean.
  - destruct (exitCharIndex (vars r) =? 0)%nat.
    + intros ->. apply map_clean, Forall_app. split; [done|apply take_exitSequence_clean].
    + intros (L & HL & Hle & ->). exists L. split_and!; [done..|].
      apply map_clean. repeat (apply Forall_app; split); [done|apply take_exitSequence_clean|].
      apply Forall_singleton. destruct (includes _ (slice0 _ _)) eqn:Hin; [|done].
      apply includes_slice0 in Hin. apply list_elem_of_lookup_2 in HL.
      apply exitSequence_clean in HL. congruence.
  - intros ->. apply map_clean, Forall_app. split; [done|].
    apply Forall_forall, exitSequence_clean.
Qed.

Lemma ExitTyped_frame command r s cb :
  terminalLines (ui s) = terminalLines (ui r) →
  exitLineIndex (vars s) = exitLineIndex (vars r) →
  exitCharIndex (vars s) = exitCharIndex (vars r) →
  ExitTyped command r cb → ExitTyped command s cb.
Proof. intros Hl Hi Hc. destruct cb; cbn [ExitTyped]; by rewrite ?Hl, ?Hi, ?Hc. Qed.

(** One call of [typeExitSequence]: it sets one timeout, for itself or,
    when the text is exhausted, for the crash screen. *)
Lemma ExitTyped_tick command s0 :
  ExitTyped command s0 CbTypeExitSequence →
  ∃ cb, isExitTimer cb = true
    ∧ timers (host (typeExitSequence s0))
      = <[nextTimerId (host s0) := timeout cb]> (timers (host s0))
    ∧ ExitTyped command (typeExitSequence s0) cb
    ∧ showBSOD (ui (typeExitSequence s0)) = showBSOD (ui s0)
    ∧ countdown (ui (typeExitSequence s0)) = countdown (ui s0).
Proof.
  cbn [ExitTyped]. intros Ht. unfold typeExitSequence.
  destruct (Nat.leb_spec (length exitSequence) (exitLineIndex (vars s0))) as [Hge|Hlt].
  { exists CbBsodTimeout. st_simpl. split_and!; try done.
    cbn [ExitTyped]. st_simpl.
    destruct (exitCharIndex (vars s0) =? 0)%nat.
    - rewrite Ht. by rewrite take_ge.
    - destruct Ht as (L & HL & _). apply lookup_lt_Some in HL. lia. }
  destruct (lookup_lt_is_Some_2 _ _ Hlt) as [L HL]. rewrite HL.
  cbn [default from_option Datatypes.id].
  exists CbTypeExitSequence.
  destruct (String.eqb_spec L "") as [->|HLne].
  { rewrite andb_false_r. st_simpl. split_and!; try done.
    cbn [ExitTyped]. st_simpl. cbn [Nat.eqb].
    destruct (Nat.eqb_spec (exitCharIndex (vars s0)) 0) as [Hz|Hz].
    - rewrite Ht, <- app_assoc. by rewrite (take_S_r _ _ "").
    - destruct Ht as (L & HL' & Hle & _). rewrite HL in HL'. injection HL' as <-.
      cbn in Hle. lia. }
  assert (0 < String.length L)%nat as Hpos by (destruct L; [done|cbn; lia]).
  rewrite andb_true_r.
  destruct (Nat.eqb_spec (exitCharIndex (vars s0)) 0) as [Hz|Hz];
    destruct (Nat.ltb_spec (exitCharIndex (vars s0)) (String.length L)) as [Hc|Hc];
    st_simpl; (split_and!; try done); cbn [ExitTyped]; st_simpl; cbn [Nat.eqb].
  - rewrite Ht, setLast_snoc, Hz, <- app_assoc. exists L. split_and!; [done|lia|done].
  - lia.
  - destruct Ht as (L' & HL' & Hle & ->). rewrite HL in HL'. injection HL' as <-.
    rewrite app_assoc, setLast_snoc, <- app_assoc, Nat.add_1_r.
    exists L. split_and!; [done|lia|done].
  - destruct Ht as (L' & HL' & Hle & ->). rewrite HL in HL'. injection HL' as <-.
    rewrite (take_S_r _ _ L) by done. by rewrite slice0_ge by lia.
Qed.

Lemma WhileExiting_frame r x :
  WhileExiting r →
  (∀ id t, timers (host x) !! id = Some t → timers (host r) !! id = Some t) →
  terminalLines (ui x) = terminalLines (ui r) →
  exitLineIndex (vars x) = exitLineIndex (vars r) →
  exitCharIndex (vars x) = exitCharIndex (vars r) →
  WhileExiting x.
Proof.
  intros Hw Ht Hl Hi Hc id cb Hid Hcb.
  destruct (Hw id cb (Ht _ _ Hid) Hcb) as (command & Hcmd & Hty).
  exists command. split; [done|]. by eapply ExitTyped_frame.
Qed.

Lemma handleInputSubmit_exit now key r :
  isExitSequenceActive (ui r) = false →
  isExitSequenceActive (ui (handleInputSubmit now key r)) = true →
  trim (toLowerCase (trim (userInput (ui r)))) ∈ exitCommands
  ∧ terminalLines (ui (handleInputSubmit now key r)) = exitEcho (trim (userInput (ui r)))
  ∧ timers (host (handleInputSubmit now key r))
    = <[S (nextTimerId (host r)) := timeout CbFocus]>
        (<[nextTimerId (host r) := timeout CbInitialTimeout]>
           (deleteAll (exitTimeoutsRef (vars r)) (timers (host r)))).
Proof.
  intros Hoff. unfold handleInputSubmit. rewrite Hoff.
  destruct (String.eqb key "Enter" && truthy (trim (userInput (ui r)))).
  2: { intros Hon. exfalso. revert Hon. repeat case_match; st_simpl; congruence. }
  destruct (processCommand_split now (trim (userInput (ui r))) r) as (Hexit & Hother).
  destruct (decide (trim (toLowerCase (trim (userInput (ui r)))) ∈ exitCommands))
    as [Hin|Hnot].
  - rewrite (Hexit Hin), executeExit_eq. case_bool_decide; [done|]. st_simpl.
    intros _. done.
  - specialize (Hother Hnot).
    destruct (processCommand now (trim (userInput (ui r))) r) as [resp s1].
    cbn [snd] in Hother. subst s1. case_bool_decide; st_simpl; congruence.
Qed.

Lemma WhileExiting_tick b r id s0 command :
  Inv b r →
  (∃ cb, isExitTimer cb = true ∧ timers (host r) !! id = Some (timeout cb)) →
  trim (toLowerCase command) ∈ exitCommands →
  timers (host s0) = delete id (timers (host r)) →
  showBSOD (ui s0) = showBSOD (ui r) → countdown (ui s0) = countdown (ui r) →
  ExitTyped command s0 CbTypeExitSequence →
  WhileExiting (commit r (typeExitSequence s0)).
Proof.
  intros Hinv (cb & Hcb & Hid) Hcmd Htm Hb Hc Hty.
  destruct (exit_pending _ _ _ (inv_exit _ _ Hinv) Hid Hcb) as (_ & _ & _ & Ho & _).
  destruct (ExitTyped_tick _ _ Hty) as (cb2 & Hcb2 & Htm2 & Hty2 & Hb2 & Hc2).
  rewrite commit_same by congruence.
  intros id' cb' Hid' Hcb'. rewrite Htm2, Htm in Hid'.
  apply lookup_insert_Some in Hid' as [[_ Heq]|[_ Hid']].
  - injection Heq as <-. by exists command.
  - apply lookup_delete_Some in Hid' as [Hne Hid'].
    pose proof (Ho _ _ Hid' Hcb') as Hsame. congruence.
Qed.

Lemma flags_exit s s' :
  flags s = flags s' →
  isExitSequenceActive (ui s) = isExitSequenceActive (ui s')
  ∧ showBSOD (ui s) = showBSOD (ui s').
Proof. unfold flags. by intros [= _ -> -> _ _]. Qed.

Lemma WhileExiting_step b e r s :
  Inv b r → WhileExiting r → step b e r = Some s → WhileExiting s.
Proof.
  intros Hinv Hw Hstep.
  pose proof (Inv_step _ _ _ _ Hinv Hstep) as Hinv'.
  assert (Hidle : isExitSequenceActive (ui s) = false ∨ showBSOD (ui s) = true →
                  WhileExiting s).
  { intros Hor id' cb' Hid' Hcb'.
    destruct (exit_pending _ _ _ (inv_exit _ _ Hinv') Hid' Hcb') as (? & _ & ? & _).
    destruct Hor; congruence. }
  unfold step in Hstep.
  destruct (negb (mounted (host r)) || reloaded (host r)); [done|].
  destruct e as [id|ipInfo|key now|value|].
  - unfold fire in Hstep.
    destruct (timers (host r) !! id) as [[cb rep]|] eqn:Hid; [|done].
    pose proof (intervalsKnown_repeats _ _ _ _ _ _ (inv_intervals _ _ Hinv) Hid) as Hrep.
    cbn [callback repeats] in *. subst rep. injection Hstep as <-.
    destruct cb; cbn [runCallback isInterval] in *.
    + apply Hidle. left.
      destruct (typing_pending _ _ _ (inv_typing _ _ Hinv) Hid) as (_ & Hoff & _).
      destruct (flags_exit _ _ (commit_flags r (typeCharacter b (clearTimeout id r))))
        as [-> _].
      destruct (typeCharacter_flags b (clearTimeout id r)) as [Hf|[_ Hf]];
        unfold flags in Hf; by injection Hf as _ -> _ _ _.
    + destruct (Hw _ _ Hid eq_refl) as (command & Hcmd & Hty). cbn [ExitTyped] in Hty.
      unfold exitSequenceStart.
      apply (WhileExiting_tick b r id _ command); [done|by exists CbInitialTimeout|done..|].
      cbn [ExitTyped]. st_simpl. cbn [Nat.eqb take]. by rewrite app_nil_r.
    + destruct (Hw _ _ Hid eq_refl) as (command & Hcmd & Hty).
      apply (WhileExiting_tick b r id _ command); [done|by exists CbTypeExitSequence|done..].
    + apply Hidle. right.
      by destruct (flags_exit _ _
                     (commit_flags r (setCountdown 7 (setShowBSOD true (clearTimeout id r)))))
        as [_ ->].
    + apply Hidle. right.
      destruct (countdown_pending _ _ _ (inv_crash _ _ Hinv) Hid) as (Hb & _).
      by destruct (flags_exit _ _
                     (commit_flags r (setCountdown (shown - 1) (clearTimeout id r))))
        as [_ ->].
    + rewrite commit_same by done. apply (WhileExiting_frame r); try done.
      st_simpl. intros i t Hi. by apply lookup_delete_Some in Hi as [_ Hi].
    + rewrite commit_same by (by destruct (_ <? _)%nat).
      apply (WhileExiting_frame r); try done; try (by destruct (_ <? _)%nat).
      destruct (_ <? _)%nat; [done|]. st_simpl.
      intros i t Hi. by apply lookup_delete_Some in Hi as [_ Hi].
    + rewrite commit_same by done. by apply (WhileExiting_frame r).
    + rewrite commit_same by done. by apply (WhileExiting_frame r).
  - destruct (ipFetchPending (host r)); [|done]. injection Hstep as <-.
    rewrite commit_same by done.
    intros id' cb' Hid' Hcb'. destruct (Hw id' cb' Hid' Hcb') as (command & Hcmd & Hty).
    exists command. split; [done|]. by apply ExitTyped_ipInfo.
  - destruct (inputRendered r) eqn:Hin; [|done]. injection Hstep as <-.
    destruct (inputRendered_true _ Hin) as (Hb & Hi & Hoff).
    destruct (handleInputSubmit_flags now key r) as [Hf|[_ Hf]].
    + apply Hidle. left.
      destruct (flags_exit _ _ (commit_flags r (handleInputSubmit now key r))) as [-> _].
      by destruct (flags_exit _ _ Hf) as [-> _].
    + unfold flags in Hf. injection Hf as _ Hon Hb2 Hc2 _.
      rewrite commit_same by done.
      destruct (handleInputSubmit_exit now key r Hoff Hon) as (Hcmd & Hl & Htm).
      destruct (exit_idle _ (inv_exit _ _ Hinv) Hoff) as (Ho & _ & _).
      intros id' cb' Hid' Hcb'. rewrite Htm in Hid'.
      apply lookup_insert_Some in Hid' as [[_ Heq]|[_ Hid']].
      { injection Heq as <-. done. }
      apply lookup_insert_Some in Hid' as [[_ Heq]|[_ Hid']].
      { injection Heq as <-. by exists (trim (userInput (ui r))). }
      rewrite lookup_deleteAll in Hid'. case_bool_decide; [done|].
      by pose proof (Ho _ _ Hid' Hcb').
  - destruct (inputRendered r) eqn:Hin; [|done]. injection Hstep as <-.
    destruct (inputRendered_true _ Hin) as (Hb & Hi & Hoff).
    apply Hidle. by left.
  - destruct (showBSOD (ui r)) eqn:Hb; [|done].
    destruct (showRestartButton (ui r)); [|done]. injection Hstep as <-.
    apply Hidle. by right.
Qed.

Lemma reachable_WhileExiting b s : reachable b s → WhileExiting s.
Proof.
  induction 1 as [|r e s Hr IH Hstep].
  - intros id cb. rewrite mount_unfold. cbn [host timers].
    intros Hid Hcb. exfalso. revert Hid.
    rewrite !lookup_insert_Some, lookup_empty.
    destruct cb; naive_solver.
  - eapply WhileExiting_step; [by apply reachable_Inv|done..].
Qed.

(** X11.  While the timeout that brings up the crash screen is pending,
    the page shows the echo of the command that started the exit sequence
    (the prompt with the command as typed, an empty response line, an
    empty line) followed by exactly the thirty lines of the exit text. *)
Theorem exit_sequence_typed b s id :
  reachable b s →
  timers (host s) !! id = Some (timeout CbBsodTimeout) →
  ∃ command,
    trim (toLowerCase command) ∈ exitCommands
    ∧ terminalLines (ui s)
      = ["root@anatole:~$ " +:+ command; ""; ""] ++ exitSequence.
Proof.
  intros Hr Hid. exact (reachable_WhileExiting _ _ Hr _ _ Hid eq_refl).
Qed.

Lemma exit_sequence_typed_witness :
  ∃ s, run exampleBrowser exitAnimation (mount exampleBrowser) = Some s
       ∧ ∃ command,
           trim (toLowerCase command) ∈ exitCommands
           ∧ terminalLines (ui s)
             = ["root@anatole:~$ " +:+ command; ""; ""] ++ exitSequence.
Proof.
  assert (Hid : run exampleBrowser exitAnimation (mount exampleBrowser)
                ≫= (λ x, timers (host x) !! 4012%nat) = Some (timeout CbBsodTimeout))
    by (vm_compute; reflexivity).
  destruct (run exampleBrowser exitAnimation (mount exampleBrowser)) as [s|] eqn:E;
    [|discriminate Hid].
  exists s. split; [reflexivity|]. cbn [mbind option_bind] in Hid.
  refine (exit_sequence_typed exampleBrowser s 4012 _ Hid).
  eapply run_reachable; [apply reachable_mount|exact E].
Defined.

(** ** The page is never stuck *)



(** ** The command history *)

Lemma commit_history r s : commandHistory (ui (commit r s)) = commandHistory (ui s).
Proof.
  unfold commit. destruct (bool_decide _); [done|].
  unfold bsodEffect, bsodCleanup.
  destruct (countdownTimer (vars s));
    destruct (showBSOD _ && (0 <? _)); try done;
    by destruct (showBSOD _ && (_ =? 0)).
Qed.

Lemma typeCharacter_history b s :
  commandHistory (ui (typeCharacter b s)) = commandHistory (ui s).
Proof.
  unfold typeCharacter.
  destruct (_ <=? _)%nat; [done|].
  destruct (_ <? _)%nat; by destruct (_ =? 0)%nat.
Qed.

Lemma typeExitSequence_history s :
  commandHistory (ui (typeExitSequence s)) = commandHistory (ui s).
Proof.
  unfold typeExitSequence.
  destruct (_ <=? _)%nat; [done|].
  destruct (String.eqb _ ""); [by rewrite andb_false_r|].
  destruct (_ <? _)%nat; by destruct ((_ =? 0)%nat && _).
Qed.

Lemma handleInputSubmit_grows now key r :
  commandHistory (ui (handleInputSubmit now key r)) = commandHistory (ui r)
  ∨ key = "Enter" ∧ trim (userInput (ui r)) ≠ ""
    ∧ commandHistory (ui (handleInputSubmit now key r))
      = commandHistory (ui r) ++ [trim (userInput (ui r))].
Proof.
  unfold handleInputSubmit.
  destruct (isExitSequenceActive (ui r)); [by left|].
  destruct (String.eqb_spec key "Enter") as [->|_]; cbn [andb].
  - destruct (trim (userInput (ui r))) as [|c t] eqn:Ht; cbn [truthy].
    { left. by repeat case_match. }
    right. split; [done|]. split; [done|].
    destruct (processCommand_state now (String c t) r) as (_ & Hh & _).
    destruct (processCommand now (String c t) r) as [resp s1]. cbn [snd] in Hh.
    destruct (bool_decide _); st_simpl; by rewrite Hh.
  - left. by repeat case_match.
Qed.

Lemma step_history b e r s :
  step b e r = Some s →
  commandHistory (ui s) = commandHistory (ui r)
  ∨ (∃ now, e = KeyDown "Enter" now) ∧ trim (userInput (ui r)) ≠ ""
    ∧ commandHistory (ui s) = commandHistory (ui r) ++ [trim (userInput (ui r))].
Proof.
  unfold step. destruct (negb _ || _); [done|].
  destruct e as [id|ipInfo|key now|value|].
  - unfold fire. destruct (timers (host r) !! id) as [[cb rep]|]; [|done].
    intros [= <-]. left. rewrite commit_history. cbn [callback repeats].
    destruct cb; cbn [runCallback]; unfold exitSequenceStart;
      rewrite ?typeCharacter_history, ?typeExitSequence_history;
      destruct rep; try done; by destruct (_ <? _)%nat.
  - destruct (ipFetchPending (host r)); [|done]. intros [= <-].
    left. by rewrite commit_history.
  - destruct (inputRendered r); [|done]. intros [= <-]. rewrite commit_history.
    destruct (handleInputSubmit_grows now key r) as [->|(-> & Hne & ->)]; [by left|].
    right. split; [by exists now|done].
  - destruct (inputRendered r); [|done]. intros [= <-]. by left.
  - destruct (showBSOD (ui r) && showRestartButton (ui r)); [|done]. intros [= <-]. by left.
Qed.

(** X13.  The command history only grows, and only by Enter: an event
    leaves it as it is or appends the trimmed input, which is not empty.
    So every entry of the history of a reachable page is a non-empty
    string without white space at either end. *)
Theorem history_grows b s :
  reachable b s →
  Forall (λ c, c ≠ "" ∧ trim c = c) (commandHistory (ui s))
  ∧ ∀ e s', step b e s = Some s' →
      commandHistory (ui s') = commandHistory (ui s)
      ∨ (∃ now, e = KeyDown "Enter" now) ∧ trim (userInput (ui s)) ≠ ""
        ∧ commandHistory (ui s') = commandHistory (ui s) ++ [trim (userInput (ui s))].
Proof.
  intros Hr. split; [|intros e s'; apply step_history].
  induction Hr as [|r e s Hr IH Hstep].
  - rewrite mount_unfold. apply Forall_nil_2.
  - destruct (step_history _ _ _ _ Hstep) as [->|(_ & Hne & ->)]; [done|].
    apply Forall_app. split; [done|]. apply Forall_singleton. split; [done|apply trim_idem].
Qed.

Lemma history_grows_witness :
  ∃ s, run exampleBrowser startExit (mount exampleBrowser) = Some s
       ∧ Forall (λ c, c ≠ "" ∧ trim c = c) (commandHistory (ui s)).
Proof.
  destruct (run exampleBrowser startExit (mount exampleBrowser)) as [s|] eqn:E;
    [|by vm_compute in E].
  exists s. split; [reflexivity|].
  refine (proj1 (history_grows exampleBrowser s _)).
  eapply run_reachable; [apply reachable_mount|exact E].
Defined.

(** * The header *)

Lemma padStart_two n :
  (n < 100)%N →
  TerminalHeader.padStart 2 "0" (pretty n)
  = String (ascii_of_N (48 + n / 10)) (String (ascii_of_N (48 + n mod 10)) "").
Proof.
  intros Hn.
  assert (Hall : Forall (λ k, TerminalHeader.padStart 2 "0" (pretty k)
                   = String (ascii_of_N (48 + k / 10))
                       (String (ascii_of_N (48 + k mod 10)) ""))
                   (N.of_nat <$> seq 0 100)).
  { apply (bool_decide_unpack _). by vm_compute. }
  rewrite Forall_forall in Hall. apply Hall.
  apply list_elem_of_fmap. exists (N.to_nat n). split; [by rewrite N2Nat.id|].
  apply elem_of_seq. lia.
Qed.

(** X14.  The clock of the header shows UTC time as [HH:MM:SS]: two
    decimal digits each for hours, minutes and seconds, padded with a
    zero, separated by colons; eight characters in all. *)
Theorem updateTime_format utcHours utcMinutes utcSeconds h :
  (utcHours < 24)%N → (utcMinutes < 60)%N → (utcSeconds < 60)%N →
  TerminalHeader.currentTime
    (TerminalHeader.updateTime utcHours utcMinutes utcSeconds h)
  = String (ascii_of_N (48 + utcHours / 10))
      (String (ascii_of_N (48 + utcHours mod 10))
         (String ":"
            (String (ascii_of_N (48 + utcMinutes / 10))
               (String (ascii_of_N (48 + utcMinutes mod 10))
                  (String ":"
                     (String (ascii_of_N (48 + utcSeconds / 10))
                        (String (ascii_of_N (48 + utcSeconds mod 10)) "")))))))
  ∧ TerminalHeader.isDark (TerminalHeader.updateTime utcHours utcMinutes utcSeconds h)
    = TerminalHeader.isDark h
  ∧ TerminalHeader.classList (TerminalHeader.updateTime utcHours utcMinutes utcSeconds h)
    = TerminalHeader.classList h.
Proof.
  intros Hh Hm Hs. split; [|done].
  unfold TerminalHeader.updateTime. cbn [TerminalHeader.currentTime].
  rewrite !padStart_two by lia. done.
Qed.

Lemma updateTime_format_witness :
  TerminalHeader.currentTime
    (TerminalHeader.updateTime 9 5 0 (TerminalHeader.mountHeader ∅ 0 0 0))
  = "09:05:00".
Proof.
  refine (proj1 (updateTime_format 9 5 0 (TerminalHeader.mountHeader ∅ 0 0 0) _ _ _)); lia.
Defined.

Lemma toggleTheme_sync h :
  ("dark" ∈ TerminalHeader.classList h ↔ TerminalHeader.isDark h = true) →
  ("dark" ∈ TerminalHeader.classList (TerminalHeader.toggleTheme h)
   ↔ TerminalHeader.isDark (TerminalHeader.toggleTheme h) = true)
  ∧ TerminalHeader.isDark (TerminalHeader.toggleTheme h) = negb (TerminalHeader.isDark h)
  ∧ TerminalHeader.classList (TerminalHeader.toggleTheme h) ∖ {["dark"]}
    = TerminalHeader.classList h ∖ {["dark"]}.
Proof.
  destruct h as [t d c]. unfold TerminalHeader.toggleTheme.
  cbn [TerminalHeader.isDark TerminalHeader.classList TerminalHeader.currentTime].
  destruct d; cbn [negb]; intros Hsync; (split_and!; [|done|]); set_solver.
Qed.

(** X15.  After the mount and any number of calls of [toggleTheme], the
    root element has the class [dark] exactly when [isDark] holds, which is
    after an even number of calls; no other class is added or removed. *)
Theorem theme_in_sync classes utcHours utcMinutes utcSeconds n :
  let h := Nat.iter n TerminalHeader.toggleTheme
             (TerminalHeader.mountHeader classes utcHours utcMinutes utcSeconds) in
  ("dark" ∈ TerminalHeader.classList h ↔ TerminalHeader.isDark h = true)
  ∧ TerminalHeader.isDark h = Nat.even n
  ∧ TerminalHeader.classList h ∖ {["dark"]} = classes ∖ {["dark"]}.
Proof.
  induction n as [|n IH].
  - cbn. split_and!; [|done|]; set_solver.
  - cbn zeta in *. destruct IH as (Hsync & Hd & Hrest).
    change (Nat.iter (S n) TerminalHeader.toggleTheme ?x)
      with (TerminalHeader.toggleTheme (Nat.iter n TerminalHeader.toggleTheme x)).
    destruct (toggleTheme_sync _ Hsync) as (Hsync' & Hd' & Hrest').
    split_and!; [done| |congruence].
    by rewrite Hd', Hd, Nat.even_succ, <- Nat.negb_even.
Qed.

(** * The rain *)

Lemma columns_bound i width :
  (CodeRain.fontSize * i < width ↔ i < (width + 13) / 14)%N.
Proof.
  unfold CodeRain.fontSize.
  pose proof (N.div_mod (width + 13) 14 ltac:(done)) as Hdiv.
  pose proof (N.mod_lt (width + 13) 14 ltac:(done)) as Hmod.
  revert Hdiv Hmod.
  generalize ((width + 13) / 14)%N as q, ((width + 13) mod 14)%N as r. lia.
Qed.

Lemma dropsFrom_replicate fuel i width :
  ((width + 13) / 14 - i ≤ N.of_nat fuel)%N →
  CodeRain.dropsFrom fuel i width = replicate (N.to_nat ((width + 13) / 14 - i)) 1%N.
Proof.
  revert i. induction fuel as [|fuel IH]; intros i Hfuel; cbn [CodeRain.dropsFrom].
  - by replace ((width + 13) / 14 - i)%N with 0%N by lia.
  - destruct (N.ltb_spec (CodeRain.fontSize * i) width) as [Hlt|Hge].
    + apply columns_bound in Hlt. rewrite IH by lia.
      replace (N.to_nat ((width + 13) / 14 - i))
        with (S (N.to_nat ((width + 13) / 14 - (i + 1)))) by lia.
      done.
    + assert (¬ (i < (width + 13) / 14)%N) as Hn by (rewrite <- columns_bound; lia).
      by replace ((width + 13) / 14 - i)%N with 0%N by lia.
Qed.

Lemma initDrops_replicate width :
  CodeRain.initDrops width = replicate (N.to_nat ((width + 13) / 14)) 1%N.
Proof.
  unfold CodeRain.initDrops. rewrite dropsFrom_replicate.
  - by rewrite N.sub_0_r.
  - pose proof (N.div_mod (width + 13) 14 ltac:(done)) as Hdiv.
    pose proof (N.mod_lt (width + 13) 14 ltac:(done)) as Hmod.
    revert Hdiv Hmod.
    generalize ((width + 13) / 14)%N as q, ((width + 13) mod 14)%N as r. lia.
Qed.

Lemma draw_length height rnd drops :
  length (snd (CodeRain.draw height rnd drops)) = length drops.
Proof. unfold CodeRain.draw. cbn [snd]. by rewrite length_map, length_imap. Qed.

Lemma draw_lookup height rnd drops i d :
  drops !! i = Some d →
  fst (CodeRain.draw height rnd drops) !! i
  = Some (fst (CodeRain.drawColumn height i d (rnd i)))
  ∧ snd (CodeRain.draw height rnd drops) !! i
    = Some (snd (CodeRain.drawColumn height i d (rnd i))).
Proof.
  intros Hd. unfold CodeRain.draw. cbn [fst snd].
  rewrite !lookup_map, !list_lookup_imap, Hd. done.
Qed.

Lemma rain_snoc width frames frame :
  CodeRain.rain width (frames ++ [frame])
  = snd (CodeRain.draw (fst frame) (snd frame) (CodeRain.rain width frames)).
Proof. unfold CodeRain.rain. by rewrite foldl_app. Qed.

(** X16.  The rain has one column for every multiple of the font size
    below the width the canvas had on mount, [ceil(width / 14)] in all,
    each starting at row 1; no frame and no resize adds or removes a
    column. *)
Theorem rain_columns width frames :
  length (CodeRain.rain width frames) = N.to_nat ((width + 13) / 14)
  ∧ (∀ i, (i < length (CodeRain.rain width frames))%nat
          ↔ (N.of_nat i * CodeRain.fontSize < width)%N)
  ∧ CodeRain.rain width [] = replicate (N.to_nat ((width + 13) / 14)) 1%N.
Proof.
  assert (Hlen : length (CodeRain.rain width frames) = N.to_nat ((width + 13) / 14)).
  { induction frames as [|frame frames IH] using rev_ind.
    - unfold CodeRain.rain. cbn [foldl]. by rewrite initDrops_replicate, length_replicate.
    - by rewrite rain_snoc, draw_length. }
  split_and!; [done| |apply initDrops_replicate].
  intros i. rewrite Hlen, N.mul_comm, columns_bound. lia.
Qed.

(** X17.  A frame draws, for each column [i] at drop [d], one character
    at [(14 i, 14 d)]; afterwards the drop is [d + 1] unless it was below
    the canvas, where it may restart at 1.  So a drop on the canvas moves
    down by exactly one row, and after [n] frames every drop is between 1
    and [n + 1]. *)
Theorem rain_drops width frames :
  Forall (λ d, (1 ≤ d ≤ 1 + N.of_nat (length frames))%N) (CodeRain.rain width frames)
  ∧ ∀ height rnd i d,
      CodeRain.rain width frames !! i = Some d →
      (∃ c, fst (CodeRain.draw height rnd (CodeRain.rain width frames)) !! i
            = Some {| CodeRain.text := c; CodeRain.x := (14 * N.of_nat i)%N;
                      CodeRain.y := (14 * d)%N |})
      ∧ (∃ d', snd (CodeRain.draw height rnd (CodeRain.rain width frames)) !! i = Some d'
               ∧ (d' = (d + 1)%N ∨ d' = 1%N ∧ (height < 14 * d)%N)
               ∧ ((14 * d ≤ height)%N → d' = (d + 1)%N)).
Proof.
  split.
  - induction frames as [|frame frames IH] using rev_ind.
    + rewrite (proj2 (proj2 (rain_columns width []))).
      apply Forall_replicate. cbn. lia.
    + rewrite rain_snoc, length_app. cbn [length].
      apply Forall_lookup. intros i d' Hi.
      destruct (lookup_lt_is_Some_2 (CodeRain.rain width frames) i) as [d Hd].
      { apply lookup_lt_Some in Hi. by rewrite draw_length in Hi. }
      destruct (draw_lookup (fst frame) (snd frame) _ _ _ Hd) as [_ Hi'].
      rewrite Hi in Hi'. injection Hi' as ->.
      rewrite Forall_lookup in IH. specialize (IH _ _ Hd).
      unfold CodeRain.drawColumn. cbn [snd].
      destruct (_ && _); lia.
  - intros height rnd i d Hd.
    destruct (draw_lookup height rnd _ _ _ Hd) as [-> ->].
    unfold CodeRain.drawColumn, CodeRain.fontSize. cbn [fst snd]. split.
    + eexists. by rewrite (N.mul_comm (N.of_nat i)), (N.mul_comm d).
    + eexists. split; [done|].
      destruct (N.ltb_spec height (d * 14)); destruct (CodeRain.above975 (rnd i));
        cbn [andb]; split; intros; first [lia|by left|right; split; lia|done].
Qed.

Lemma rain_drops_witness :
  snd (CodeRain.draw 600 (λ _, {| CodeRain.picked := 3; CodeRain.above975 := true |})
         (CodeRain.rain 30 [])) !! 2%nat
  = Some 2%N.
Proof.
  destruct (proj2 (rain_drops 30 []) 600%N
              (λ _, {| CodeRain.picked := 3; CodeRain.above975 := true |}) 2%nat 1%N
              eq_refl) as (_ & d' & Hd' & _ & Hon).
  rewrite Hd'. f_equal. apply Hon. lia.
Defined.
